(** * clipo: clipboard edit application and project detection

    A shallow embedding of [clipboardMonitor.ts] and [projectDetection.ts].

    Strings are sequences of code units; the embedding carries the code
    units 0..255 as [ascii].  Indices are [Z], as [indexOf] answers [-1].
    The file system, the clipboard and the engine's [Array.prototype.sort]
    are collaborators of the program and appear as explicit arguments. *)

From Stdlib Require Import ZArith QArith Qabs Ascii String List Bool Lia Permutation Sorted.
From stdpp Require Import base option list strings gmap sets.

Local Open Scope string_scope.
Local Open Scope Z_scope.

#[local] Arguments String.append !_ _ / : simpl nomatch.

(** ** String primitives of the host language *)

Module Js.

Definition LF : ascii := ascii_of_nat 10.
Definition nl : string := String LF "".

(** [WhiteSpace] and [LineTerminator] code units below 256: TAB, LF, VT,
    FF, CR, SP and NBSP.  Both [trim] and the regex class [\s] use it. *)
Definition isWhiteSpace (c : ascii) : bool :=
  let n := nat_of_ascii c in
  existsb (Nat.eqb n) [9; 10; 11; 12; 13; 32; 160]%nat.

Fixpoint trimStart (s : string) : string :=
  match s with
  | "" => ""
  | String c r => if isWhiteSpace c then trimStart r else s
  end.

Fixpoint trimEnd (s : string) : string :=
  match s with
  | "" => ""
  | String c r =>
      match trimEnd r with
      | "" => if isWhiteSpace c then "" else String c ""
      | r' => String c r'
      end
  end.

Definition trim (s : string) : string := trimEnd (trimStart s).

(** [s.startsWith(p)] *)
Fixpoint startsWith (s p : string) : bool :=
  match p, s with
  | "", _ => true
  | String _ _, "" => false
  | String a p', String b s' => if Ascii.eqb a b then startsWith s' p' else false
  end.

(** [s.includes(t)] *)
Fixpoint includes (s t : string) : bool :=
  startsWith s t ||
  match s with
  | "" => false
  | String _ r => includes r t
  end.

(** [s.endsWith(t)] *)
Fixpoint endsWith (s t : string) : bool :=
  String.eqb s t ||
  match s with
  | "" => false
  | String _ r => endsWith r t
  end.

Fixpoint indexOfFrom (s t : string) (i : Z) : Z :=
  if startsWith s t then i
  else match s with
       | "" => -1
       | String _ r => indexOfFrom r t (i + 1)
       end.

(** [s.indexOf(t)] *)
Definition indexOf (s t : string) : Z := indexOfFrom s t 0.

Definition len (s : string) : Z := Z.of_nat (String.length s).

Fixpoint dropChars (n : nat) (s : string) : string :=
  match n, s with
  | O, _ => s
  | S _, "" => ""
  | S n', String _ r => dropChars n' r
  end.

Fixpoint takeChars (n : nat) (s : string) : string :=
  match n, s with
  | O, _ => ""
  | S _, "" => ""
  | S n', String c r => String c (takeChars n' r)
  end.

(** [s.substring(a, b)]: both ends are clamped to [0, length] and swapped
    when they come in the wrong order. *)
Definition substring (s : string) (a b : Z) : string :=
  let clamp x := Z.min (Z.max x 0) (len s) in
  let lo := Z.min (clamp a) (clamp b) in
  let hi := Z.max (clamp a) (clamp b) in
  takeChars (Z.to_nat (hi - lo)) (dropChars (Z.to_nat lo) s).

(** [s.slice(a)] for a non-negative start *)
Definition sliceFrom (s : string) (a : Z) : string := dropChars (Z.to_nat a) s.

(** [s.split(sep)] for a separator of one code unit; the answer always has
    at least one element. *)
Fixpoint split (sep : ascii) (s : string) : list string :=
  match s with
  | "" => [""]
  | String c r =>
      if Ascii.eqb c sep then "" :: split sep r
      else match split sep r with
           | h :: t => String c h :: t
           | [] => [String c ""]
           end
  end.

(** [l.join(sep)] *)
Fixpoint join (sep : string) (l : list string) : string :=
  match l with
  | [] => ""
  | [x] => x
  | x :: r => x ++ sep ++ join sep r
  end.

(** [lines[0]] of a split, which is never empty *)
Definition first (l : list string) : string := List.hd "" l.

(** [s.replace(/^```/, '')] *)
Definition stripFence (s : string) : string :=
  if startsWith s "```" then dropChars 3 s else s.

(** [s.replace(/^\/\/\s*/, '')] *)
Definition stripMarker (s : string) : string :=
  if startsWith s "//" then trimStart (dropChars 2 s) else s.

(** The substitution template of [String.prototype.replace] for a string
    pattern: with no capture groups only [$$], [$&], [$`] and [$'] are
    replaced; every other [$] stays as it is. *)
Fixpoint getSubstitution (matched before after template : string) : string :=
  match template with
  | "" => ""
  | String c r =>
      if Ascii.eqb c "$" then
        match r with
        | String d r' =>
            if Ascii.eqb d "$" then "$" ++ getSubstitution matched before after r'
            else if Ascii.eqb d "&" then matched ++ getSubstitution matched before after r'
            else if Ascii.eqb d "`" then before ++ getSubstitution matched before after r'
            else if Ascii.eqb d "'" then after ++ getSubstitution matched before after r'
            else String c (getSubstitution matched before after r)
        | "" => "$"
        end
      else String c (getSubstitution matched before after r)
  end.

(** [s.replace(pattern, template)] for a string [pattern]: the first
    occurrence only. *)
Definition replace (s pattern template : string) : string :=
  let i := indexOf s pattern in
  if i <? 0 then s
  else
    let before := takeChars (Z.to_nat i) s in
    let after := dropChars (Z.to_nat i + String.length pattern) s in
    before ++ getSubstitution pattern before after template ++ after.

Definition toLowerAscii (c : ascii) : ascii :=
  let n := nat_of_ascii c in
  if (65 <=? n)%nat && (n <=? 90)%nat then ascii_of_nat (n + 32) else c.

Fixpoint toLowerCase (s : string) : string :=
  match s with
  | "" => ""
  | String c r => String (toLowerAscii c) (toLowerCase r)
  end.

End Js.

(** ** The path library *)

Module Path.
Import Js.

(** Modelled from the spec: the path library ([isAbsolute], [normalize],
    [resolve], [relative], [join], [dirname]) is imported by the sources
    and not part of them.  This is its POSIX behaviour, computed on the
    segments between separators. *)
Definition isAbsolute (p : string) : bool := startsWith p "/".

(** Modelled from the spec: the segment walk the path library shares
    between [normalize] and [resolve]: empty and [.] segments vanish, [..] removes the segment before it, and is kept only
    where nothing can be removed and the path may climb above its start.
    [acc] holds the segments kept so far, last first. *)
Fixpoint normalizeSegments (allowAboveRoot : bool) (segs acc : list string) : list string :=
  match segs with
  | [] => rev acc
  | seg :: rest =>
      if String.eqb seg "" || String.eqb seg "." then normalizeSegments allowAboveRoot rest acc
      else if String.eqb seg ".." then
        match acc with
        | top :: acc' =>
            if String.eqb top ".."
            then normalizeSegments allowAboveRoot rest (if allowAboveRoot then seg :: acc else acc)
            else normalizeSegments allowAboveRoot rest acc'
        | [] => normalizeSegments allowAboveRoot rest (if allowAboveRoot then [seg] else [])
        end
      else normalizeSegments allowAboveRoot rest (seg :: acc)
  end.

(** Modelled from the spec: the walk above, on a path and back. *)
Definition normalizeString (path : string) (allowAboveRoot : bool) : string :=
  join "/" (normalizeSegments allowAboveRoot (split "/" path) []).

(** Modelled from the spec: [normalize] of the path library; a trailing
    separator survives. *)
Definition normalize (path : string) : string :=
  if String.eqb path "" then "."
  else
    let abs := isAbsolute path in
    let trailing := endsWith path "/" in
    let n := normalizeString path (negb abs) in
    let n := if String.eqb n "" && negb abs then "." else n in
    let n := if negb (String.eqb n "") && trailing then n ++ "/" else n in
    if abs then "/" ++ n else n.

(** Modelled from the spec: the right-to-left walk of the path library's
    [resolve]: it stops at the first absolute argument; the working
    directory is consulted last. *)
Fixpoint resolveLoop (paths : list string) (acc : string) : string * bool :=
  match paths with
  | [] => (acc, false)
  | p :: rest =>
      if String.eqb p "" then resolveLoop rest acc
      else
        let acc' := p ++ "/" ++ acc in
        if isAbsolute p then (acc', true) else resolveLoop rest acc'
  end.

(** Modelled from the spec: [resolve] of the path library. *)
Definition resolve (cwd : string) (paths : list string) : string :=
  let '(joined, abs) := resolveLoop (rev paths ++ [cwd]) "" in
  let n := normalizeString joined (negb abs) in
  if abs then (if String.eqb n "" then "/" else "/" ++ n)
  else if String.eqb n "" then "." else n.

(** The non-empty segments of a path *)
Definition segments (p : string) : list string :=
  List.filter (fun s => negb (String.eqb s "")) (split "/" p).

Fixpoint dropCommon (a b : list string) : list string * list string :=
  match a, b with
  | x :: a', y :: b' => if String.eqb x y then dropCommon a' b' else (a, b)
  | _, _ => (a, b)
  end.

(** Modelled from the spec: [relative(from, to)] of the path library:
    both are resolved, the common leading segments are dropped, every
    remaining segment of [from] becomes [..]. *)
Definition relative (cwd from to : string) : string :=
  let from := resolve cwd [from] in
  let to := resolve cwd [to] in
  if String.eqb from to then ""
  else
    let '(up, down) := dropCommon (segments from) (segments to) in
    join "/" (List.map (fun _ => "..") up ++ down).

(** Modelled from the spec: [join] of the path library on two parts. *)
Definition join2 (a b : string) : string :=
  match List.filter (fun s => negb (String.eqb s "")) [a; b] with
  | [] => "."
  | parts => normalize (join "/" parts)
  end.

(** Modelled from the spec: [dirname] of the path library, for a
    normalized path. *)
Definition dirname (p : string) : string :=
  let parent := removelast (segments p) in
  if isAbsolute p then "/" ++ join "/" parent
  else match parent with [] => "." | _ => join "/" parent end.

End Path.

(** ** clipboardMonitor.ts *)

Module ClipboardMonitor.
Import Js.

Record ClipboardMonitorOptions := {
  projectDir : string;
  checkInterval : Z;
  verbose : bool
}.

(** What the monitor can reach of its host: the working directory and the
    text files, by absolute path.  Reading a path that holds no file
    throws; writing stores the text. *)
Record World := {
  cwd : string;
  files : gmap string string
}.

Definition writeTextFile (w : World) (path content : string) : World :=
  {| cwd := cwd w; files := <[path := content]> (files w) |}.

(** What the monitor prints, by kind and with the values shown; wording,
    icons and the time of day are left out. *)
Inductive Message :=
| NoValidFilePath
| BaseNotSet
| BlockedWrite (base target : string)
| ProcessingSearchReplace (path : string)
| InvalidSearchReplaceFormat
| EmptySearchPattern
| SearchPatternNotFound (path : string)
| SearchPatternPreview (pattern : string)
| CodeSectionReplaced (path : string)
| CouldNotReadWrite (path : string)
| ProcessingCompleteReplacement (path : string)
| ContentSize (n : Z)
| FileUpdated (path : string)
| ErrorCheckingClipboard.

Inductive Event :=
| Log (m : Message)
| ReadTextFile (path : string)
| WriteTextFile (path content : string)
| Mkdir (path : string).

Definition isFsAccess (e : Event) : bool :=
  match e with Log _ => false | _ => true end.

Definition SEARCH : string := "------- SEARCH".
Definition SEPARATOR : string := "=======".
Definition REPLACE : string := "+++++++ REPLACE".

Definition isPathSafe (cwd baseDir targetPath : string) : bool :=
  let rel := Path.relative cwd baseDir targetPath in
  negb (String.eqb rel "") && negb (startsWith rel "..") && negb (Path.isAbsolute rel).

Definition isFileReplacementPattern (content : string) : bool :=
  let firstLine := trim (first (split LF content)) in
  if startsWith firstLine "//" && includes firstLine "/" then true
  else if startsWith firstLine "```" then
    let afterTicks := trim (stripFence firstLine) in
    if startsWith afterTicks "//" && includes afterTicks "/" then true else false
  else false.

Definition isSearchReplacePattern (content : string) : bool :=
  includes content SEARCH && includes content SEPARATOR && includes content REPLACE.

Record Parsed := {
  filePath : string;
  fileContent : string;
  isFence : bool
}.

Definition parseFileContent (content : string) : Parsed :=
  let lines := split LF content in
  let firstLine := trim (first lines) in
  let isFence := startsWith firstLine "```" in
  let firstLine := if isFence then trim (stripFence firstLine) else firstLine in
  let filePath := if startsWith firstLine "//" then trim (stripMarker firstLine) else "" in
  let fileContent := join nl (List.tl lines) in
  let fileContent :=
    if isFence then
      let contentLines := split LF fileContent in
      if String.eqb (trim (List.last contentLines "")) "```"
      then join nl (removelast contentLines)
      else fileContent
    else fileContent in
  {| filePath := filePath; fileContent := fileContent; isFence := isFence |}.

(** The two cut texts of a search-and-replace block *)
Definition searchContentOf (content : string) : string :=
  trim (substring content (indexOf content SEARCH + len SEARCH) (indexOf content SEPARATOR)).

Definition replaceContentOf (content : string) : string :=
  trim (substring content (indexOf content SEPARATOR + len SEPARATOR) (indexOf content REPLACE)).

(** [searchContent.substring(0, 50).replace(/\n/g, ' ')], with the dots
    that follow a longer pattern *)
Fixpoint lineBreaksToSpaces (s : string) : string :=
  match s with
  | "" => ""
  | String c r => String (if Ascii.eqb c LF then " "%char else c) (lineBreaksToSpaces r)
  end.

Definition patternPreview (searchContent : string) : string :=
  lineBreaksToSpaces (substring searchContent 0 50)
  ++ (if 50 <? len searchContent then "..." else "").

(** [processSearchReplace(filePath, content)], on a host where the write
    that follows a successful read of the same file succeeds. *)
Definition processSearchReplace (opts : ClipboardMonitorOptions) (w : World)
    (path content : string) : World * list Event :=
  let searchStart := indexOf content SEARCH in
  let separator := indexOf content SEPARATOR in
  let replaceEnd := indexOf content REPLACE in
  if (searchStart =? -1) || (separator =? -1) || (replaceEnd =? -1) then
    (w, [Log (ProcessingSearchReplace path); Log InvalidSearchReplaceFormat])
  else
    let searchContent := searchContentOf content in
    let replaceContent := replaceContentOf content in
    if String.eqb searchContent "" then
      (w, [Log (ProcessingSearchReplace path); Log EmptySearchPattern])
    else
      match files w !! path with
      | None =>
          (w, [Log (ProcessingSearchReplace path); ReadTextFile path;
               Log (CouldNotReadWrite path)])
      | Some originalContent =>
          if negb (includes originalContent searchContent) then
            (w, ([Log (ProcessingSearchReplace path); ReadTextFile path;
                  Log (SearchPatternNotFound path)]
                 ++ (if verbose opts
                     then [Log (SearchPatternPreview (patternPreview searchContent))]
                     else []))%list)
          else
            let newFileContent := replace originalContent searchContent replaceContent in
            (writeTextFile w path newFileContent,
             [Log (ProcessingSearchReplace path); ReadTextFile path;
              WriteTextFile path newFileContent; Log (CodeSectionReplaced path)])
      end.

(** [processCompleteFileReplacement(targetPathAbs, fileContent)], on a host
    where making the directory and writing the file succeed; the world
    keeps the files only, not the directories. *)
Definition processCompleteFileReplacement (opts : ClipboardMonitorOptions) (w : World)
    (targetPathAbs fileContent : string) : World * list Event :=
  (writeTextFile w targetPathAbs fileContent,
   ([Log (ProcessingCompleteReplacement targetPathAbs)]
    ++ (if verbose opts then [Log (ContentSize (len fileContent))] else [])
    ++ [Mkdir (Path.dirname targetPathAbs); WriteTextFile targetPathAbs fileContent;
        Log (FileUpdated targetPathAbs)])%list).

(** The normalized absolute target of a declared path *)
Definition targetPathOf (cwd base filePath : string) : string :=
  Path.normalize (if Path.isAbsolute filePath then filePath
                  else Path.resolve cwd [base; filePath]).

Record Monitor := {
  options : ClipboardMonitorOptions;
  isRunning : bool;
  lastClipboardContent : string;
  baseProjectDirAbs : option string
}.

Definition processClipboardContent (m : Monitor) (w : World) (content : string)
    : World * list Event :=
  let filePath := filePath (parseFileContent content) in
  if String.eqb filePath "" then
    (w, if verbose (options m) then [Log NoValidFilePath] else [])
  else
    match baseProjectDirAbs m with
    | None => (w, [Log BaseNotSet])
    | Some base =>
        let targetPathAbs := targetPathOf (cwd w) base filePath in
        if negb (isPathSafe (cwd w) base targetPathAbs) then
          (w, [Log (BlockedWrite base targetPathAbs)])
        else if isSearchReplacePattern content then
          processSearchReplace (options m) w targetPathAbs content
        else
          processCompleteFileReplacement (options m) w targetPathAbs
            (fileContent (parseFileContent content))
    end.

(** What reading the clipboard gives: its text, or one of the two kinds
    of failure the poll tells apart. *)
Inductive ClipboardRead :=
| Text (clipboardContent : string)
| NoTextFound
| ReadFailed.

(** One poll *)
Definition checkClipboard (m : Monitor) (w : World) (clipboard : ClipboardRead)
    : Monitor * World * list Event :=
  match clipboard with
  | NoTextFound => (m, w, [])
  | ReadFailed => (m, w, if verbose (options m) then [Log ErrorCheckingClipboard] else [])
  | Text clipboardContent =>
      if String.eqb clipboardContent (lastClipboardContent m)
         || String.eqb (trim clipboardContent) "" then (m, w, [])
      else
        let m' := {| options := options m; isRunning := isRunning m;
                     lastClipboardContent := clipboardContent;
                     baseProjectDirAbs := baseProjectDirAbs m |} in
        if isFileReplacementPattern clipboardContent then
          let '(w', evs) := processClipboardContent m' w clipboardContent in (m', w', evs)
        else (m', w, [])
  end.

(** [start] up to the first poll: the base directory is fixed here. *)
Definition start (m : Monitor) (w : World) : Monitor :=
  if isRunning m then m
  else {| options := options m; isRunning := true;
          lastClipboardContent := lastClipboardContent m;
          baseProjectDirAbs :=
            Some (Path.normalize (Path.resolve (cwd w) [projectDir (options m)])) |}.

Definition newMonitor (opts : ClipboardMonitorOptions) : Monitor :=
  {| options := opts; isRunning := false; lastClipboardContent := "";
     baseProjectDirAbs := None |}.

End ClipboardMonitor.

(** ** projectDetection.ts *)

Module ProjectDetection.
Import Js.

Record ProjectDetectionRule := {
  rule_name : string;
  rule_priority : Z;
  rule_files : list string;
  rule_folders : list string;
  rule_patterns : list string
}.

Record DefaultIgnorePattern := {
  ign_files : list string;
  ign_folders : list string;
  ign_extensions : list string
}.

Definition rule (n : string) (p : Z) (fi fo pa : list string) : ProjectDetectionRule :=
  {| rule_name := n; rule_priority := p; rule_files := fi; rule_folders := fo;
     rule_patterns := pa |}.

(** The table as the module initialises it. *)
Definition PROJECT_DETECTION_RULES : list ProjectDetectionRule := [
  rule "Next.js" 10 ["next.config.js"; "next.config.ts"; "next.config.mjs"]
       [".next"] ["pages/"; "app/"; "components/"];
  rule "Vue.js" 9 ["vue.config.js"; "vite.config.js"; "nuxt.config.js"; "nuxt.config.ts"]
       [".nuxt"; "dist"] ["*.vue"];
  rule "React" 8 ["package.json"] []
       ["*.jsx"; "*.tsx"; "components/"; "pages/"; "app/"];
  rule "Deno" 10 ["deno.json"; "deno.jsonc"; "import_map.json"] []
       ["deps.ts"; "mod.ts"; "main.ts"];
  rule "Node.js" 8 ["package.json"; "package-lock.json"; "yarn.lock"; "pnpm-lock.yaml"]
       ["node_modules"] [];
  rule "Python" 7 ["requirements.txt"; "setup.py"; "pyproject.toml"; "Pipfile"; "poetry.lock"]
       ["__pycache__"; "venv"; ".venv"; "env"; ".env"] ["*.py"];
  rule "Rust" 7 ["Cargo.toml"; "Cargo.lock"] ["target"] ["*.rs"];
  rule "Go" 7 ["go.mod"; "go.sum"] ["vendor"] ["*.go"];
  rule "Arduino" 6 ["*.ino"] ["libraries"; "hardware"] ["*.ino"];
  rule "ESP-IDF" 8 ["CMakeLists.txt"; "sdkconfig"; "idf_component.yml"]
       ["build"; "managed_components"] ["main/"; "components/"];
  rule "C/C++" 5 ["Makefile"; "CMakeLists.txt"; "configure.ac"] ["build"; "obj"]
       ["*.c"; "*.cpp"; "*.cc"; "*.cxx"; "*.h"; "*.hpp"];
  rule "Java" 6 ["pom.xml"; "build.gradle"; "gradle.properties"]
       ["target"; "build"; ".gradle"] ["*.java"];
  rule "C#/.NET" 6 ["*.csproj"; "*.sln"; "project.json"; "packages.config"]
       ["bin"; "obj"; "packages"] ["*.cs"];
  rule "PHP" 5 ["composer.json"; "composer.lock"] ["vendor"] ["*.php"];
  rule "Ruby" 5 ["Gemfile"; "Gemfile.lock"; "Rakefile"] ["vendor/bundle"] ["*.rb"];
  rule "Swift" 6 ["Package.swift"; "*.xcodeproj"; "*.xcworkspace"]
       [".build"; "DerivedData"] ["*.swift"];
  rule "Kotlin" 6 ["build.gradle.kts"; "settings.gradle.kts"] ["build"; ".gradle"]
       ["*.kt"; "*.kts"]
].

Definition ignore (fi fo ex : list string) : DefaultIgnorePattern :=
  {| ign_files := fi; ign_folders := fo; ign_extensions := ex |}.

Definition DEFAULT_IGNORE_ENTRIES : list (string * DefaultIgnorePattern) := [
  ("Next.js", ignore
     [".env.local"; ".env.development.local"; ".env.test.local"; ".env.production.local"]
     [".next"; "out"; "dist"; "node_modules"; ".vercel"; ".netlify"]
     [".log"; ".lock"]);
  ("Vue.js", ignore
     [".env.local"; ".env.*.local"]
     ["dist"; "node_modules"; ".nuxt"; ".output"; ".cache"; ".temp"]
     [".log"; ".lock"]);
  ("React", ignore
     [".env.local"; ".env.development.local"; ".env.test.local"; ".env.production.local"]
     ["build"; "dist"; "node_modules"; ".cache"]
     [".log"; ".lock"]);
  ("Deno", ignore ["deno.lock"; ".env"] [".deno"; "vendor"] [".log"; ".cache"]);
  ("Node.js", ignore
     [".env"; ".env.local"; ".env.*.local"; "npm-debug.log*"; "yarn-debug.log*";
      "yarn-error.log*"]
     ["node_modules"; "dist"; "build"; ".nyc_output"; "coverage"; ".cache"]
     [".log"; ".lock"; ".tgz"; ".tar.gz"]);
  ("Python", ignore
     [".env"; "*.pyc"; "*.pyo"; "*.pyd"; ".Python"; "pip-log.txt";
      "pip-delete-this-directory.txt"]
     ["__pycache__"; "*.egg-info"; "dist"; "build"; ".pytest_cache"; ".coverage";
      ".mypy_cache"; "venv"; ".venv"; "env"; ".env"; "ENV"; "env.bak"; "venv.bak"]
     [".pyc"; ".pyo"; ".pyd"; ".so"; ".egg"; ".whl"]);
  ("Rust", ignore ["Cargo.lock"] ["target"; ".cargo"] [".rlib"; ".rmeta"; ".crate"]);
  ("Go", ignore ["go.sum"] ["vendor"; "bin"; "pkg"] [".exe"; ".test"; ".prof"]);
  ("Arduino", ignore ["*.hex"; "*.bin"; "*.elf"] ["build"; ".vscode"]
     [".hex"; ".bin"; ".elf"; ".map"; ".lst"]);
  ("ESP-IDF", ignore ["sdkconfig.old"; "*.bin"; "*.elf"; "*.map"]
     ["build"; "managed_components"; ".espressif"]
     [".bin"; ".elf"; ".map"; ".hex"]);
  ("C/C++", ignore
     ["*.o"; "*.obj"; "*.exe"; "*.dll"; "*.so"; "*.dylib"; "core"; "a.out"]
     ["build"; "bin"; "obj"; ".vs"; "Debug"; "Release"]
     [".o"; ".obj"; ".exe"; ".dll"; ".so"; ".dylib"; ".a"; ".lib"; ".pdb"; ".ilk"; ".exp"]);
  ("Java", ignore
     ["*.class"; "*.jar"; "*.war"; "*.ear"; "hs_err_pid*"]
     ["target"; "build"; ".gradle"; ".mvn"; "bin"]
     [".class"; ".jar"; ".war"; ".ear"]);
  ("C#/.NET", ignore
     ["*.exe"; "*.dll"; "*.pdb"; "*.cache"]
     ["bin"; "obj"; "packages"; ".vs"; ".vscode"; "TestResults"]
     [".exe"; ".dll"; ".pdb"; ".cache"; ".user"; ".suo"]);
  ("PHP", ignore [".env"; "composer.phar"] ["vendor"; "storage/logs"; "bootstrap/cache"]
     [".log"]);
  ("Ruby", ignore [".env"; "*.gem"; ".bundle"] ["vendor/bundle"; ".bundle"; "log"; "tmp"]
     [".gem"; ".rbc"]);
  ("Swift", ignore ["*.xcuserstate"; "*.xcuserdatad"]
     [".build"; "DerivedData"; "xcuserdata"; ".swiftpm"]
     [".xcuserstate"; ".xcuserdatad"]);
  ("Kotlin", ignore ["*.class"; "*.jar"; "*.war"; "*.ear"] ["build"; ".gradle"; "bin"]
     [".class"; ".jar"; ".war"; ".ear"])
].

Definition DEFAULT_IGNORE_PATTERNS : gmap string DefaultIgnorePattern :=
  list_to_map DEFAULT_IGNORE_ENTRIES.

Definition COMMON_IGNORE_PATTERNS : DefaultIgnorePattern :=
  ignore [".DS_Store"; "Thumbs.db"; "desktop.ini"; "*.swp"; "*.swo"; "*~"]
         [".git"; ".svn"; ".hg"; ".idea"; ".vscode"; "*.tmp"; "tmp"; "temp"]
         [".tmp"; ".temp"; ".bak"; ".backup"; ".old"].

(** *** The collaborators of detection *)

Inductive EntryKind := IsFile | IsDirectory | IsOther.

Record DirEntry := {
  entry_name : string;
  entry_kind : EntryKind
}.

Definition isFile (e : DirEntry) : bool :=
  match entry_kind e with IsFile => true | _ => false end.

Definition isDirectory (e : DirEntry) : bool :=
  match entry_kind e with IsDirectory => true | _ => false end.

(** The file system as detection sees it.  [None] stands for a call that
    throws: [exists_] is the library's [exists], which answers [false] for
    a missing path and passes every other failure on; [readDir] is a whole
    directory listing; [declaresReact] reads the manifest at a path, parses
    it and looks its [react] dependency up, and throws when reading,
    parsing or the lookup does. *)
Record FileSystem := {
  exists_ : string -> option bool;
  readDir : string -> option (list DirEntry);
  declaresReact : string -> option bool
}.

Record Candidate := {
  cand_name : string;
  cand_priority : Z;
  cand_confidence : Q
}.

(** The engine under the program: its [Array.prototype.sort], which may
    order the elements in any way when the comparator is not consistent
    but always keeps them. *)
Record Engine := {
  arraySort : (Candidate -> Candidate -> Q) -> list Candidate -> list Candidate;
  arraySort_perm : forall cmp l, Permutation (arraySort cmp l) l
}.

(** With a consistent comparator the sort is stable, so its answer is
    determined: an element moves behind those it compares greater than. *)
Fixpoint insertBy {A} (after : A -> A -> bool) (x : A) (l : list A) : list A :=
  match l with
  | [] => [x]
  | y :: r => if after x y then y :: insertBy after x r else x :: l
  end.

Definition stableSortBy {A} (after : A -> A -> bool) (l : list A) : list A :=
  foldr (insertBy after) [] l.

Definition stableSort {A} (cmp : A -> A -> Z) (l : list A) : list A :=
  stableSortBy (fun x y => 0 <? cmp x y) l.

Definition compareRules (a b : ProjectDetectionRule) : Z :=
  rule_priority b - rule_priority a.

Definition Qltb (a b : Q) : bool := negb (Qle_bool b a).

(** The comparator of the final sort, on the exact quotients; the program
    computes them in floating point, where a difference at the threshold
    may round to the other side. *)
Definition compareCandidates (a b : Candidate) : Q :=
  if Qltb (Qabs (cand_confidence a - cand_confidence b)) (1 # 5)
  then inject_Z (cand_priority b - cand_priority a)
  else (cand_confidence b - cand_confidence a)%Q.

(** *** Scoring one rule *)

Record Score := {
  confidence : Z;
  matchCount : Z;
  totalChecks : Z
}.

Definition zeroScore : Score := {| confidence := 0; matchCount := 0; totalChecks := 0 |}.

Definition checked (s : Score) : Score :=
  {| confidence := confidence s; matchCount := matchCount s;
     totalChecks := totalChecks s + 1 |}.

Definition matched (weight : Z) (s : Score) : Score :=
  {| confidence := confidence s + weight; matchCount := matchCount s + 1;
     totalChecks := totalChecks s |}.

Definition fileNames (entries : list DirEntry) : list string :=
  List.map entry_name (List.filter isFile entries).

(** [new RegExp(`\\.${ext}$`)] for a pattern [*.ext] whose extension has
    no character special to regular expressions. *)
Definition extensionRegex (pattern name : string) : bool :=
  endsWith name ("." ++ sliceFrom pattern 2).

(** ['^' + file.replace('*', '[^.]*') + '$']: the text around the first
    star, with no dot where the star stands. *)
Definition anchoredStarRegex (pattern name : string) : bool :=
  let i := Z.to_nat (indexOf pattern "*") in
  let pre := takeChars i pattern in
  let post := dropChars (S i) pattern in
  let n := (String.length name - String.length pre - String.length post)%nat in
  (String.length pre + String.length post <=? String.length name)%nat
  && startsWith name pre
  && String.eqb (dropChars (String.length pre + n) name) post
  && negb (includes (takeChars n (dropChars (String.length pre) name)) ".").

(** [new RegExp(pattern.replace('*', '.*'))]: the text before the first
    star somewhere in the name and the text behind it later on. *)
Fixpoint searchStarRegex (pre post name : string) : bool :=
  (startsWith name pre && includes (dropChars (String.length pre) name) post)
  || match name with
     | "" => false
     | String _ r => searchStarRegex pre post r
     end.

Definition fileGlobMatches (file name : string) : bool :=
  if startsWith file "*." then extensionRegex file name
  else anchoredStarRegex file name.

Definition patternGlobMatches (pattern name : string) : bool :=
  if startsWith pattern "*." then extensionRegex pattern name
  else
    let i := Z.to_nat (indexOf pattern "*") in
    searchStarRegex (takeChars i pattern) (dropChars (S i) pattern) name.

(** [/\.(c|cpp|cc|cxx|c\+\+)$/i] *)
Definition hasCppSource (f : string) : bool :=
  existsb (endsWith (toLowerCase f)) [".c"; ".cpp"; ".cc"; ".cxx"; ".c++"].

Definition buildFiles : list string := ["Makefile"; "CMakeLists.txt"; "configure.ac"].

Definition inList (x : string) (l : list string) : bool := existsb (String.eqb x) l.

(** One file indicator.  [None]: the existence check threw, and nothing
    around it catches. *)
Definition checkFile (fs : FileSystem) (dirPath : string)
    (r : ProjectDetectionRule) (s : Score) (file : string) : option Score :=
  let s := checked s in
  if includes file "*" then
    match readDir fs dirPath with
    | Some entries =>
        Some (if existsb (fileGlobMatches file) (fileNames entries) then matched 4 s else s)
    | None => Some s
    end
  else
    found ← exists_ fs (Path.join2 dirPath file);
    if negb found then Some s
    else if String.eqb file "package.json" && String.eqb (rule_name r) "React" then
      match declaresReact fs (Path.join2 dirPath file) with
      | Some hasReact => Some (if hasReact then matched 5 s else s)
      | None => Some (matched 3 s)
      end
    else if String.eqb (rule_name r) "C/C++" && inList file buildFiles then
      match readDir fs dirPath with
      | Some entries =>
          Some (if existsb hasCppSource (fileNames entries) then matched 3 s else s)
      | None => Some s
      end
    else Some (matched 3 s).

Definition checkFolder (fs : FileSystem) (dirPath : string) (s : Score) (folder : string)
    : option Score :=
  let s := checked s in
  found ← exists_ fs (Path.join2 dirPath folder);
  Some (if negb found then s else matched 2 s).

Fixpoint foldOpt {A B} (f : B -> A -> option B) (l : list A) (b : B) : option B :=
  match l with
  | [] => Some b
  | x :: r => b' ← f b x; foldOpt f r b'
  end.

Definition sourceDirs : list string := ["src"; "lib"; "app"; "pages"; "components"; "main"].

(** [collectFiles(currentPath, depth)] with [levels = 3 - depth] levels
    left to visit; the accumulator pairs [allFiles] with [allDirs]. *)
Fixpoint collectFiles (fs : FileSystem) (levels : nat) (currentPath : string)
    (acc : list string * list string) : option (list string * list string) :=
  match levels with
  | O => Some acc
  | S levels' =>
      entries ← readDir fs currentPath;
      foldOpt (fun (acc : list string * list string) (e : DirEntry) =>
                 if isFile e then Some ((fst acc ++ [entry_name e])%list, snd acc)
                 else if isDirectory e then
                   let acc := (fst acc, (snd acc ++ [(entry_name e ++ "/")%string])%list) in
                   if inList (entry_name e) sourceDirs
                   then collectFiles fs levels' (Path.join2 currentPath (entry_name e)) acc
                   else Some acc
                 else Some acc)
              entries acc
  end.

(** One round of the pattern loop, for a pattern whose regular expression
    can be built, as for every pattern of the table; building it from
    another pattern may throw, which ends the loop. *)
Definition checkPattern (allFiles allDirs : list string) (s : Score) (pattern : string)
    : Score :=
  let s := checked s in
  let matchesPattern :=
    if includes pattern "*" then existsb (patternGlobMatches pattern) allFiles
    else if endsWith pattern "/" then existsb (fun dir => String.eqb dir pattern) allDirs
    else inList pattern allFiles in
  if matchesPattern then matched 1 s else s.

Definition checkPatterns (fs : FileSystem) (dirPath : string) (r : ProjectDetectionRule)
    (s : Score) : Score :=
  match rule_patterns r with
  | [] => s
  | _ =>
      match collectFiles fs 3 dirPath ([], []) with
      | Some (allFiles, allDirs) => fold_left (checkPattern allFiles allDirs) (rule_patterns r) s
      | None => s
      end
  end.

Definition scoreRule (fs : FileSystem) (dirPath : string)
    (r : ProjectDetectionRule) : option Score :=
  s ← foldOpt (checkFile fs dirPath r) (rule_files r) zeroScore;
  s ← foldOpt (checkFolder fs dirPath) (rule_folders r) s;
  Some (checkPatterns fs dirPath r s).

Definition normalizedConfidence (r : ProjectDetectionRule) (s : Score) : Q :=
  if 0 <? totalChecks s
  then confidence s
       # Z.to_pos (Z.max (totalChecks s)
                         (Z.of_nat (length (rule_files r) + length (rule_folders r))))
  else 0.

Definition considered (s : Score) : bool := (0 <? matchCount s) && (2 <=? confidence s).

Definition scanRule (fs : FileSystem) (dirPath : string)
    (detectedTypes : list Candidate) (r : ProjectDetectionRule) : option (list Candidate) :=
  s ← scoreRule fs dirPath r;
  Some (if considered s
        then (detectedTypes
              ++ [{| cand_name := rule_name r; cand_priority := rule_priority r;
                     cand_confidence := normalizedConfidence r s |}])%list
        else detectedTypes).

Inductive Outcome :=
| Returned (types : list string)
| Raised.

(** [detectProjectType(dirPath)].  The table is the module-level array:
    the call receives it and hands back what it leaves there. *)
Definition detectProjectType (E : Engine) (table : list ProjectDetectionRule)
    (fs : FileSystem) (dirPath : string) : list ProjectDetectionRule * Outcome :=
  let sortedRules := stableSort compareRules table in
  (sortedRules,
   match foldOpt (scanRule fs dirPath) sortedRules [] with
   | Some detectedTypes =>
       Returned (List.map cand_name (take 3 (arraySort E compareCandidates detectedTypes)))
   | None => Raised
   end).

(** *** Ignore patterns *)

(** Property lookup on the table object: its own keys first, then the keys
    every object inherits, whose values are no ignore patterns.  Under
    Deno [__proto__] is not among them. *)
Definition objectPrototypeKeys : list string :=
  ["constructor"; "__defineGetter__"; "__defineSetter__"; "hasOwnProperty";
   "__lookupGetter__"; "__lookupSetter__"; "isPrototypeOf"; "propertyIsEnumerable";
   "toString"; "valueOf"; "toLocaleString"].

Inductive Property :=
| Own (p : DefaultIgnorePattern)
| Inherited
| Missing.

Definition getProperty (projectType : string) : Property :=
  match DEFAULT_IGNORE_PATTERNS !! projectType with
  | Some p => Own p
  | None => if inList projectType objectPrototypeKeys then Inherited else Missing
  end.

(** [[...new Set(l)]]: insertion order, first occurrence kept. *)
Fixpoint setFrom (l set : list string) : list string :=
  match l with
  | [] => set
  | x :: r => setFrom r (if inList x set then set else (set ++ [x])%list)
  end.

Definition dedupe (l : list string) : list string := setFrom l [].

Definition mergeType (combined : DefaultIgnorePattern) (projectType : string)
    : option DefaultIgnorePattern :=
  match getProperty projectType with
  | Own p =>
      Some (ignore (ign_files combined ++ ign_files p)%list
                   (ign_folders combined ++ ign_folders p)%list
                   (ign_extensions combined ++ ign_extensions p)%list)
  | Inherited => None
  | Missing => Some combined
  end.

(** [getDefaultIgnorePatterns(projectTypes)]; [None] when spreading the
    fields of an inherited property throws. *)
Definition getDefaultIgnorePatterns (projectTypes : list string)
    : option DefaultIgnorePattern :=
  combined ← foldOpt mergeType projectTypes COMMON_IGNORE_PATTERNS;
  Some (ignore (dedupe (ign_files combined)) (dedupe (ign_folders combined))
               (dedupe (ign_extensions combined))).

(** [mergeArrays(existing, defaults)] of the configuration loader *)
Definition mergeArrays (existing : option (list string)) (defaults : list string)
    : list string :=
  match existing with
  | None | Some [] => defaults
  | Some existing => dedupe (existing ++ defaults)%list
  end.



End ProjectDetection.

(** ** Directories and engines to run the program on *)

Module Fixtures.
Import Js ProjectDetection.

Lemma insertBy_perm {A} (after : A -> A -> bool) (x : A) (l : list A) :
  Permutation (insertBy after x l) (x :: l).
Proof.
  induction l as [|y r IH]; simpl; [reflexivity|].
  destruct (after x y); [|reflexivity].
  rewrite IH. apply perm_swap.
Qed.

Lemma stableSortBy_perm {A} (after : A -> A -> bool) (l : list A) :
  Permutation (stableSortBy after l) l.
Proof.
  induction l as [|x r IH]; simpl; [reflexivity|].
  unfold stableSortBy in *. simpl. rewrite insertBy_perm. by constructor.
Qed.

(** An engine whose sort is the stable insertion sort for every comparator. *)
Definition stableEngine : Engine :=
  {| arraySort := fun cmp => stableSortBy (fun x y => Qltb 0 (cmp x y));
     arraySort_perm := fun cmp l => stableSortBy_perm _ l |}.

Definition file (n : string) : DirEntry := {| entry_name := n; entry_kind := IsFile |}.
Definition folder (n : string) : DirEntry := {| entry_name := n; entry_kind := IsDirectory |}.

(** A readable directory [dir] with the given top-level entries, whose
    subdirectories are empty; [manifest] is what reading and parsing any
    manifest gives. *)
Definition flatDir (dir : string) (entries : list DirEntry) (manifest : option bool)
    : FileSystem :=
  {| exists_ := fun p =>
       Some (existsb (fun e => String.eqb p (Path.join2 dir (entry_name e))) entries);
     readDir := fun p =>
       if String.eqb p dir then Some entries
       else if existsb (fun e => isDirectory e && String.eqb p (Path.join2 dir (entry_name e)))
                       entries
            then Some [] else None;
     declaresReact := fun _ => manifest |}.

End Fixtures.

(** ** Facts about the string primitives *)

Section StringFacts.
Import Js.

Lemma startsWith_app (p r : string) : startsWith (p ++ r) p = true.
Proof.
  induction p as [|a p IH]; simpl; [by destruct r|].
  by rewrite Ascii.eqb_refl.
Qed.

Lemma startsWith_inv (s p : string) :
  startsWith s p = true -> exists r, s = p ++ r.
Proof.
  revert s. induction p as [|a p IH]; intros s H.
  - by exists s.
  - destruct s as [|b s]; simpl in H; [done|].
    destruct (Ascii.eqb a b) eqn:Hab; [|done].
    apply Ascii.eqb_eq in Hab as ->.
    destruct (IH s H) as [r ->]. by exists r.
Qed.

Lemma startsWith_empty (s : string) : startsWith s "" = true.
Proof. by destruct s. Qed.

Lemma startsWith_includes (s p : string) : startsWith s p = true -> includes s p = true.
Proof. intros H. destruct s; cbn [includes]; by rewrite H. Qed.

Lemma includes_app (a t b : string) : includes (a ++ t ++ b) t = true.
Proof.
  induction a as [|c a IH].
  - change ("" ++ t ++ b) with (t ++ b).
    apply startsWith_includes. apply (startsWith_app t b).
  - change (String c a ++ t ++ b) with (String c (a ++ t ++ b)).
    cbn [includes]. rewrite IH. apply orb_true_r.
Qed.

Lemma includes_inv (s t : string) :
  includes s t = true -> exists a b, s = a ++ t ++ b.
Proof.
  induction s as [|c s IH]; cbn [includes]; intros H.
  - rewrite orb_false_r in H. destruct t; [|done]. by exists "", "".
  - apply orb_true_iff in H as [H|H].
    + apply startsWith_inv in H as [r Hr]. by exists "", r.
    + destruct (IH H) as (a & b & ->). by exists (String c a), b.
Qed.

(** An occurrence of [t] somewhere in [s] *)
Definition occursIn (t s : string) : Prop := exists a b, s = a ++ t ++ b.

Lemma includes_occursIn (s t : string) : includes s t = true <-> occursIn t s.
Proof.
  split; [apply includes_inv|]. intros (a & b & ->). apply includes_app.
Qed.

Lemma indexOfFrom_found (s t : string) (i : Z) :
  includes s t = true -> i <= indexOfFrom s t i.
Proof.
  revert i. induction s as [|c s IH]; intros i; cbn [includes indexOfFrom].
  - rewrite orb_false_r. intros ->. lia.
  - destruct (startsWith (String c s) t); simpl; [lia|].
    intros H. specialize (IH (i + 1) H). lia.
Qed.

Lemma indexOf_found (s t : string) : includes s t = true -> 0 <= indexOf s t.
Proof. apply indexOfFrom_found. Qed.

Lemma indexOfFrom_missing (s t : string) (i : Z) :
  includes s t = false -> indexOfFrom s t i = -1.
Proof.
  revert i. induction s as [|c s IH]; intros i; cbn [includes indexOfFrom].
  - rewrite orb_false_r. by intros ->.
  - intros H. apply orb_false_iff in H as [-> H]. by apply IH.
Qed.

Lemma app_empty_r (s : string) : s ++ "" = s.
Proof. induction s; simpl; congruence. Qed.

Lemma app_assoc_s (a b c : string) : (a ++ b) ++ c = a ++ b ++ c.
Proof. induction a; simpl; congruence. Qed.

Lemma dropChars_app (a b : string) : dropChars (String.length a) (a ++ b) = b.
Proof. induction a; simpl; [by destruct b|done]. Qed.

(** A template without a dollar sign is substituted as it stands. *)
Lemma getSubstitution_plain (m b a template : string) :
  includes template "$" = false -> getSubstitution m b a template = template.
Proof.
  induction template as [|c r IH]; [done|].
  cbn [includes]. intros H. apply orb_false_iff in H as [H1 H2].
  cbn [getSubstitution]. cbn [startsWith] in H1.
  destruct (Ascii.eqb "$" c) eqn:E1; [by rewrite startsWith_empty in H1|].
  rewrite Ascii.eqb_sym, E1. by rewrite IH.
Qed.

End StringFacts.

(** ** Recognition of a clipboard text *)

Section Recognition.
Import Js ClipboardMonitor.

(** The first line as the recognizer reads it *)
Definition firstLineOf (content : string) : string := trim (first (split LF content)).

(** The two shapes the recognizer accepts, without its test for a slash *)
Definition acceptedFirstLine (firstLine : string) : bool :=
  startsWith firstLine "//"
  || (startsWith firstLine "```" && startsWith (trim (stripFence firstLine)) "//").

(** The comment marker already holds the slash the recognizer asks for. *)
Lemma marker_includes_slash (s : string) :
  startsWith s "//" = true -> includes s "/" = true.
Proof.
  intros H. apply startsWith_inv in H as [r ->].
  apply (includes_app "" "/" (String "/" r)).
Qed.

Lemma isFileReplacementPattern_shape (content : string) :
  isFileReplacementPattern content = acceptedFirstLine (firstLineOf content).
Proof.
  unfold isFileReplacementPattern, acceptedFirstLine, firstLineOf.
  set (firstLine := trim (first (split LF content))).
  destruct (startsWith firstLine "//") eqn:H1.
  - by rewrite (marker_includes_slash _ H1).
  - cbn [andb orb]. destruct (startsWith firstLine "```"); [|done].
    cbn [andb]. destruct (startsWith (trim (stripFence firstLine)) "//") eqn:H2; [|done].
    by rewrite (marker_includes_slash _ H2).
Qed.

(** C10: a first line that starts with the comment marker, as it stands
    after trimming or after a leading fence is stripped, is recognized as a
    file-replacement pattern, whether or not the declared path holds a
    directory separator: the marker itself satisfies the test for a
    slash. *)
Theorem marker_alone_is_recognized (content : string) :
  startsWith (firstLineOf content) "//" = true
  \/ (startsWith (firstLineOf content) "```" = true
      /\ startsWith (trim (stripFence (firstLineOf content))) "//" = true) ->
  isFileReplacementPattern content = true.
Proof.
  rewrite isFileReplacementPattern_shape. unfold acceptedFirstLine.
  intros [-> | [-> ->]]; [done|]. apply orb_true_r.
Qed.

Definition readmeText : string := "// README.md" ++ nl ++ "hello".

Lemma marker_alone_is_recognized_witness :
  includes (filePath (parseFileContent readmeText)) "/" = false
  /\ isFileReplacementPattern readmeText = true.
Proof.
  split; [reflexivity|].
  apply (marker_alone_is_recognized readmeText). left. reflexivity.
Defined.

(** The recognition step as the specification words it: the first
    non-empty line must be a path marker followed by a path that contains
    a separator, or a fence whose remainder is such a marker. *)
Definition specFirstNonEmptyLine (content : string) : string :=
  List.hd "" (List.filter (fun l => negb (String.eqb l "")) (split LF content)).

Definition specPathMarker (line : string) : bool :=
  startsWith line "//" && includes (trim (stripMarker line)) "/".

Definition specRecognized (content : string) : bool :=
  let line := trim (specFirstNonEmptyLine content) in
  specPathMarker line
  || (startsWith line "```" && specPathMarker (trim (stripFence line))).

Definition projWorld : World := {| cwd := "/home"; files := ∅ |}.

Definition projMonitor (verbose : bool) : Monitor :=
  start (newMonitor {| projectDir := "/proj"; checkInterval := 1000; verbose := verbose |})
        projWorld.

(** A marker with a path that holds no separator is recognized and
    written, though the specification's shape rejects it. *)
Lemma recognition_without_separator :
  specRecognized readmeText = false
  /\ isFileReplacementPattern readmeText = true
  /\ files (snd (fst (checkClipboard (projMonitor false) projWorld (Text readmeText))))
       !! "/proj/README.md" = Some "hello".
Proof. repeat split; vm_compute; reflexivity. Qed.

(** The recognizer reads the first line, not the first non-empty one. *)
Lemma recognition_reads_first_line :
  let text := nl ++ "// src/a.ts" ++ nl ++ "x" in
  specRecognized text = true /\ isFileReplacementPattern text = false.
Proof. split; reflexivity. Qed.

(** C5, amended: recognition is decided by the first line of the text,
    trimmed: the text is recognized exactly when that line starts with the
    comment marker or is a fence opening whose remainder, trimmed, starts
    with the marker; the declared path need not contain a separator.  For
    every text whose first line has neither shape the poll changes no file
    and performs no action. *)
Theorem recognition_gate (m : Monitor) (w : World) (content : string) :
  isFileReplacementPattern content = acceptedFirstLine (firstLineOf content)
  /\ (acceptedFirstLine (firstLineOf content) = false ->
      snd (fst (checkClipboard m w (Text content))) = w
      /\ snd (checkClipboard m w (Text content)) = []).
Proof.
  split; [apply isFileReplacementPattern_shape|].
  intros H. unfold checkClipboard.
  destruct (_ || _); [done|].
  by rewrite isFileReplacementPattern_shape, H.
Qed.

Lemma recognition_gate_witness :
  let text := "README.md" ++ nl ++ "hello" in
  acceptedFirstLine (firstLineOf text) = false
  /\ snd (fst (checkClipboard (projMonitor true) projWorld (Text text))) = projWorld
  /\ snd (checkClipboard (projMonitor true) projWorld (Text text)) = [].
Proof.
  split; [reflexivity|].
  apply (recognition_gate (projMonitor true) projWorld ("README.md" ++ nl ++ "hello")).
  reflexivity.
Defined.

End Recognition.

(** ** Search-and-replace blocks *)

Section SearchReplaceBlocks.
Import Js ClipboardMonitor.

(** What follows the first occurrence of [t] in [s] *)
Fixpoint afterFirst (s t : string) : option string :=
  if startsWith s t then Some (dropChars (String.length t) s)
  else match s with
       | "" => None
       | String _ r => afterFirst r t
       end.

(** The sub-classification as the specification words it: the three
    delimiters are searched in order, each behind the one before. *)
Definition specDelimitersInOrder (content : string) : bool :=
  match afterFirst content SEARCH with
  | Some r1 =>
      match afterFirst r1 SEPARATOR with
      | Some r2 => includes r2 REPLACE
      | None => false
      end
  | None => false
  end.

Lemma afterFirst_inv (s t r : string) :
  afterFirst s t = Some r -> exists a, s = a ++ t ++ r.
Proof.
  revert r. induction s as [|c s IH]; intros r; cbn [afterFirst].
  - destruct (startsWith "" t) eqn:E; [|done].
    intros [= <-]. destruct t; [|done]. by exists "".
  - destruct (startsWith (String c s) t) eqn:E.
    + intros [= <-]. apply startsWith_inv in E as [r' E]. exists "".
      rewrite E. by rewrite dropChars_app.
    + intros H. destruct (IH _ H) as [a ->]. by exists (String c a).
Qed.

Lemma dropChars_suffix (t u b : string) :
  startsWith (u ++ b) t = true -> (String.length t <= String.length u)%nat ->
  exists x, dropChars (String.length t) (u ++ b) = x ++ b.
Proof.
  revert u. induction t as [|c t IH]; intros u H Hlen.
  - by exists u.
  - destruct u as [|c' u]; [simpl in Hlen; lia|].
    simpl in H. destruct (Ascii.eqb c c'); [|done].
    simpl. apply IH; [done|]. simpl in Hlen. lia.
Qed.

Lemma length_app_s (a b : string) :
  String.length (a ++ b) = (String.length a + String.length b)%nat.
Proof. induction a; simpl; lia. Qed.

Lemma afterFirst_here (s t : string) :
  startsWith s t = true -> afterFirst s t = Some (dropChars (String.length t) s).
Proof. intros H. destruct s; cbn [afterFirst]; by rewrite H. Qed.

Lemma afterFirst_app (a t b : string) :
  exists x, afterFirst (a ++ t ++ b) t = Some (x ++ b).
Proof.
  induction a as [|c a IH].
  - exists "". change ("" ++ t ++ b) with (t ++ b).
    rewrite afterFirst_here by apply startsWith_app. by rewrite dropChars_app.
  - change (String c a ++ t ++ b) with (String c (a ++ t ++ b)).
    cbn [afterFirst]. destruct (startsWith _ t) eqn:E; [|apply IH].
    change (String c (a ++ t ++ b)) with (String c a ++ t ++ b) in *.
    rewrite <- app_assoc_s in *.
    destruct (dropChars_suffix t (String c a ++ t) b E) as [x Hx].
    { rewrite length_app_s. lia. }
    exists x. by rewrite Hx.
Qed.

(** The boolean search in order finds exactly the texts that hold the
    three delimiters one behind the other. *)
Lemma specDelimitersInOrder_spec (content : string) :
  specDelimitersInOrder content = true <->
  exists a b c d, content = a ++ SEARCH ++ b ++ SEPARATOR ++ c ++ REPLACE ++ d.
Proof.
  unfold specDelimitersInOrder. split.
  - destruct (afterFirst content SEARCH) as [r1|] eqn:E1; [|done].
    destruct (afterFirst r1 SEPARATOR) as [r2|] eqn:E2; [|done].
    intros H. apply includes_inv in H as (c & d & ->).
    apply afterFirst_inv in E2 as [b ->]. apply afterFirst_inv in E1 as [a ->].
    by exists a, b, c, d.
  - intros (a & b & c & d & ->).
    destruct (afterFirst_app a SEARCH (b ++ SEPARATOR ++ c ++ REPLACE ++ d)) as [x ->].
    rewrite <- (app_assoc_s x b).
    destruct (afterFirst_app (x ++ b) SEPARATOR (c ++ REPLACE ++ d)) as [y ->].
    rewrite <- (app_assoc_s y c). apply includes_app.
Qed.

Lemma isSearchReplacePattern_occurs (content : string) :
  isSearchReplacePattern content = true <->
  occursIn SEARCH content /\ occursIn SEPARATOR content /\ occursIn REPLACE content.
Proof.
  unfold isSearchReplacePattern.
  rewrite !andb_true_iff, !includes_occursIn. tauto.
Qed.

Lemma isSearchReplacePattern_indices (content : string) :
  isSearchReplacePattern content = true ->
  0 <= indexOf content SEARCH /\ 0 <= indexOf content SEPARATOR
  /\ 0 <= indexOf content REPLACE.
Proof.
  unfold isSearchReplacePattern. rewrite !andb_true_iff.
  intros [[H1 H2] H3]. auto using indexOf_found.
Qed.

(** The delimiters in reverse order *)
Definition reversedBlock : string :=
  "// src/a.ts" ++ nl ++ REPLACE ++ nl ++ "new" ++ nl ++ SEPARATOR ++ nl ++ "old" ++ nl
  ++ SEARCH ++ nl.

(** A recognized text with the three delimiters out of order is handled as
    a search-and-replace, not as a whole file: the target is read, never
    created. *)
Lemma delimiters_out_of_order :
  isFileReplacementPattern reversedBlock = true
  /\ specDelimitersInOrder reversedBlock = false
  /\ isSearchReplacePattern reversedBlock = true
  /\ processClipboardContent (projMonitor false) projWorld reversedBlock
     = (projWorld, [Log (ProcessingSearchReplace "/proj/src/a.ts");
                    ReadTextFile "/proj/src/a.ts";
                    Log (CouldNotReadWrite "/proj/src/a.ts")]).
Proof. repeat split; vm_compute; reflexivity. Qed.

(** C4, amended: a recognized text is handled as a search-and-replace
    exactly when the three delimiter tokens all occur somewhere in the full
    text, in whatever order; every other recognized text is handled as a
    whole file. *)
Theorem dispatch_on_presence (m : Monitor) (w : World) (base content : string) :
  let target := targetPathOf (cwd w) base (filePath (parseFileContent content)) in
  let present := occursIn SEARCH content /\ occursIn SEPARATOR content
                 /\ occursIn REPLACE content in
  baseProjectDirAbs m = Some base ->
  filePath (parseFileContent content) <> "" ->
  isPathSafe (cwd w) base target = true ->
  (present ->
   processClipboardContent m w content
   = processSearchReplace (options m) w target content)
  /\ (~ present ->
      processClipboardContent m w content
      = processCompleteFileReplacement (options m) w target
          (fileContent (parseFileContent content)))
  /\ (forall t1 t2 t3 a b c d,
        Permutation [t1; t2; t3] [SEARCH; SEPARATOR; REPLACE] ->
        content = a ++ t1 ++ b ++ t2 ++ c ++ t3 ++ d -> present).
Proof.
  intros target present Hbase Hpath Hsafe.
  assert (Hgo : processClipboardContent m w content
                = if isSearchReplacePattern content
                  then processSearchReplace (options m) w target content
                  else processCompleteFileReplacement (options m) w target
                         (fileContent (parseFileContent content))).
  { unfold processClipboardContent. rewrite Hbase.
    apply String.eqb_neq in Hpath. rewrite Hpath.
    fold target. by rewrite Hsafe. }
  split; [|split].
  - intros H. apply isSearchReplacePattern_occurs in H. by rewrite Hgo, H.
  - intros H. rewrite Hgo.
    destruct (isSearchReplacePattern content) eqn:E; [|done].
    by apply isSearchReplacePattern_occurs in E.
  - intros t1 t2 t3 a b c d Hperm ->.
    assert (Hin : forall t, In t [t1; t2; t3] ->
                    occursIn t (a ++ t1 ++ b ++ t2 ++ c ++ t3 ++ d)).
    { intros t [<- | [<- | [<- | []]]].
      - by exists a, (b ++ t2 ++ c ++ t3 ++ d).
      - exists (a ++ t1 ++ b), (c ++ t3 ++ d). by rewrite !app_assoc_s.
      - exists (a ++ t1 ++ b ++ t2 ++ c), d. by rewrite !app_assoc_s. }
    symmetry in Hperm.
    repeat split; apply Hin; apply (Permutation_in _ Hperm); simpl; auto.
Qed.

Lemma dispatch_on_presence_witness :
  processClipboardContent (projMonitor false) projWorld reversedBlock
  = processSearchReplace (options (projMonitor false)) projWorld "/proj/src/a.ts"
      reversedBlock.
Proof.
  refine (proj1 (dispatch_on_presence (projMonitor false) projWorld "/proj" reversedBlock
                   eq_refl _ eq_refl) _).
  - vm_compute. discriminate.
  - apply isSearchReplacePattern_occurs. reflexivity.
Defined.

(** C3: a search-and-replace text whose search block trims to the empty
    string is rejected with the report of an empty search pattern before
    any file is touched: nothing is read, nothing is written, and the
    files are as they were. *)
Theorem empty_search_rejected (m : Monitor) (w : World) (path content : string) :
  isSearchReplacePattern content = true ->
  searchContentOf content = "" ->
  processSearchReplace (options m) w path content
  = (w, [Log (ProcessingSearchReplace path); Log EmptySearchPattern])
  /\ fst (processClipboardContent m w content) = w
  /\ List.filter isFsAccess (snd (processClipboardContent m w content)) = [].
Proof.
  intros Hsr Hempty.
  assert (Hrej : forall p, processSearchReplace (options m) w p content
                           = (w, [Log (ProcessingSearchReplace p); Log EmptySearchPattern])).
  { intros p. unfold processSearchReplace.
    destruct (isSearchReplacePattern_indices _ Hsr) as (H1 & H2 & H3).
    replace (indexOf content SEARCH =? -1) with false by (symmetry; apply Z.eqb_neq; lia).
    replace (indexOf content SEPARATOR =? -1) with false by (symmetry; apply Z.eqb_neq; lia).
    replace (indexOf content REPLACE =? -1) with false by (symmetry; apply Z.eqb_neq; lia).
    cbn [orb]. by rewrite Hempty. }
  split; [apply Hrej|].
  unfold processClipboardContent.
  destruct (String.eqb _ ""); [by destruct (verbose _)|].
  destruct (baseProjectDirAbs m) as [base|]; [|done].
  destruct (negb _); [done|].
  by rewrite Hsr, Hrej.
Qed.

Definition emptySearchBlock : string :=
  "// src/a.ts" ++ nl ++ SEARCH ++ nl ++ SEPARATOR ++ nl ++ "foo" ++ nl ++ REPLACE.

Lemma empty_search_rejected_witness :
  processSearchReplace (options (projMonitor true)) projWorld "/proj/src/a.ts"
    emptySearchBlock
  = (projWorld, [Log (ProcessingSearchReplace "/proj/src/a.ts"); Log EmptySearchPattern])
  /\ fst (processClipboardContent (projMonitor true) projWorld emptySearchBlock) = projWorld
  /\ List.filter isFsAccess
       (snd (processClipboardContent (projMonitor true) projWorld emptySearchBlock)) = [].
Proof.
  apply (empty_search_rejected (projMonitor true) projWorld "/proj/src/a.ts"
           emptySearchBlock); reflexivity.
Defined.

End SearchReplaceBlocks.

(** ** Applying a search-and-replace *)

Section Application.
Import Js ClipboardMonitor.

(** The replacement as the specification words it: the first occurrence of
    the search text gives way to the replacement text, taken literally. *)
Fixpoint specReplaceFirst (s search replacement : string) : string :=
  if startsWith s search then replacement ++ dropChars (String.length search) s
  else match s with
       | "" => ""
       | String c r => String c (specReplaceFirst r search replacement)
       end.

Lemma indexOfFrom_specReplaceFirst (p t s : string) (i : Z) :
  (indexOfFrom s p i = -1 /\ specReplaceFirst s p t = s)
  \/ (exists k : nat,
        indexOfFrom s p i = i + Z.of_nat k
        /\ specReplaceFirst s p t = takeChars k s ++ t ++ dropChars (k + String.length p) s).
Proof.
  revert i. induction s as [|c s IH]; intros i; cbn [indexOfFrom specReplaceFirst].
  - destruct (startsWith "" p); [|by left].
    right. exists 0%nat. split; [lia|done].
  - destruct (startsWith (String c s) p).
    + right. exists 0%nat. split; [lia|done].
    + destruct (IH (i + 1)) as [[-> ->] | (k & -> & ->)]; [by left|].
      right. exists (S k). split; [lia|done].
Qed.

(** Without a dollar sign in the replacement the program's replace is the
    literal one. *)
Lemma replace_plain (s p t : string) :
  includes t "$" = false -> replace s p t = specReplaceFirst s p t.
Proof.
  intros Ht. unfold replace, indexOf.
  destruct (indexOfFrom_specReplaceFirst p t s 0) as [[-> ->] | (k & -> & ->)]; [done|].
  replace (0 + Z.of_nat k <? 0) with false by (symmetry; apply Z.ltb_ge; lia).
  replace (Z.to_nat (0 + Z.of_nat k)) with k by lia.
  by rewrite getSubstitution_plain.
Qed.

(** What the application does to an existing file, for a block with a
    search text: it writes the replaced text when the search text occurs,
    and leaves the files alone, reporting the pattern as not found, when it
    does not. *)
Lemma processSearchReplace_existing (opts : ClipboardMonitorOptions) (w : World)
    (path content original : string) :
  isSearchReplacePattern content = true ->
  searchContentOf content <> "" ->
  files w !! path = Some original ->
  let search := searchContentOf content in
  let replacement := replaceContentOf content in
  (includes original search = true ->
   processSearchReplace opts w path content
   = (writeTextFile w path (replace original search replacement),
      [Log (ProcessingSearchReplace path); ReadTextFile path;
       WriteTextFile path (replace original search replacement);
       Log (CodeSectionReplaced path)]))
  /\ (includes original search = false ->
      fst (processSearchReplace opts w path content) = w
      /\ In (Log (SearchPatternNotFound path)) (snd (processSearchReplace opts w path content))
      /\ forall p c, ~ In (WriteTextFile p c) (snd (processSearchReplace opts w path content))).
Proof.
  intros Hsr Hne Hfile search replacement.
  unfold processSearchReplace.
  destruct (isSearchReplacePattern_indices _ Hsr) as (H1 & H2 & H3).
  replace (indexOf content SEARCH =? -1) with false by (symmetry; apply Z.eqb_neq; lia).
  replace (indexOf content SEPARATOR =? -1) with false by (symmetry; apply Z.eqb_neq; lia).
  replace (indexOf content REPLACE =? -1) with false by (symmetry; apply Z.eqb_neq; lia).
  cbn [orb]. apply String.eqb_neq in Hne. rewrite Hne, Hfile. fold search replacement.
  split; intros ->; cbn [negb]; [done|].
  split; [done|]. split; [simpl; auto|].
  intros p c. destruct (verbose opts); simpl; intros H;
    repeat (destruct H as [H|H]; [discriminate|]); done.
Qed.

(** The example of the specification: only the first occurrence changes. *)
Lemma first_occurrence_only :
  replace ("x=1" ++ nl ++ "x=1" ++ nl) "x=1" "x=2" = "x=2" ++ nl ++ "x=1" ++ nl.
Proof. reflexivity. Qed.

Definition dollarBlock : string :=
  "// run.sh" ++ nl ++ SEARCH ++ nl ++ "pid=0" ++ nl ++ SEPARATOR ++ nl ++ "pid=$$" ++ nl
  ++ REPLACE.

Definition scriptWorld : World :=
  {| cwd := "/home"; files := {[ "/proj/run.sh" := "pid=0" ++ nl ]} |}.

(** C2 at a replacement text that holds dollar signs: the text written is
    not the file with the first occurrence replaced by the replacement
    text; the two dollar signs of the replacement arrive as one. *)
Theorem dollar_in_replacement_is_expanded :
  searchContentOf dollarBlock = "pid=0"
  /\ replaceContentOf dollarBlock = "pid=$$"
  /\ specReplaceFirst ("pid=0" ++ nl) "pid=0" "pid=$$" = "pid=$$" ++ nl
  /\ processClipboardContent (projMonitor false) scriptWorld dollarBlock
     = (writeTextFile scriptWorld "/proj/run.sh" ("pid=$" ++ nl),
        [Log (ProcessingSearchReplace "/proj/run.sh"); ReadTextFile "/proj/run.sh";
         WriteTextFile "/proj/run.sh" ("pid=$" ++ nl);
         Log (CodeSectionReplaced "/proj/run.sh")]).
Proof. repeat split; vm_compute; reflexivity. Qed.

End Application.

(** ** Path safety *)

Section PathSafety.
Import Js ClipboardMonitor.

(** Strictly inside the root, as the specification words it: the relative
    path from the root is not empty, its first segment is not the parent
    directory, and it is not absolute. *)
Definition specStrictlyInside (rel : string) : bool :=
  negb (String.eqb rel "")
  && negb (String.eqb (first (split "/" rel)) "..")
  && negb (Path.isAbsolute rel).

Lemma first_split_cons (sep c : ascii) (r : string) :
  first (split sep (String c r))
  = if Ascii.eqb c sep then "" else String c (first (split sep r)).
Proof.
  cbn [split]. destruct (Ascii.eqb c sep); [done|].
  by destruct (split sep r).
Qed.

Lemma first_segment_parent (rel : string) :
  first (split "/" rel) = ".." -> startsWith rel ".." = true.
Proof.
  destruct rel as [|c1 [|c2 r]]; [done| |].
  - rewrite first_split_cons. destruct (Ascii.eqb c1 "/"); [done|]. simpl. congruence.
  - rewrite !first_split_cons.
    destruct (Ascii.eqb c1 "/"); [done|].
    destruct (Ascii.eqb c2 "/"); [congruence|].
    intros [= -> -> _]. apply (startsWith_app ".." r).
Qed.

(** Whatever the program accepts lies strictly inside the root. *)
Lemma isPathSafe_sound (cwd baseDir targetPath : string) :
  isPathSafe cwd baseDir targetPath = true ->
  specStrictlyInside (Path.relative cwd baseDir targetPath) = true.
Proof.
  unfold isPathSafe, specStrictlyInside.
  rewrite !andb_true_iff, !negb_true_iff. intros [[H1 H2] H3].
  repeat split; [done| |done].
  apply String.eqb_neq. intros H. apply first_segment_parent in H. congruence.
Qed.

(** The examples of the specification, for the root [/proj]. *)
Lemma path_safety_examples (cwd : string) :
  let answer declared :=
    let target := targetPathOf cwd "/proj" declared in
    (target, isPathSafe cwd "/proj" target) in
  answer "../etc/passwd" = ("/etc/passwd", false)
  /\ answer "src/a.ts" = ("/proj/src/a.ts", true)
  /\ answer "/proj/sub/b.ts" = ("/proj/sub/b.ts", true)
  /\ answer "." = ("/proj", false).
Proof. repeat split. Qed.

(** A rejected path is reported and nothing else happens. *)
Lemma rejected_path_touches_nothing (m : Monitor) (w : World) (base content : string) :
  let declared := filePath (parseFileContent content) in
  baseProjectDirAbs m = Some base ->
  declared <> "" ->
  isPathSafe (cwd w) base (targetPathOf (cwd w) base declared) = false ->
  processClipboardContent m w content
  = (w, [Log (BlockedWrite base (targetPathOf (cwd w) base declared))]).
Proof.
  intros declared Hbase Hne Hsafe. unfold processClipboardContent.
  apply String.eqb_neq in Hne. fold declared. by rewrite Hne, Hbase, Hsafe.
Qed.

Definition dotdotName : string := "// ..cache/index.json" ++ nl ++ "{}".

(** C1 at a declared path whose first segment merely begins with two
    dots: the target lies strictly inside the root, its relative path has
    no parent segment, and the program blocks it. *)
Theorem dotdot_prefixed_name_is_blocked :
  let declared := filePath (parseFileContent dotdotName) in
  let target := targetPathOf "/home" "/proj" declared in
  declared = "..cache/index.json"
  /\ target = "/proj/..cache/index.json"
  /\ Path.relative "/home" "/proj" target = "..cache/index.json"
  /\ specStrictlyInside (Path.relative "/home" "/proj" target) = true
  /\ isPathSafe "/home" "/proj" target = false
  /\ processClipboardContent (projMonitor false) projWorld dotdotName
     = (projWorld, [Log (BlockedWrite "/proj" "/proj/..cache/index.json")]).
Proof. repeat split. Qed.

End PathSafety.

(** ** Project detection *)

Section Detection.
Import Js ProjectDetection Fixtures.

(** The C/C++ rule, looked up by its name *)
Definition cppRule : ProjectDetectionRule :=
  rule "C/C++" 5 ["Makefile"; "CMakeLists.txt"; "configure.ac"] ["build"; "obj"]
       ["*.c"; "*.cpp"; "*.cc"; "*.cxx"; "*.h"; "*.hpp"].

Lemma cppRule_lookup :
  List.find (fun r => String.eqb (rule_name r) "C/C++") PROJECT_DETECTION_RULES
  = Some cppRule.
Proof. reflexivity. Qed.

(** Every starred entry of the table has the form [*.ext], so the two
    general wildcard translations are never reached with this table. *)
Lemma starred_entries_are_extensions :
  forallb (fun r =>
             forallb (fun p => implb (includes p "*") (startsWith p "*."))
                     (rule_files r ++ rule_patterns r)%list)
          PROJECT_DETECTION_RULES = true.
Proof. reflexivity. Qed.

Lemma foldOpt_is_Some {A B} (f : B -> A -> option B) (l : list A) (b : B) :
  (forall b x, In x l -> is_Some (f b x)) -> is_Some (foldOpt f l b).
Proof.
  revert b. induction l as [|x l IH]; intros b H; simpl; [by eexists|].
  destruct (H b x) as [b' ->]; [by left|]. simpl.
  apply IH. intros b0 y Hy. apply H. by right.
Qed.

Lemma checkFile_is_Some (fs : FileSystem) (dirPath : string) (r : ProjectDetectionRule)
    (s : Score) (f : string) :
  (forall p, is_Some (exists_ fs p)) -> is_Some (checkFile fs dirPath r s f).
Proof.
  intros Hex. unfold checkFile.
  destruct (includes f "*").
  { destruct (readDir fs dirPath); by eexists. }
  destruct (Hex (Path.join2 dirPath f)) as [found ->]. simpl.
  destruct found; simpl; [|by eexists].
  destruct (_ && _).
  { destruct (declaresReact fs _); by eexists. }
  destruct (_ && _); [|by eexists].
  destruct (readDir fs dirPath); by eexists.
Qed.

Lemma scoreRule_is_Some (fs : FileSystem) (dirPath : string) (r : ProjectDetectionRule) :
  (forall p, is_Some (exists_ fs p)) -> is_Some (scoreRule fs dirPath r).
Proof.
  intros Hex. unfold scoreRule.
  destruct (foldOpt_is_Some (checkFile fs dirPath r) (rule_files r) zeroScore) as [s ->].
  { intros. by apply checkFile_is_Some. }
  simpl.
  destruct (foldOpt_is_Some (checkFolder fs dirPath) (rule_folders r) s) as [s' ->].
  { intros b x _. unfold checkFolder.
    destruct (Hex (Path.join2 dirPath x)) as [found ->]. by eexists. }
  by eexists.
Qed.

(** The manifest exists and cannot be read. *)
Definition unreadableManifest : FileSystem := flatDir "/p" [file "package.json"] None.

(** Nothing can be examined: every existence check fails. *)
Definition noAccess : FileSystem :=
  {| exists_ := fun _ => None; readDir := fun _ => None; declaresReact := fun _ => None |}.

(** A rule whose manifest cannot be read is scored as matching, with the
    reduced weight, and is detected. *)
Lemma unreadable_manifest_still_matches :
  declaresReact unreadableManifest "/p/package.json" = None
  /\ scoreRule unreadableManifest "/p"
       (rule "React" 8 ["package.json"] []
             ["*.jsx"; "*.tsx"; "components/"; "pages/"; "app/"])
     = Some {| confidence := 3; matchCount := 1; totalChecks := 6 |}
  /\ snd (detectProjectType stableEngine PROJECT_DETECTION_RULES unreadableManifest "/p")
     = Returned ["React"; "Node.js"].
Proof. repeat split. Qed.

(** A failing existence check is caught nowhere. *)
Lemma existence_check_failure_escapes (E : Engine) (dirPath : string) :
  snd (detectProjectType E PROJECT_DETECTION_RULES noAccess dirPath) = Raised.
Proof. reflexivity. Qed.

Fixpoint allChars (f : ascii -> bool) (s : string) : bool :=
  match s with
  | "" => true
  | String c r => f c && allChars f r
  end.

Definition alphaNumeric (c : ascii) : bool :=
  let n := nat_of_ascii c in
  ((48 <=? n) && (n <=? 57) || (65 <=? n) && (n <=? 90) || (97 <=? n) && (n <=? 122))%nat.

(** An entry of a rule that says the same as a glob and as the regular
    expression the program builds from it: a name without a star, or
    [*.ext] with an extension of letters and digits.  A rule is plain when
    its files and patterns are of this kind, as those of the table are. *)
Definition extensionGlob (entry : string) : bool :=
  negb (includes entry "*")
  || (startsWith entry "*." && allChars alphaNumeric (sliceFrom entry 2)).

Definition plainRule (r : ProjectDetectionRule) : bool :=
  forallb extensionGlob (rule_files r ++ rule_patterns r)%list.

Lemma rule_table_is_plain : forallb plainRule PROJECT_DETECTION_RULES = true.
Proof. reflexivity. Qed.

(** A rule that is scored as matching: it is scored, with at least one
    match and a weight of at least 2. *)
Definition scoredAsMatching (fs : FileSystem) (dirPath : string)
    (r : ProjectDetectionRule) : bool :=
  match scoreRule fs dirPath r with
  | Some s => considered s
  | None => false
  end.

(** The candidates of a scan are the rules scored as matching, in the
    order of the scan. *)
Lemma scanRule_considered (fs : FileSystem) (dirPath : string)
    (rules : list ProjectDetectionRule) (acc detected : list Candidate) :
  foldOpt (scanRule fs dirPath) rules acc = Some detected ->
  List.map cand_name detected
  = (List.map cand_name acc
     ++ List.map rule_name (List.filter (scoredAsMatching fs dirPath) rules))%list.
Proof.
  revert acc. induction rules as [|r rules IH]; intros acc; cbn [foldOpt List.filter].
  - intros [= <-]. by rewrite app_nil_r.
  - destruct (scanRule fs dirPath acc r) as [acc'|] eqn:Esc; simpl; [|done].
    intros H. rewrite (IH _ H). unfold scanRule in Esc.
    assert (Hm : scoredAsMatching fs dirPath r
                 = match scoreRule fs dirPath r with
                   | Some s => considered s
                   | None => false
                   end) by reflexivity.
    rewrite Hm. destruct (scoreRule fs dirPath r) as [s|]; simpl in Esc; [|done].
    injection Esc as <-. destruct (considered s); [|done].
    rewrite map_app. cbn [List.map cand_name]. by rewrite <- app_assoc.
Qed.

Lemma filter_perm {A} (f : A -> bool) (l1 l2 : list A) :
  Permutation l1 l2 -> Permutation (List.filter f l1) (List.filter f l2).
Proof.
  induction 1 as [|x l1 l2 _ IH|x y l|l1 l2 l3 _ IH1 _ IH2]; cbn [List.filter].
  - constructor.
  - destruct (f x); [by constructor|done].
  - destruct (f x), (f y); try done; by constructor.
  - by etransitivity.
Qed.

(** No check takes weight or matches away. *)
Definition grows (s s' : Score) : Prop :=
  confidence s <= confidence s' /\ matchCount s <= matchCount s'.

Lemma checkFile_grows (fs : FileSystem) (dirPath : string) (r : ProjectDetectionRule)
    (s s' : Score) (f : string) :
  checkFile fs dirPath r s f = Some s' -> grows s s'.
Proof.
  unfold checkFile, grows.
  destruct (includes f "*").
  { destruct (readDir fs dirPath); [destruct (existsb _ _)|]; intros [= <-]; simpl; lia. }
  destruct (exists_ fs _) as [[|]|]; simpl; [| intros [= <-]; simpl; lia | done].
  destruct (_ && _).
  { destruct (declaresReact fs _) as [[|]|]; intros [= <-]; simpl; lia. }
  destruct (_ && _).
  { destruct (readDir fs dirPath); [destruct (existsb _ _)|]; intros [= <-]; simpl; lia. }
  intros [= <-]. simpl. lia.
Qed.

Lemma checkFolder_grows (fs : FileSystem) (dirPath : string) (s s' : Score) (d : string) :
  checkFolder fs dirPath s d = Some s' -> grows s s'.
Proof.
  unfold checkFolder, grows.
  destruct (exists_ fs _) as [[|]|]; simpl; [| |done]; intros [= <-]; simpl; lia.
Qed.

Lemma foldOpt_grows {A} (f : Score -> A -> option Score) (l : list A) (s s' : Score) :
  (forall s0 s1 x, f s0 x = Some s1 -> grows s0 s1) ->
  foldOpt f l s = Some s' -> grows s s'.
Proof.
  intros Hf. revert s. induction l as [|x l IH]; intros s; cbn [foldOpt].
  - intros [= <-]. unfold grows. lia.
  - destruct (f s x) as [s1|] eqn:E; simpl; [|done]. intros H.
    destruct (Hf _ _ _ E), (IH _ H). unfold grows. lia.
Qed.

Lemma checkPatterns_grows (fs : FileSystem) (dirPath : string) (r : ProjectDetectionRule)
    (s : Score) :
  grows s (checkPatterns fs dirPath r s).
Proof.
  unfold checkPatterns. destruct (rule_patterns r) as [|p ps]; [unfold grows; lia|].
  destruct (collectFiles fs 3 dirPath ([], [])) as [[allFiles allDirs]|];
    [|unfold grows; lia].
  generalize (p :: ps). intros l. revert s.
  induction l as [|q l IH]; intros s; cbn [fold_left]; [unfold grows; lia|].
  specialize (IH (checkPattern allFiles allDirs s q)).
  assert (grows s (checkPattern allFiles allDirs s q)).
  { unfold checkPattern, grows. destruct (if includes q "*" then _ else _); simpl; lia. }
  unfold grows in *. lia.
Qed.

(** The manifest that cannot be read counts 3 for the React rule. *)
Lemma unreadable_manifest_counts (fs : FileSystem) (dirPath : string)
    (r : ProjectDetectionRule) (s : Score) :
  rule_name r = "React" ->
  exists_ fs (Path.join2 dirPath "package.json") = Some true ->
  declaresReact fs (Path.join2 dirPath "package.json") = None ->
  checkFile fs dirPath r s "package.json" = Some (matched 3 (checked s)).
Proof.
  intros Hname Hex Hread. unfold checkFile.
  change (includes "package.json" "*") with false. cbv iota.
  rewrite Hex, Hname. cbn [mbind option_bind negb].
  change (String.eqb "package.json" "package.json" && String.eqb "React" "React") with true.
  cbv iota. by rewrite Hread.
Qed.

Lemma unreadable_manifest_scored (fs : FileSystem) (dirPath : string)
    (r : ProjectDetectionRule) (files : list string) (s0 s1 : Score) :
  rule_name r = "React" ->
  exists_ fs (Path.join2 dirPath "package.json") = Some true ->
  declaresReact fs (Path.join2 dirPath "package.json") = None ->
  In "package.json" files ->
  foldOpt (checkFile fs dirPath r) files s0 = Some s1 ->
  confidence s0 + 3 <= confidence s1 /\ matchCount s0 + 1 <= matchCount s1.
Proof.
  intros Hname Hex Hread. revert s0.
  induction files as [|f files IH]; intros s0 Hin; [done|]. cbn [foldOpt].
  destruct (checkFile fs dirPath r s0 f) as [sf|] eqn:Ef; simpl; [|done]. intros H.
  destruct Hin as [-> | Hin].
  - rewrite (unreadable_manifest_counts fs dirPath r s0 Hname Hex Hread) in Ef.
    injection Ef as <-.
    destruct (foldOpt_grows _ _ _ _ (checkFile_grows fs dirPath r) H). simpl in *. lia.
  - destruct (checkFile_grows _ _ _ _ _ _ Ef), (IH _ Hin H). lia.
Qed.

(** C9, amended: a failure of a directory listing, or of reading and
    parsing the manifest, is swallowed where it occurs and never escapes
    detection.  Provided the existence checks themselves complete: a
    failed listing leaves the checks that depend on it (a starred file,
    a build file of the C/C++ rule, the patterns) without a match; a
    manifest that exists and cannot be read counts 3 for the React rule,
    which is then scored as matching; every rule is scored; and detection
    returns at most three names, for a table of plain rules each the name
    of a rule scored as matching, and all of these when there are no more
    than three. *)
Theorem detection_survives_unreadable (E : Engine) (table : list ProjectDetectionRule)
    (fs : FileSystem) (dirPath : string) :
  (forall p, is_Some (exists_ fs p)) ->
  (readDir fs dirPath = None ->
   forall r s f,
     includes f "*" = true \/ (rule_name r = "C/C++" /\ In f buildFiles) ->
     checkFile fs dirPath r s f = Some (checked s))
  /\ (forall r s,
        readDir fs dirPath = None \/ collectFiles fs 3 dirPath ([], []) = None ->
        checkPatterns fs dirPath r s = s)
  /\ (forall r,
        rule_name r = "React" ->
        exists_ fs (Path.join2 dirPath "package.json") = Some true ->
        declaresReact fs (Path.join2 dirPath "package.json") = None ->
        (forall s, checkFile fs dirPath r s "package.json" = Some (matched 3 (checked s)))
        /\ (In "package.json" (rule_files r) -> scoredAsMatching fs dirPath r = true))
  /\ (forall r, is_Some (scoreRule fs dirPath r))
  /\ exists types,
       snd (detectProjectType E table fs dirPath) = Returned types
       /\ (length types <= 3)%nat
       /\ (forallb plainRule table = true ->
           (forall t, In t types ->
              exists r, In r table /\ rule_name r = t
                        /\ scoredAsMatching fs dirPath r = true)
           /\ ((length (List.filter (scoredAsMatching fs dirPath) table) <= 3)%nat ->
               forall r, In r table -> scoredAsMatching fs dirPath r = true ->
                         In (rule_name r) types)).
Proof.
  intros Hex. split; [|split; [|split; [|split]]].
  - intros Hdir r s f Hf. unfold checkFile. rewrite Hdir.
    destruct Hf as [-> | [Hname Hbuild]]; [done|]. rewrite Hname.
    destruct Hbuild as [<- | [<- | [<- | []]]];
      match goal with
      | |- context [exists_ fs ?p] => destruct (Hex p) as [[] ->]
      end; reflexivity.
  - intros r s Hfail. unfold checkPatterns. destruct (rule_patterns r); [done|].
    destruct Hfail as [Hdir | ->]; [|done]. cbn [collectFiles]. by rewrite Hdir.
  - intros r Hname Hfound Hread.
    split; [intros s; by apply unreadable_manifest_counts|].
    intros Hin. unfold scoredAsMatching, scoreRule.
    destruct (foldOpt (checkFile _ _ _) _ _) as [s1|] eqn:E1; simpl.
    2:{ destruct (foldOpt_is_Some (checkFile fs dirPath r) (rule_files r) zeroScore)
          as [? ?]; [intros; by apply checkFile_is_Some|congruence]. }
    destruct (foldOpt (checkFolder _ _) _ _) as [s2|] eqn:E2; simpl.
    2:{ destruct (foldOpt_is_Some (checkFolder fs dirPath) (rule_folders r) s1)
          as [? ?]; [|congruence].
        intros b x _. unfold checkFolder.
        destruct (Hex (Path.join2 dirPath x)) as [found ->]. by eexists. }
    destruct (unreadable_manifest_scored fs dirPath r _ _ _ Hname Hfound Hread Hin E1).
    destruct (foldOpt_grows _ _ _ _ (checkFolder_grows fs dirPath) E2).
    destruct (checkPatterns_grows fs dirPath r s2).
    unfold considered. simpl in *.
    apply andb_true_iff. split; [apply Z.ltb_lt|apply Z.leb_le]; lia.
  - intros r. by apply scoreRule_is_Some.
  - unfold detectProjectType. cbn [snd].
    destruct (foldOpt (scanRule fs dirPath) (stableSort compareRules table) [])
      as [detected|] eqn:Ed.
    2:{ destruct (foldOpt_is_Some (scanRule fs dirPath) (stableSort compareRules table) [])
          as [? ?]; [|congruence].
        intros b r _. unfold scanRule.
        destruct (scoreRule_is_Some fs dirPath r Hex) as [s ->]. by eexists. }
    pose proof (scanRule_considered _ _ _ _ _ Ed) as Hnames. cbn [List.map app] in Hnames.
    pose proof (stableSortBy_perm (fun a b => 0 <? compareRules a b) table) as Hperm.
    fold (stableSort compareRules table) in Hperm.
    eexists. split; [reflexivity|]. split; [rewrite length_map, length_take; lia|].
    intros _. split.
    + intros t Ht. apply in_map_iff in Ht as (c & <- & Hc).
      apply list_elem_of_In, elem_of_take in Hc as (i & Hc & _).
      apply list_elem_of_lookup_2, list_elem_of_In in Hc.
      apply (Permutation_in _ (arraySort_perm E _ _)) in Hc.
      apply (in_map cand_name) in Hc. rewrite Hnames in Hc.
      apply in_map_iff in Hc as (r & Hr & Hin). apply filter_In in Hin as [Hin Hm].
      exists r. split; [by apply (Permutation_in _ Hperm)|done].
    + intros Hfew r Hin Hm.
      assert (Hlen : (length (arraySort E compareCandidates detected) <= 3)%nat).
      { rewrite (Permutation_length (arraySort_perm E _ _)).
        rewrite <- (length_map cand_name), Hnames, length_map.
        assert (Hp : Permutation
                       (List.filter (scoredAsMatching fs dirPath)
                          (stableSort compareRules table))
                       (List.filter (scoredAsMatching fs dirPath) table))
          by (by apply filter_perm).
        by rewrite (Permutation_length Hp). }
      rewrite take_ge by done.
      apply (Permutation_in (l := List.map cand_name detected)).
      { apply Permutation_map, Permutation_sym, arraySort_perm. }
      rewrite Hnames. apply in_map. apply filter_In. split; [|done].
      by apply (Permutation_in _ (Permutation_sym Hperm)).
Qed.

(** Listings fail everywhere, the manifest cannot be read. *)
Definition unreadableDir : FileSystem :=
  {| exists_ := fun p => Some (String.eqb p "/p/package.json");
     readDir := fun _ => None;
     declaresReact := fun _ => None |}.

Lemma detection_survives_unreadable_witness :
  exists types,
    snd (detectProjectType stableEngine PROJECT_DETECTION_RULES unreadableDir "/p")
    = Returned types
    /\ (length types <= 3)%nat
    /\ In "React" types.
Proof.
  destruct (detection_survives_unreadable stableEngine PROJECT_DETECTION_RULES
              unreadableDir "/p")
    as (_ & _ & _ & _ & types & Hret & Hlen & Hplain).
  { intros p. simpl. by eexists. }
  exists types. split; [exact Hret|]. split; [exact Hlen|].
  destruct (Hplain eq_refl) as [_ Hall].
  apply (Hall ltac:(vm_compute; lia)
           (rule "React" 8 ["package.json"] []
                 ["*.jsx"; "*.tsx"; "components/"; "pages/"; "app/"])).
  - cbn [PROJECT_DETECTION_RULES In]. auto.
  - reflexivity.
Defined.

(** C8 on any directory: the call leaves the rule table in another order
    than it found it, sorted by priority; the entries are the same. *)
Theorem detection_reorders_rule_table (E : Engine) (fs : FileSystem) (dirPath : string) :
  let table' := fst (detectProjectType E PROJECT_DETECTION_RULES fs dirPath) in
  table' <> PROJECT_DETECTION_RULES
  /\ Permutation table' PROJECT_DETECTION_RULES
  /\ List.map rule_name PROJECT_DETECTION_RULES
     = ["Next.js"; "Vue.js"; "React"; "Deno"; "Node.js"; "Python"; "Rust"; "Go";
        "Arduino"; "ESP-IDF"; "C/C++"; "Java"; "C#/.NET"; "PHP"; "Ruby"; "Swift";
        "Kotlin"]
  /\ List.map rule_name table'
     = ["Next.js"; "Deno"; "Vue.js"; "React"; "Node.js"; "ESP-IDF"; "Python"; "Rust";
        "Go"; "Arduino"; "Java"; "C#/.NET"; "Swift"; "Kotlin"; "C/C++"; "PHP"; "Ruby"].
Proof.
  cbn zeta. unfold detectProjectType. cbn [fst].
  split; [|split; [|split]].
  - intros H. apply (f_equal (List.map rule_name)) in H. vm_compute in H. discriminate.
  - apply stableSortBy_perm.
  - reflexivity.
  - reflexivity.
Qed.

(** Once sorted, the table stays as it is in later calls. *)
Lemma rule_table_settles (E : Engine) (fs fs' : FileSystem) (dirPath dirPath' : string) :
  let table' := fst (detectProjectType E PROJECT_DETECTION_RULES fs dirPath) in
  fst (detectProjectType E table' fs' dirPath') = table'.
Proof. reflexivity. Qed.

(** *** Build files and sources *)

Definition afterBuildFiles : Score :=
  {| confidence := 0; matchCount := 0; totalChecks := 3 |}.

(** No C/C++ source file among the top-level files, when they can be listed *)
Definition noTopLevelSource (fs : FileSystem) (dirPath : string) : Prop :=
  forall entries, readDir fs dirPath = Some entries ->
                  existsb hasCppSource (fileNames entries) = false.

Lemma checkFile_build_file (fs : FileSystem) (dirPath : string) (s s' : Score) (f : string) :
  noTopLevelSource fs dirPath ->
  In f buildFiles ->
  checkFile fs dirPath cppRule s f = Some s' -> s' = checked s.
Proof.
  intros Hno Hf. unfold checkFile.
  assert (includes f "*" = false /\ inList f buildFiles = true
          /\ String.eqb f "package.json" = false) as (-> & Hb & ->).
  { destruct Hf as [<- | [<- | [<- | []]]]; done. }
  destruct (exists_ fs _) as [[|]|]; simpl; [|congruence|done].
  change (_ || _) with (inList f buildFiles). rewrite Hb. destruct (readDir fs dirPath) as [entries|] eqn:E; [|congruence].
  rewrite (Hno _ E). congruence.
Qed.

Lemma scanRule_candidates (fs : FileSystem) (dirPath : string)
    (rules : list ProjectDetectionRule) (acc detected : list Candidate) :
  foldOpt (scanRule fs dirPath) rules acc = Some detected ->
  forall c, In c detected ->
    In c acc \/ exists r s, In r rules /\ scoreRule fs dirPath r = Some s
                            /\ considered s = true /\ cand_name c = rule_name r.
Proof.
  revert acc. induction rules as [|r rules IH]; intros acc; cbn [foldOpt].
  - intros [= <-]. auto.
  - destruct (scanRule fs dirPath acc r) as [acc'|] eqn:Esc; simpl; [|done].
    intros H c Hc. destruct (IH _ H c Hc) as [Hacc | (r' & s' & ? & ? & ? & ?)].
    + unfold scanRule in Esc.
      destruct (scoreRule fs dirPath r) as [s|] eqn:Es; simpl in Esc; [|done].
      injection Esc as <-.
      destruct (considered s) eqn:Ec; [|by left].
      apply in_app_or in Hacc as [?|[<- | []]]; [by left|].
      right. exists r, s. simpl. auto.
    + right. exists r', s'. simpl. auto.
Qed.

Lemma cppRule_by_name (r : ProjectDetectionRule) :
  In r PROJECT_DETECTION_RULES -> rule_name r = "C/C++" -> r = cppRule.
Proof.
  intros Hin Hname. simpl in Hin.
  repeat (destruct Hin as [<- | Hin]; [first [discriminate Hname | reflexivity]|]).
  destruct Hin.
Qed.

Definition makefileOnly (manifest : option bool) : FileSystem :=
  flatDir "/p" [file "Makefile"] manifest.

Definition makefileAndSource (manifest : option bool) : FileSystem :=
  flatDir "/p" [file "Makefile"; file "main.c"] manifest.

Definition makefileAndObjects : FileSystem :=
  flatDir "/p" [file "Makefile"; folder "obj"] None.

(** A Makefile, no source file at the top level, and an [obj] folder:
    detected as C/C++. *)
Lemma makefile_with_obj_folder_detected :
  exists_ makefileAndObjects "/p/Makefile" = Some true
  /\ (exists entries, readDir makefileAndObjects "/p" = Some entries
                      /\ existsb hasCppSource (fileNames entries) = false)
  /\ snd (detectProjectType stableEngine PROJECT_DETECTION_RULES makefileAndObjects "/p")
     = Returned ["C#/.NET"; "C/C++"].
Proof. split; [|split]; [reflexivity| by eexists |reflexivity]. Qed.

(** C6, amended: for every directory whose top level holds no C/C++
    source file the build files (Makefile, CMakeLists.txt, configure.ac)
    add no weight to the C/C++ rule, so that C/C++ is detected only when
    its folder and pattern indicators alone reach the threshold; a
    directory that holds only a Makefile is not detected as C/C++, and with
    a top-level main.c added it is. *)
Theorem build_files_need_sources (E : Engine) :
  (forall fs dirPath,
     noTopLevelSource fs dirPath ->
     (forall s, foldOpt (checkFile fs dirPath cppRule) (rule_files cppRule) zeroScore = Some s ->
                s = afterBuildFiles)
     /\ ((forall p, is_Some (exists_ fs p)) ->
         foldOpt (checkFile fs dirPath cppRule) (rule_files cppRule) zeroScore
         = Some afterBuildFiles)
     /\ (forall types,
           snd (detectProjectType E PROJECT_DETECTION_RULES fs dirPath) = Returned types ->
           In "C/C++" types ->
           exists s, foldOpt (checkFolder fs dirPath) (rule_folders cppRule) afterBuildFiles
                     = Some s
                     /\ considered (checkPatterns fs dirPath cppRule s) = true))
  /\ (forall manifest,
        snd (detectProjectType E PROJECT_DETECTION_RULES (makefileOnly manifest) "/p")
        = Returned [])
  /\ (forall manifest,
        snd (detectProjectType E PROJECT_DETECTION_RULES (makefileAndSource manifest) "/p")
        = Returned ["C/C++"]).
Proof.
  split; [|split].
  - intros fs dirPath Hno.
    assert (Hfiles : forall s,
               foldOpt (checkFile fs dirPath cppRule) (rule_files cppRule) zeroScore = Some s ->
               s = afterBuildFiles).
    { intros s. cbn [cppRule rule rule_files foldOpt].
      destruct (checkFile _ _ _ zeroScore "Makefile") as [s1|] eqn:E1; [|done].
      apply checkFile_build_file in E1 as ->; [|done|simpl; auto]. simpl.
      destruct (checkFile _ _ _ _ "CMakeLists.txt") as [s2|] eqn:E2; [|done].
      apply checkFile_build_file in E2 as ->; [|done|simpl; auto]. simpl.
      destruct (checkFile _ _ _ _ "configure.ac") as [s3|] eqn:E3; [|done].
      apply checkFile_build_file in E3 as ->; [|done|simpl; auto]. simpl.
      by intros [= <-]. }
    split; [exact Hfiles|]. split.
    { intros Hex.
      destruct (foldOpt_is_Some (checkFile fs dirPath cppRule) (rule_files cppRule) zeroScore)
        as [s Hs]; [intros; by apply checkFile_is_Some|].
      by rewrite Hs, (Hfiles s Hs). }
    intros types. unfold detectProjectType. cbn [snd].
    destruct (foldOpt _ _ []) as [detected|] eqn:Ed; [|done].
    intros [= <-] Hin.
    apply in_map_iff in Hin as (c & Hname & Hc).
    apply list_elem_of_In, elem_of_take in Hc as (i & Hc & _).
    apply list_elem_of_lookup_2, list_elem_of_In in Hc.
    apply (Permutation_in _ (arraySort_perm E _ _)) in Hc.
    destruct (scanRule_candidates _ _ _ _ _ Ed c Hc) as [[] | (r & s & Hr & Hs & Hcons & Hn)].
    apply (Permutation_in _ (stableSortBy_perm _ _)) in Hr.
    apply cppRule_by_name in Hr as ->; [|congruence].
    unfold scoreRule in Hs.
    destruct (foldOpt (checkFile _ _ _) _ _) as [s1|] eqn:E1; [|done].
    rewrite (Hfiles s1 eq_refl) in Hs. cbn [mbind option_bind] in Hs.
    destruct (foldOpt (checkFolder _ _) _ _) as [s2|] eqn:E2; [|done].
    cbn [mbind option_bind] in Hs. injection Hs as <-. by exists s2.
  - intros manifest. unfold detectProjectType. cbn [snd].
    assert (foldOpt (scanRule (makefileOnly manifest) "/p")
                    (stableSort compareRules PROJECT_DETECTION_RULES) [] = Some []) as ->
      by (vm_compute; reflexivity).
    by rewrite (Permutation_nil (Permutation_sym (arraySort_perm E compareCandidates []))).
  - intros manifest. unfold detectProjectType. cbn [snd].
    assert (foldOpt (scanRule (makefileAndSource manifest) "/p")
                    (stableSort compareRules PROJECT_DETECTION_RULES) []
            = Some [{| cand_name := "C/C++"; cand_priority := 5;
                       cand_confidence := 4 # 11 |}]) as ->
      by (vm_compute; reflexivity).
    by rewrite (Permutation_length_1_inv
                  (Permutation_sym (arraySort_perm E compareCandidates [_]))).
Qed.

Lemma build_files_need_sources_witness :
  noTopLevelSource makefileAndObjects "/p"
  /\ exists s, foldOpt (checkFolder makefileAndObjects "/p") (rule_folders cppRule)
                 afterBuildFiles = Some s
               /\ considered (checkPatterns makefileAndObjects "/p" cppRule s) = true.
Proof.
  assert (Hno : noTopLevelSource makefileAndObjects "/p").
  { intros entries [= <-]. reflexivity. }
  split; [exact Hno|].
  apply (proj2 (proj2 (proj1 (build_files_need_sources stableEngine)
                          makefileAndObjects "/p" Hno))
           ["C#/.NET"; "C/C++"]).
  - reflexivity.
  - simpl. auto.
Defined.

End Detection.

(** ** Ignore sets *)

Section IgnoreSets.
Import Js ProjectDetection.




Definition own (field : DefaultIgnorePattern -> list string) (projectType : string)
    : list string :=
  match getProperty projectType with
  | Own p => field p
  | _ => []
  end.

Definition inherited (projectType : string) : bool :=
  match getProperty projectType with
  | Inherited => true
  | _ => false
  end.

(** The merge loop in closed form *)
Lemma foldOpt_mergeType (l : list string) (init : DefaultIgnorePattern) :
  foldOpt mergeType l init
  = if existsb inherited l then None
    else Some (ignore (ign_files init ++ flat_map (own ign_files) l)
                      (ign_folders init ++ flat_map (own ign_folders) l)
                      (ign_extensions init ++ flat_map (own ign_extensions) l))%list.
Proof.
  revert init. induction l as [|t l IH]; intros init; cbn [foldOpt existsb flat_map].
  - rewrite !app_nil_r. by destruct init.
  - assert (Hown : forall f, own f t = match getProperty t with Own p => f p | _ => [] end)
      by done.
    assert (Hinh : inherited t = match getProperty t with Inherited => true | _ => false end)
      by done.
    assert (Hm : mergeType init t
                 = match getProperty t with
                   | Own p => Some (ignore (ign_files init ++ ign_files p)
                                           (ign_folders init ++ ign_folders p)
                                           (ign_extensions init ++ ign_extensions p))%list
                   | Inherited => None
                   | Missing => Some init
                   end) by done.
    rewrite Hm, Hinh, !Hown.
    destruct (getProperty t) as [p| |]; cbn [mbind option_bind orb]; [| done |].
    + rewrite IH. destruct (existsb inherited l); [done|].
      cbn [ign_files ign_folders ign_extensions ignore]. by rewrite <- !app_assoc.
    + rewrite IH. by destruct (existsb inherited l).
Qed.


Lemma inList_In (x : string) (l : list string) : inList x l = true <-> In x l.
Proof.
  unfold inList. rewrite existsb_exists. split.
  - intros (y & Hy & E). by apply String.eqb_eq in E as ->.
  - intros H. exists x. split; [done|apply String.eqb_refl].
Qed.

Lemma setFrom_In (l set : list string) (x : string) :
  In x (setFrom l set) <-> In x set \/ In x l.
Proof.
  revert set. induction l as [|y l IH]; intros set; cbn [setFrom].
  - simpl. tauto.
  - rewrite IH. destruct (inList y set) eqn:E.
    + apply inList_In in E. simpl. split; [tauto|].
      intros [?|[<-|?]]; auto.
    + rewrite in_app_iff. simpl. tauto.
Qed.

Lemma setFrom_NoDup (l set : list string) : NoDup set -> NoDup (setFrom l set).
Proof.
  revert set. induction l as [|y l IH]; intros set H; cbn [setFrom]; [done|].
  apply IH. destruct (inList y set) eqn:E; [done|].
  apply NoDup_app. split; [done|]. split; [|apply NoDup_singleton].
  intros x Hx%list_elem_of_In ->%list_elem_of_singleton.
  apply inList_In in Hx. congruence.
Qed.

Lemma dedupe_In (l : list string) (x : string) : In x (dedupe l) <-> In x l.
Proof. unfold dedupe. rewrite setFrom_In. simpl. tauto. Qed.

Lemma dedupe_NoDup (l : list string) : NoDup (dedupe l).
Proof. apply setFrom_NoDup, NoDup_nil_2. Qed.







(** Every name detection can return has its own entry in the table of
    ignore patterns, so the merge does not throw on detected types. *)
Lemma detected_types_have_patterns (l : list string) :
  Forall (fun t => In t (List.map rule_name PROJECT_DETECTION_RULES)) l ->
  is_Some (getDefaultIgnorePatterns l).
Proof.
  intros H. unfold getDefaultIgnorePatterns. rewrite foldOpt_mergeType.
  assert (existsb inherited l = false) as ->; [|by eexists].
  induction H as [|t l Ht _ IH]; [done|].
  cbn [existsb]. rewrite IH, orb_false_r.
  simpl in Ht.
  repeat (destruct Ht as [<- | Ht]; [reflexivity|]). destruct Ht.
Qed.



(** The lists themselves keep the order of assembly. *)
Lemma ignore_lists_keep_assembly_order :
  (ign_files <$> getDefaultIgnorePatterns ["Rust"; "Go"])
  = Some [".DS_Store"; "Thumbs.db"; "desktop.ini"; "*.swp"; "*.swo"; "*~";
          "Cargo.lock"; "go.sum"]
  /\ (ign_files <$> getDefaultIgnorePatterns ["Go"; "Rust"])
     = Some [".DS_Store"; "Thumbs.db"; "desktop.ini"; "*.swp"; "*.swo"; "*~";
             "go.sum"; "Cargo.lock"].
Proof. split; vm_compute; reflexivity. Qed.

End IgnoreSets.

(** ** Parsing a whole-file text *)

Section WholeFileParsing.
Import Js ClipboardMonitor.

Lemma split_nonempty (sep : ascii) (s : string) : split sep s <> [].
Proof.
  destruct s as [|c r]; cbn [split]; [done|].
  destruct (Ascii.eqb c sep); [done|]. by destruct (split sep r).
Qed.

(** No line break in [s] *)
Definition oneLine (s : string) : Prop := includes s nl = false.

Lemma oneLine_cons (c : ascii) (s : string) :
  oneLine (String c s) -> Ascii.eqb c LF = false /\ oneLine s.
Proof.
  unfold oneLine. cbn [includes]. intros H. apply orb_false_iff in H as [H1 H2].
  split; [|done]. cbn [startsWith nl] in H1.
  rewrite Ascii.eqb_sym. destruct (Ascii.eqb LF c); [|done].
  by rewrite startsWith_empty in H1.
Qed.

Lemma split_oneLine (s : string) : oneLine s -> split LF s = [s].
Proof.
  induction s as [|c s IH]; [done|]. intros H.
  apply oneLine_cons in H as [Hc Hs]. cbn [split]. by rewrite Hc, (IH Hs).
Qed.

Lemma split_first_line (line rest : string) :
  oneLine line -> split LF (line ++ nl ++ rest) = line :: split LF rest.
Proof.
  induction line as [|c line IH]; intros H.
  - change ("" ++ nl ++ rest) with (String LF rest). cbn [split].
    by rewrite Ascii.eqb_refl.
  - apply oneLine_cons in H as [Hc Hs].
    change (String c line ++ nl ++ rest) with (String c (line ++ nl ++ rest)).
    cbn [split]. by rewrite Hc, (IH Hs).
Qed.

Lemma split_last_line (body closing : string) :
  oneLine closing -> split LF (body ++ nl ++ closing) = (split LF body ++ [closing])%list.
Proof.
  intros H. induction body as [|c body IH].
  - change ("" ++ nl ++ closing) with (String LF closing). cbn [split].
    by rewrite Ascii.eqb_refl, (split_oneLine _ H).
  - change (String c body ++ nl ++ closing) with (String c (body ++ nl ++ closing)).
    cbn [split]. rewrite IH. destruct (Ascii.eqb c LF); [done|].
    pose proof (split_nonempty LF body). by destruct (split LF body).
Qed.

Lemma join_cons (sep x : string) (l : list string) :
  l <> [] -> join sep (x :: l) = x ++ sep ++ join sep l.
Proof. by destruct l. Qed.

(** Joining the lines of a text gives the text back. *)
Lemma join_split (s : string) : join nl (split LF s) = s.
Proof.
  induction s as [|c s IH]; [done|]. cbn [split].
  pose proof (split_nonempty LF s) as Hne.
  destruct (Ascii.eqb c LF) eqn:E.
  - apply Ascii.eqb_eq in E as ->.
    by rewrite (join_cons _ _ _ Hne), IH.
  - destruct (split LF s) as [|h t]; [done|].
    destruct t as [|h' t].
    + cbn [join] in *. by rewrite IH.
    + rewrite join_cons by done. rewrite join_cons in IH by done.
      change (String c h ++ nl ++ join nl (h' :: t))
        with (String c (h ++ nl ++ join nl (h' :: t))).
      by rewrite IH.
Qed.

(** X1: the content of a whole-file text that is not fenced is the text
    behind the first line break, character for character. *)
Theorem unfenced_content_is_verbatim (line rest : string) :
  oneLine line ->
  startsWith (trim line) "```" = false ->
  fileContent (parseFileContent (line ++ nl ++ rest)) = rest
  /\ isFence (parseFileContent (line ++ nl ++ rest)) = false.
Proof.
  intros Hline Hfence. unfold parseFileContent.
  rewrite (split_first_line _ _ Hline). cbn [first hd tl fileContent isFence].
  rewrite Hfence. by rewrite join_split.
Qed.

Lemma unfenced_content_is_verbatim_witness :
  fileContent (parseFileContent ("// a.ts" ++ nl ++ "  console.log(1)  " ++ nl))
  = "  console.log(1)  " ++ nl
  /\ isFence (parseFileContent ("// a.ts" ++ nl ++ "  console.log(1)  " ++ nl)) = false.
Proof.
  apply (unfenced_content_is_verbatim "// a.ts" ("  console.log(1)  " ++ nl));
    reflexivity.
Defined.

(** X2: in a fenced text a last line that is the closing fence, with or
    without blanks around it, is dropped together with the line break
    before it; a last line that is no fence stays. *)
Theorem fenced_content_drops_closing_fence (line body closing : string) :
  oneLine line ->
  oneLine closing ->
  startsWith (trim line) "```" = true ->
  fileContent (parseFileContent (line ++ nl ++ body ++ nl ++ closing))
  = if String.eqb (trim closing) "```" then body else body ++ nl ++ closing.
Proof.
  intros Hline Hclosing Hfence. unfold parseFileContent.
  rewrite (split_first_line _ _ Hline). cbn [first hd tl fileContent].
  rewrite Hfence, join_split, (split_last_line _ _ Hclosing).
  rewrite last_last, removelast_last, join_split.
  reflexivity.
Qed.

Lemma fenced_content_drops_closing_fence_witness :
  fileContent (parseFileContent
                 ("``` // src/a.ts" ++ nl ++ "let x = 1;" ++ nl ++ "let y = 2;" ++ nl ++ "``` "))
  = "let x = 1;" ++ nl ++ "let y = 2;".
Proof.
  apply (fenced_content_drops_closing_fence "``` // src/a.ts"
           ("let x = 1;" ++ nl ++ "let y = 2;") "``` "); reflexivity.
Defined.

End WholeFileParsing.

(** ** Paths by their segments *)

Section PathSegments.
Import Js ClipboardMonitor.

Lemma includes_cons_false (c : ascii) (s t : string) :
  includes (String c s) t = false -> includes s t = false.
Proof. cbn [includes]. by intros [_ ?]%orb_false_iff. Qed.

Lemma split_first_field (sep : ascii) (field rest : string) :
  includes field (String sep "") = false ->
  split sep (field ++ String sep rest) = field :: split sep rest.
Proof.
  induction field as [|c field IH]; intros H.
  - change ("" ++ String sep rest) with (String sep rest). cbn [split].
    by rewrite Ascii.eqb_refl.
  - change (String c field ++ String sep rest) with (String c (field ++ String sep rest)).
    cbn [split]. rewrite (IH (includes_cons_false _ _ _ H)).
    cbn [includes startsWith] in H. apply orb_false_iff in H as [H _].
    rewrite Ascii.eqb_sym. destruct (Ascii.eqb sep c); [|done].
    by rewrite startsWith_empty in H.
Qed.

Lemma split_one_field (sep : ascii) (field : string) :
  includes field (String sep "") = false -> split sep field = [field].
Proof.
  induction field as [|c field IH]; [done|]. intros H.
  cbn [split]. rewrite (IH (includes_cons_false _ _ _ H)).
  cbn [includes startsWith] in H. apply orb_false_iff in H as [H _].
  rewrite Ascii.eqb_sym. destruct (Ascii.eqb sep c); [|done].
  by rewrite startsWith_empty in H.
Qed.

Lemma dropCommon_spec (a b : list string) :
  exists common,
    a = (common ++ fst (Path.dropCommon a b))%list
    /\ b = (common ++ snd (Path.dropCommon a b))%list.
Proof.
  revert b. induction a as [|x a IH]; intros b; [by exists []|].
  destruct b as [|y b]; [by exists []|]. cbn [Path.dropCommon].
  destruct (String.eqb x y) eqn:E; [|by exists []].
  apply String.eqb_eq in E as <-.
  destruct (IH b) as (common & Ha & Hb). exists (x :: common).
  destruct (Path.dropCommon a b). cbn [fst snd] in *. split; simpl; by f_equal.
Qed.

Lemma join_parent_first (l : list string) : startsWith (join "/" (".." :: l)) ".." = true.
Proof.
  destruct l as [|y l]; [done|]. rewrite join_cons by done. apply startsWith_app.
Qed.

Lemma safe_target_segments (cwd baseDir targetPath : string) :
  isPathSafe cwd baseDir targetPath = true ->
  exists seg down,
    Path.segments (Path.resolve cwd [targetPath])
    = (Path.segments (Path.resolve cwd [baseDir]) ++ seg :: down)%list
    /\ startsWith seg ".." = false.
Proof.
  unfold isPathSafe, Path.relative.
  destruct (String.eqb (Path.resolve cwd [baseDir]) (Path.resolve cwd [targetPath]));
    [done|].
  destruct (dropCommon_spec (Path.segments (Path.resolve cwd [baseDir]))
                            (Path.segments (Path.resolve cwd [targetPath])))
    as (common & Ha & Hb).
  destruct (Path.dropCommon _ _) as [up down]. cbn [fst snd] in *.
  rewrite !andb_true_iff, !negb_true_iff. intros [[Hne Hup] _].
  destruct up as [|u up].
  - rewrite app_nil_r in Ha. subst common. cbn [List.map app] in *.
    destruct down as [|seg down]; [done|].
    exists seg, down. split; [done|].
    destruct down as [|y down]; [done|].
    rewrite join_cons in Hup by done.
    destruct (startsWith seg "..") eqn:E; [|done].
    apply startsWith_inv in E as [r ->].
    by rewrite app_assoc_s, startsWith_app in Hup.
  - cbn [List.map app] in Hup. by rewrite join_parent_first in Hup.
Qed.

(** A segment of a resolved path: a name, neither [.] nor [..]. *)
Definition slashFree (s : string) : Prop := includes s "/" = false.

Definition dotFree (s : string) : Prop := s <> "." /\ s <> "..".

Definition properSegment (s : string) : Prop := slashFree s /\ s <> "" /\ dotFree s.

Definition nonEmpty (s : string) : bool := negb (String.eqb s "").

Lemma slashFree_cons (c : ascii) (s : string) :
  Ascii.eqb c "/" = false -> slashFree s -> slashFree (String c s).
Proof.
  unfold slashFree. intros Hc Hs. cbn [includes startsWith].
  by rewrite Hs, Ascii.eqb_sym, Hc.
Qed.

Lemma split_slashFree (s : string) : Forall slashFree (split "/" s).
Proof.
  induction s as [|c s IH]; [by repeat constructor|]. cbn [split].
  destruct (Ascii.eqb c "/") eqn:E; [by constructor|].
  destruct (split "/" s) as [|h t]; [by repeat constructor; apply slashFree_cons|].
  apply Forall_cons in IH as [Hh Ht]. constructor; [|done]. by apply slashFree_cons.
Qed.

Lemma split_snoc_sep (sep : ascii) (s : string) :
  split sep (s ++ String sep "") = (split sep s ++ [""])%list.
Proof.
  induction s as [|c s IH].
  - change ("" ++ String sep "") with (String sep ""). cbn [split].
    by rewrite Ascii.eqb_refl.
  - change (String c s ++ String sep "") with (String c (s ++ String sep "")).
    cbn [split]. rewrite IH. destruct (Ascii.eqb c sep); [done|].
    pose proof (split_nonempty sep s). by destruct (split sep s).
Qed.

Lemma split_join_fields (sep : ascii) (l : list string) :
  l <> [] -> Forall (fun x => includes x (String sep "") = false) l ->
  split sep (join (String sep "") l) = l.
Proof.
  intros Hne H. induction H as [|x l Hx _ IH]; [done|].
  destruct l as [|y l]; [by apply split_one_field|].
  rewrite join_cons by done.
  change (x ++ String sep "" ++ join (String sep "") (y :: l))
    with (x ++ String sep (join (String sep "") (y :: l))).
  rewrite (split_first_field _ _ _ Hx). by rewrite IH.
Qed.

Lemma segments_abs_join (l : list string) :
  Forall (fun x => slashFree x /\ x <> "") l -> Path.segments ("/" ++ join "/" l) = l.
Proof.
  intros H. unfold Path.segments.
  change ("/" ++ join "/" l) with (String "/" (join "/" l)). cbn [split].
  change (Ascii.eqb "/" "/") with true. cbv iota. cbn [List.filter String.eqb negb].
  destruct l as [|x l]; [done|].
  rewrite split_join_fields; [|done|by eapply Forall_impl; [exact H|]; intros ? [? _]].
  induction H as [|y l' [_ Hy] _ IH]; [done|]. cbn [List.filter].
  apply String.eqb_neq in Hy. rewrite Hy. cbn [negb]. by rewrite IH.
Qed.

Lemma segments_snoc_sep (p : string) : Path.segments (p ++ "/") = Path.segments p.
Proof.
  unfold Path.segments. rewrite (split_snoc_sep "/" p), List.filter_app.
  cbn [List.filter String.eqb negb]. by rewrite app_nil_r.
Qed.

Lemma segments_spec (p : string) :
  Forall (fun x => slashFree x /\ x <> "") (Path.segments p).
Proof.
  unfold Path.segments. pose proof (split_slashFree p) as H.
  induction H as [|x l Hx _ IH]; [constructor|]. cbn [List.filter].
  destruct (String.eqb x "") eqn:E; [done|]. cbn [negb].
  apply String.eqb_neq in E. by constructor.
Qed.

(** On segments without [.] and [..] the walk only drops the empty ones. *)
Lemma normalizeSegments_plain (allowAboveRoot : bool) (segs acc : list string) :
  Forall dotFree (List.filter nonEmpty segs) ->
  Path.normalizeSegments allowAboveRoot segs acc = (rev acc ++ List.filter nonEmpty segs)%list.
Proof.
  revert acc. induction segs as [|seg segs IH]; intros acc H;
    cbn [Path.normalizeSegments List.filter]; [by rewrite app_nil_r|].
  cbn [List.filter] in H. unfold nonEmpty at 1. unfold nonEmpty at 1 in H.
  destruct (String.eqb seg "") eqn:E; cbn [negb orb] in *; [by apply IH|].
  apply Forall_cons in H as [[H1 H2] H].
  apply String.eqb_neq in H1, H2. rewrite H1, H2.
  rewrite (IH _ H). cbn [rev]. by rewrite <- app_assoc.
Qed.

(** From the root the walk keeps proper segments only. *)
Lemma normalizeSegments_root (segs acc : list string) :
  Forall slashFree segs -> Forall properSegment acc ->
  Forall properSegment (Path.normalizeSegments false segs acc).
Proof.
  intros H. revert acc. induction H as [|seg segs Hseg _ IH]; intros acc Hacc;
    cbn [Path.normalizeSegments]; [by apply Forall_rev|].
  destruct (String.eqb seg "") eqn:E1; cbn [orb]; [by apply IH|].
  destruct (String.eqb seg ".") eqn:E2; [by apply IH|].
  destruct (String.eqb seg "..") eqn:E3.
  - destruct acc as [|top acc']; [by apply IH|].
    apply Forall_cons in Hacc as [Htop Hacc'].
    destruct (String.eqb top ".."); apply IH; [by constructor|done].
  - apply IH. constructor; [|done].
    apply String.eqb_neq in E1, E2, E3. by repeat split.
Qed.

Lemma absolute_inv (p : string) : Path.isAbsolute p = true -> exists r, p = String "/" r.
Proof.
  unfold Path.isAbsolute. destruct p as [|c r]; [done|]. cbn [startsWith].
  destruct (Ascii.eqb "/" c) eqn:E; [|done]. apply Ascii.eqb_eq in E as <-. by exists r.
Qed.

(** A normalized absolute path is absolute and made of proper segments. *)
Lemma normalize_absolute (p : string) :
  Path.isAbsolute p = true ->
  Path.isAbsolute (Path.normalize p) = true
  /\ Forall properSegment (Path.segments (Path.normalize p)).
Proof.
  intros Habs. destruct (absolute_inv p Habs) as [r ->]. unfold Path.normalize.
  change (String.eqb (String "/" r) "") with false. cbv iota. rewrite Habs.
  cbn [negb]. rewrite andb_false_r. unfold Path.normalizeString.
  pose proof (normalizeSegments_root (split "/" (String "/" r)) []
                (split_slashFree _) (List.Forall_nil _)) as Hl.
  set (l := Path.normalizeSegments false (split "/" (String "/" r)) []) in *.
  assert (Hseg : Forall (fun x => slashFree x /\ x <> "") l)
    by (eapply Forall_impl; [exact Hl|]; by intros ? (? & ? & _)).
  split; [unfold Path.isAbsolute; apply startsWith_app|].
  destruct (_ && _).
  - rewrite <- app_assoc_s, segments_snoc_sep. by rewrite (segments_abs_join l Hseg).
  - by rewrite (segments_abs_join l Hseg).
Qed.

Lemma resolveLoop_absolute (cwd : string) (paths : list string) (acc : string) :
  Path.isAbsolute cwd = true -> snd (Path.resolveLoop (paths ++ [cwd]) acc) = true.
Proof.
  intros Habs. destruct (absolute_inv cwd Habs) as [r Hr]. revert acc.
  induction paths as [|p paths IH]; intros acc; cbn [app Path.resolveLoop].
  - rewrite Habs. by rewrite Hr.
  - destruct (String.eqb p ""); [apply IH|]. destruct (Path.isAbsolute p); [done|apply IH].
Qed.

Lemma resolve_absolute (cwd : string) (paths : list string) :
  Path.isAbsolute cwd = true -> Path.isAbsolute (Path.resolve cwd paths) = true.
Proof.
  intros Habs. unfold Path.resolve.
  pose proof (resolveLoop_absolute cwd (rev paths) "" Habs) as H.
  destruct (Path.resolveLoop _ _) as [joined abs]. cbn [snd] in H. subst abs.
  destruct (String.eqb _ ""); [done|]. unfold Path.isAbsolute. apply startsWith_app.
Qed.

(** Resolving an absolute path of proper segments gives its segments. *)
Lemma resolve_proper (cwd p : string) :
  Path.isAbsolute p = true -> Forall dotFree (Path.segments p) ->
  Path.segments (Path.resolve cwd [p]) = Path.segments p.
Proof.
  intros Habs Hp. destruct (absolute_inv p Habs) as [r Hr].
  unfold Path.resolve. cbn [rev app Path.resolveLoop].
  assert (String.eqb p "" = false) as -> by (by rewrite Hr). rewrite Habs.
  change (p ++ "/" ++ "") with (p ++ "/"). cbn [negb]. unfold Path.normalizeString.
  assert (Hf : List.filter nonEmpty (split "/" (p ++ "/")) = Path.segments p)
    by (rewrite <- (segments_snoc_sep p); reflexivity).
  rewrite normalizeSegments_plain by (by rewrite Hf).
  cbn [rev app]. rewrite Hf.
  assert (H : (if String.eqb (join "/" (Path.segments p)) "" then "/"
               else "/" ++ join "/" (Path.segments p))
              = "/" ++ join "/" (Path.segments p)).
  { destruct (String.eqb _ "") eqn:E; [|done]. by apply String.eqb_eq in E as ->. }
  rewrite H. apply segments_abs_join, segments_spec.
Qed.

Lemma In_removelast {A} (x : A) (l : list A) : In x (removelast l) -> In x l.
Proof.
  induction l as [|y l IH]; [done|]. cbn [removelast].
  destruct l as [|z l]; [done|]. intros [<- | H]; [by left|]. right. by apply IH.
Qed.

(** The directory made for a safe target is the root or lies below it. *)
Lemma parent_of_safe_target (cwd base filePath : string) :
  Path.isAbsolute cwd = true ->
  isPathSafe cwd base (targetPathOf cwd base filePath) = true ->
  exists down,
    Path.segments (Path.resolve cwd [Path.dirname (targetPathOf cwd base filePath)])
    = (Path.segments (Path.resolve cwd [base]) ++ down)%list.
Proof.
  intros Hcwd Hsafe.
  assert (Hx : Path.isAbsolute (if Path.isAbsolute filePath then filePath
                                else Path.resolve cwd [base; filePath]) = true).
  { destruct (Path.isAbsolute filePath) eqn:E; [done|by apply resolve_absolute]. }
  destruct (normalize_absolute _ Hx) as [Habs Hproper].
  fold (targetPathOf cwd base filePath) in Habs, Hproper.
  set (target := targetPathOf cwd base filePath) in *.
  destruct (safe_target_segments cwd base target Hsafe) as (seg & down & Hsegs & _).
  assert (Hdot : Forall dotFree (Path.segments target))
    by (eapply Forall_impl; [exact Hproper|]; by intros ? (_ & _ & ?)).
  rewrite (resolve_proper cwd target Habs Hdot) in Hsegs.
  assert (Hdir : Path.dirname target = "/" ++ join "/" (removelast (Path.segments target)))
    by (unfold Path.dirname; by rewrite Habs).
  assert (Hparent : Forall properSegment (removelast (Path.segments target))).
  { apply List.Forall_forall. intros x Hx'. apply In_removelast in Hx'.
    revert x Hx'. by apply List.Forall_forall. }
  assert (Hps : Path.segments (Path.dirname target) = removelast (Path.segments target)).
  { rewrite Hdir. apply segments_abs_join.
    eapply Forall_impl; [exact Hparent|]. by intros ? (? & ? & _). }
  exists (removelast (seg :: down)).
  rewrite resolve_proper.
  - rewrite Hps, Hsegs. by apply removelast_app.
  - rewrite Hdir. unfold Path.isAbsolute. apply startsWith_app.
  - rewrite Hps. eapply Forall_impl; [exact Hparent|]. by intros ? (_ & _ & ?).
Qed.

End PathSegments.

(** ** The polling loop *)

Module MonitorLoop.
Import Js ClipboardMonitor.

(** The loop of [start], one [checkClipboard] per tick, for the ticks whose
    clipboard reads are given. *)
Fixpoint runPolls (m : Monitor) (w : World) (reads : list ClipboardRead)
    : Monitor * World * list Event :=
  match reads with
  | [] => (m, w, [])
  | r :: rest =>
      let '(m1, w1, evs1) := checkClipboard m w r in
      let '(m2, w2, evs2) := runPolls m1 w1 rest in
      (m2, w2, (evs1 ++ evs2)%list)
  end.

(** An event stays inside the root [base]: what is read or written is a
    safe target; a directory is made only as the parent directory of a
    safe target, and it is the root itself or lies below it. *)
Definition confined (cwd base : string) (e : Event) : Prop :=
  match e with
  | Log _ => True
  | ReadTextFile p | WriteTextFile p _ => isPathSafe cwd base p = true
  | Mkdir d =>
      (exists p, d = Path.dirname p /\ isPathSafe cwd base p = true)
      /\ exists down,
           Path.segments (Path.resolve cwd [d])
           = (Path.segments (Path.resolve cwd [base]) ++ down)%list
  end.

End MonitorLoop.

Section MonitorLoopFacts.
Import Js ClipboardMonitor MonitorLoop.

Lemma processSearchReplace_effect (opts : ClipboardMonitorOptions) (w : World)
    (path content : string) :
  let '(w', evs) := processSearchReplace opts w path content in
  cwd w' = cwd w
  /\ (w' = w \/ exists old new, files w !! path = Some old /\ w' = writeTextFile w path new)
  /\ Forall (fun e => match e with
                      | Log _ => True
                      | ReadTextFile p | WriteTextFile p _ => p = path
                      | Mkdir _ => False
                      end) evs.
Proof.
  unfold processSearchReplace.
  destruct (_ || _); [by repeat constructor|].
  destruct (String.eqb _ ""); [by repeat constructor|].
  destruct (files w !! path) as [original|] eqn:E; [|by repeat constructor].
  destruct (negb _).
  - split; [done|]. split; [by left|]. destruct (verbose opts); by repeat constructor.
  - split; [done|]. split; [right; by eexists _, _|]. by repeat constructor.
Qed.

(** X3: a search-and-replace never creates a file and never removes one. *)
Theorem search_replace_keeps_file_set (opts : ClipboardMonitorOptions) (w : World)
    (path content : string) :
  dom (files (fst (processSearchReplace opts w path content))) = dom (files w)
  /\ (files w !! path = None -> fst (processSearchReplace opts w path content) = w).
Proof.
  pose proof (processSearchReplace_effect opts w path content) as H.
  destruct (processSearchReplace opts w path content) as [w' evs]. cbn [fst].
  destruct H as (_ & [-> | (old & new & Hold & ->)] & _); [done|].
  split; [|congruence].
  cbn [files writeTextFile]. rewrite dom_insert_L.
  apply elem_of_dom_2 in Hold.
  apply subseteq_union_1_L. by apply singleton_subseteq_l.
Qed.

Lemma search_replace_keeps_file_set_witness :
  fst (processSearchReplace (options (projMonitor false)) projWorld "/proj/run.sh"
         dollarBlock) = projWorld.
Proof.
  apply (search_replace_keeps_file_set (options (projMonitor false)) projWorld
           "/proj/run.sh" dollarBlock). reflexivity.
Defined.

Lemma processClipboardContent_effect (m : Monitor) (w : World) (content : string) :
  let '(w', evs) := processClipboardContent m w content in
  cwd w' = cwd w
  /\ (w' = w
      \/ exists base target new,
           baseProjectDirAbs m = Some base
           /\ isPathSafe (cwd w) base target = true
           /\ w' = writeTextFile w target new)
  /\ forall base, Path.isAbsolute (cwd w) = true -> baseProjectDirAbs m = Some base ->
                   Forall (confined (cwd w) base) evs.
Proof.
  unfold processClipboardContent.
  destruct (String.eqb _ "").
  { split; [done|]. split; [by left|]. intros. destruct (verbose _); by repeat constructor. }
  destruct (baseProjectDirAbs m) as [base|] eqn:Hb.
  2:{ split; [done|]. split; [by left|]. intros ? _ [=]. }
  pose proof (parent_of_safe_target (cwd w) base (filePath (parseFileContent content)))
    as Hparent.
  set (target := targetPathOf _ _ _) in *.
  destruct (isPathSafe (cwd w) base target) eqn:Hsafe; cbn [negb].
  2:{ split; [done|]. split; [by left|]. intros. by repeat constructor. }
  destruct (isSearchReplacePattern content).
  - pose proof (processSearchReplace_effect (options m) w target content) as H.
    destruct (processSearchReplace _ w target content) as [w' evs].
    destruct H as (Hc & Hw & Hev). split; [done|]. split.
    + destruct Hw as [-> | (old & new & _ & ->)]; [by left|].
      right. by exists base, target, new.
    + intros base' _ [= <-]. eapply Forall_impl; [exact Hev|].
      intros [| | |] He; simpl in *; by subst.
  - unfold processCompleteFileReplacement. split; [done|]. split.
    + right. by eexists base, target, _.
    + intros base' Hcwd [= <-].
      assert (Hmk : confined (cwd w) base (Mkdir (Path.dirname target)))
        by (split; [by exists target|by apply Hparent]).
      destruct (verbose _); cbn [app];
        repeat (apply List.Forall_cons; [first [exact Hmk | exact Hsafe | exact I]|]);
        apply List.Forall_nil.
Qed.

Lemma checkClipboard_effect (m : Monitor) (w : World) (r : ClipboardRead) :
  let '(m', w', evs) := checkClipboard m w r in
  baseProjectDirAbs m' = baseProjectDirAbs m
  /\ options m' = options m
  /\ cwd w' = cwd w
  /\ (w' = w
      \/ exists base target new,
           baseProjectDirAbs m = Some base
           /\ isPathSafe (cwd w) base target = true
           /\ w' = writeTextFile w target new)
  /\ forall base, Path.isAbsolute (cwd w) = true -> baseProjectDirAbs m = Some base ->
                   Forall (confined (cwd w) base) evs.
Proof.
  unfold checkClipboard. destruct r as [c| |].
  - destruct (_ || _); [by repeat split; auto|].
    destruct (isFileReplacementPattern c); [|by repeat split; auto].
    set (m' := {| options := _ |}).
    pose proof (processClipboardContent_effect m' w c) as H.
    destruct (processClipboardContent m' w c) as [w' evs].
    destruct H as (Hc & Hw & Hev). repeat split; auto.
  - by repeat split; auto.
  - repeat split; auto. intros. destruct (verbose _); by repeat constructor.
Qed.

(** X4: over any sequence of clipboard reads a monitor started in an
    absolute working directory leaves every file alone that is no safe
    target under its root; what it reads or writes is a safe target; and
    a directory it makes is the parent directory of a safe target, which
    is the root itself or a directory below it. *)
Theorem polls_stay_inside_root (m : Monitor) (w : World) (reads : list ClipboardRead)
    (base : string) :
  Path.isAbsolute (cwd w) = true ->
  baseProjectDirAbs m = Some base ->
  (forall p, isPathSafe (cwd w) base p = false ->
             files (snd (fst (runPolls m w reads))) !! p = files w !! p)
  /\ Forall (confined (cwd w) base) (snd (runPolls m w reads)).
Proof.
  revert m w. induction reads as [|r reads IH]; intros m w Hcwd Hbase; cbn [runPolls].
  - split; [done|constructor].
  - pose proof (checkClipboard_effect m w r) as H.
    destruct (checkClipboard m w r) as [[m1 w1] evs1].
    destruct H as (Hb1 & _ & Hc1 & Hw1 & Hev1).
    specialize (IH m1 w1). rewrite Hb1, Hc1 in IH. specialize (IH Hcwd Hbase).
    destruct (runPolls m1 w1 reads) as [[m2 w2] evs2]. cbn [fst snd] in *.
    destruct IH as [IHf IHe]. split.
    + intros p Hp. rewrite (IHf p Hp).
      destruct Hw1 as [-> | (base' & target & new & Hb & Hsafe & ->)]; [done|].
      cbn [files writeTextFile]. apply lookup_insert_ne. congruence.
    + apply Forall_app. split; [by apply Hev1|done].
Qed.

(** A file in the root, a path that climbs out of it, an absolute path
    outside of it and a file two directories down *)
Definition mixedReads : list ClipboardRead :=
  [Text readmeText;
   Text ("// ../etc/passwd" ++ nl ++ "root::0:0");
   Text ("// /etc/passwd" ++ nl ++ "root::0:0");
   Text ("// src/lib/a.ts" ++ nl ++ "export {}")].

Lemma polls_stay_inside_root_witness :
  (forall p, isPathSafe "/home" "/proj" p = false ->
             files (snd (fst (runPolls (projMonitor false) scriptWorld mixedReads))) !! p
             = files scriptWorld !! p)
  /\ Forall (confined "/home" "/proj")
            (snd (runPolls (projMonitor false) scriptWorld mixedReads)).
Proof.
  apply (polls_stay_inside_root (projMonitor false) scriptWorld mixedReads "/proj");
    reflexivity.
Defined.

Definition withLast (m : Monitor) (c : string) : Monitor :=
  {| options := options m; isRunning := isRunning m; lastClipboardContent := c;
     baseProjectDirAbs := baseProjectDirAbs m |}.

(** X5: a text is applied once: polled again, directly or after polls that
    found only blank text or no text, it has no effect. *)
Theorem same_text_applies_once (m : Monitor) (w : World) (c : string)
    (between : list ClipboardRead) :
  Forall (fun r => match r with
                   | Text t => trim t = ""
                   | NoTextFound => True
                   | ReadFailed => verbose (options m) = false
                   end) between ->
  let '(m1, w1, _) := checkClipboard m w (Text c) in
  runPolls m1 w1 (between ++ [Text c]) = (m1, w1, []).
Proof.
  intros Hbetween.
  assert (Hquiet : forall m1 w1,
             options m1 = options m ->
             String.eqb c (lastClipboardContent m1) || String.eqb (trim c) "" = true ->
             runPolls m1 w1 (between ++ [Text c]) = (m1, w1, [])).
  { intros m1 w1 Hopt Hlast.
    induction Hbetween as [|r between Hr _ IH]; cbn [app runPolls].
    - unfold checkClipboard. by rewrite Hlast.
    - destruct r as [t| |]; unfold checkClipboard at 1.
      + rewrite Hr. change (String.eqb "" "") with true. rewrite orb_true_r.
        by rewrite IH.
      + by rewrite IH.
      + rewrite Hopt, Hr. by rewrite IH. }
  unfold checkClipboard.
  destruct (String.eqb c (lastClipboardContent m) || String.eqb (trim c) "") eqn:E.
  { by apply Hquiet. }
  destruct (isFileReplacementPattern c).
  - destruct (processClipboardContent _ w c) as [w' evs].
    apply Hquiet; [done|]. cbn [lastClipboardContent]. by rewrite String.eqb_refl.
  - apply Hquiet; [done|]. cbn [lastClipboardContent]. by rewrite String.eqb_refl.
Qed.

Lemma same_text_applies_once_witness :
  runPolls (withLast (projMonitor false) readmeText)
           (writeTextFile projWorld "/proj/README.md" "hello")
           ([Text "  "; NoTextFound] ++ [Text readmeText])
  = (withLast (projMonitor false) readmeText,
     writeTextFile projWorld "/proj/README.md" "hello", []).
Proof.
  refine (same_text_applies_once (projMonitor false) projWorld readmeText
            [Text "  "; NoTextFound] _).
  repeat constructor.
Defined.

End MonitorLoopFacts.

(** ** Safe targets and ordered blocks *)

Section SafeTargets.
Import Js ClipboardMonitor.

(** X6: a target the program accepts lies below the root: resolved, its
    segments are those of the root followed by at least one more, and the
    first of these does not begin with two dots. *)
Theorem safe_target_extends_root (cwd baseDir targetPath : string) :
  isPathSafe cwd baseDir targetPath = true ->
  exists seg down,
    Path.segments (Path.resolve cwd [targetPath])
    = (Path.segments (Path.resolve cwd [baseDir]) ++ seg :: down)%list
    /\ startsWith seg ".." = false.
Proof. apply safe_target_segments. Qed.

Lemma safe_target_extends_root_witness :
  exists seg down,
    Path.segments (Path.resolve "/home" ["/proj/src/a.ts"])
    = (Path.segments (Path.resolve "/home" ["/proj"]) ++ seg :: down)%list
    /\ startsWith seg ".." = false.
Proof.
  apply (safe_target_extends_root "/home" "/proj" "/proj/src/a.ts"). reflexivity.
Defined.

Lemma takeChars_app (a b : string) : takeChars (String.length a) (a ++ b) = a.
Proof. induction a; simpl; [by destruct b|congruence]. Qed.

Lemma substring_middle (x y z : string) :
  substring (x ++ y ++ z) (len x) (len x + len y) = y.
Proof.
  unfold substring, len. rewrite !length_app_s.
  replace (Z.to_nat _) with (String.length y) by lia.
  replace (Z.to_nat _) with (String.length x) by lia.
  by rewrite dropChars_app, takeChars_app.
Qed.

(** X7: when the three delimiters first occur in the order search, separator,
    replace, the search text is what stands between the first two and the
    replacement what stands between the last two, both trimmed. *)
Theorem ordered_block_extraction (a b c d : string) :
  let content := a ++ SEARCH ++ b ++ SEPARATOR ++ c ++ REPLACE ++ d in
  indexOf content SEARCH = len a ->
  indexOf content SEPARATOR = len (a ++ SEARCH ++ b) ->
  indexOf content REPLACE = len (a ++ SEARCH ++ b ++ SEPARATOR ++ c) ->
  searchContentOf content = trim b /\ replaceContentOf content = trim c.
Proof.
  intros content H1 H2 H3. unfold searchContentOf, replaceContentOf.
  rewrite H1, H2, H3. split; f_equal.
  - unfold content.
    replace (a ++ SEARCH ++ b ++ SEPARATOR ++ c ++ REPLACE ++ d)
      with ((a ++ SEARCH) ++ b ++ (SEPARATOR ++ c ++ REPLACE ++ d))
      by (by rewrite !app_assoc_s).
    replace (len a + len SEARCH) with (len (a ++ SEARCH))
      by (unfold len; rewrite length_app_s; lia).
    replace (len (a ++ SEARCH ++ b)) with (len (a ++ SEARCH) + len b)
      by (unfold len; rewrite !length_app_s; lia).
    apply substring_middle.
  - unfold content.
    replace (a ++ SEARCH ++ b ++ SEPARATOR ++ c ++ REPLACE ++ d)
      with ((a ++ SEARCH ++ b ++ SEPARATOR) ++ c ++ (REPLACE ++ d))
      by (by rewrite !app_assoc_s).
    replace (len (a ++ SEARCH ++ b) + len SEPARATOR)
      with (len (a ++ SEARCH ++ b ++ SEPARATOR))
      by (unfold len; rewrite !length_app_s; lia).
    replace (len (a ++ SEARCH ++ b ++ SEPARATOR ++ c))
      with (len (a ++ SEARCH ++ b ++ SEPARATOR) + len c)
      by (unfold len; rewrite !length_app_s; lia).
    apply substring_middle.
Qed.

Lemma ordered_block_extraction_witness :
  let content := ("// a.ts" ++ nl) ++ SEARCH ++ (nl ++ "x = 1" ++ nl) ++ SEPARATOR
                 ++ (nl ++ "x = 2" ++ nl) ++ REPLACE ++ "" in
  searchContentOf content = "x = 1" /\ replaceContentOf content = "x = 2".
Proof.
  apply (ordered_block_extraction ("// a.ts" ++ nl) (nl ++ "x = 1" ++ nl)
           (nl ++ "x = 2" ++ nl) ""); reflexivity.
Defined.

End SafeTargets.

(** ** What detection returns *)

Section DetectionResults.
Import Js ProjectDetection Fixtures.

Lemma scanRule_names (fs : FileSystem) (dirPath : string)
    (rules : list ProjectDetectionRule) (acc detected : list Candidate) :
  foldOpt (scanRule fs dirPath) rules acc = Some detected ->
  exists picked,
    sublist picked (List.map rule_name rules)
    /\ List.map cand_name detected = (List.map cand_name acc ++ picked)%list.
Proof.
  revert acc. induction rules as [|r rules IH]; intros acc; cbn [foldOpt].
  - intros [= <-]. exists []. split; [constructor|by rewrite app_nil_r].
  - destruct (scanRule fs dirPath acc r) as [acc'|] eqn:Esc; simpl; [|done].
    intros H. destruct (IH _ H) as (picked & Hsub & Hnames).
    unfold scanRule in Esc.
    destruct (scoreRule fs dirPath r) as [s|]; simpl in Esc; [|done].
    injection Esc as <-. destruct (considered s).
    + exists (rule_name r :: picked). split; [by constructor|].
      rewrite Hnames, map_app. cbn [List.map cand_name]. by rewrite <- app_assoc.
    + exists picked. split; [by constructor|done].
Qed.

(** X8: whatever the directory, what detection returns is a list of at most
    three names of rules of the table, none of them twice when no two
    rules share a name. *)
Theorem detection_returns_rule_names (E : Engine) (table : list ProjectDetectionRule)
    (fs : FileSystem) (dirPath : string) (types : list string) :
  NoDup (List.map rule_name table) ->
  snd (detectProjectType E table fs dirPath) = Returned types ->
  (length types <= 3)%nat
  /\ NoDup types
  /\ forall t, In t types -> In t (List.map rule_name table).
Proof.
  intros Hnd. unfold detectProjectType. cbn [snd].
  destruct (foldOpt _ _ []) as [detected|] eqn:Ed; [|done].
  intros [= <-].
  destruct (scanRule_names _ _ _ _ _ Ed) as (picked & Hsub & Hnames).
  cbn [List.map app] in Hnames.
  assert (Hperm : Permutation (List.map rule_name (stableSort compareRules table))
                              (List.map rule_name table)).
  { apply Permutation_map, stableSortBy_perm. }
  assert (Hsorted : NoDup (List.map cand_name (arraySort E compareCandidates detected))).
  { rewrite (Permutation_map cand_name (arraySort_perm E compareCandidates detected)).
    rewrite Hnames. eapply sublist_NoDup; [|exact Hsub]. by rewrite Hperm. }
  split; [rewrite length_map, length_take; lia|]. split.
  - eapply sublist_NoDup; [exact Hsorted|].
    change (List.map cand_name ?l) with (cand_name <$> l).
    rewrite fmap_take. apply sublist_take.
  - intros t Ht. apply in_map_iff in Ht as (c & <- & Hc).
    apply list_elem_of_In, elem_of_take in Hc as (i & Hc & _).
    apply list_elem_of_lookup_2, list_elem_of_In in Hc.
    apply (Permutation_in _ (arraySort_perm E _ _)) in Hc.
    apply (in_map cand_name) in Hc. rewrite Hnames in Hc.
    apply (Permutation_in _ Hperm). apply list_elem_of_In.
    eapply elem_of_sublist; [|exact Hsub]. by apply list_elem_of_In.
Qed.

Lemma detection_returns_rule_names_witness :
  (length ["C#/.NET"; "C/C++"] <= 3)%nat
  /\ NoDup ["C#/.NET"; "C/C++"]
  /\ forall t, In t ["C#/.NET"; "C/C++"] ->
               In t (List.map rule_name PROJECT_DETECTION_RULES).
Proof.
  apply (detection_returns_rule_names stableEngine PROJECT_DETECTION_RULES
           makefileAndObjects "/p").
  - apply (bool_decide_unpack _). vm_compute. exact I.
  - reflexivity.
Defined.

End DetectionResults.

(** ** Scores *)

Section Scores.
Import Js ProjectDetection Fixtures.

(** A character that stands for itself, or is a dot, in a regular
    expression *)
Definition plainChar (c : ascii) : bool :=
  let n := nat_of_ascii c in
  ((48 <=? n) && (n <=? 57) || (65 <=? n) && (n <=? 90) || (97 <=? n) && (n <=? 122))%nat
  || inList (String c "") ["_"; "-"; "/"; "."].

(** A pattern from which the pattern loop can build its regular
    expression: it has no star, or one star among plain characters.  Every
    pattern of the table is of this kind; on another one [new RegExp] may
    throw, which ends the loop. *)
Definition buildsRegExp (pattern : string) : bool :=
  negb (includes pattern "*")
  || (let i := Z.to_nat (indexOf pattern "*") in
      allChars plainChar (takeChars i pattern)
      && allChars plainChar (dropChars (S i) pattern)).

(** One check of a declared file or folder: counted, and either missed or
    matched with a weight between 2 and 5. *)
Definition declaredCheck (s s' : Score) : Prop :=
  s' = checked s \/ exists weight, 2 <= weight <= 5 /\ s' = matched weight (checked s).

Definition accounted (s : Score) : Prop :=
  0 <= matchCount s <= totalChecks s
  /\ 2 * matchCount s <= confidence s <= 5 * matchCount s.

Lemma declaredCheck_accounted (s s' : Score) :
  accounted s -> declaredCheck s s' ->
  accounted s' /\ totalChecks s' = totalChecks s + 1.
Proof.
  unfold accounted. intros Hs [-> | (weight & Hw & ->)]; simpl; lia.
Qed.

Lemma checkFile_declaredCheck (fs : FileSystem) (dirPath : string)
    (r : ProjectDetectionRule) (s s' : Score) (f : string) :
  checkFile fs dirPath r s f = Some s' -> declaredCheck s s'.
Proof.
  unfold checkFile, declaredCheck.
  assert (Hm : forall weight, 2 <= weight <= 5 ->
                 exists w', 2 <= w' <= 5 /\ matched weight (checked s) = matched w' (checked s))
    by (intros weight ?; by exists weight).
  destruct (includes f "*").
  { destruct (readDir fs dirPath); [destruct (existsb _ _)|]; intros [= <-];
      auto; right; apply Hm; lia. }
  destruct (exists_ fs _) as [[|]|]; simpl; [| intros [= <-]; auto | done].
  destruct (_ && _).
  { destruct (declaresReact fs _) as [[|]|]; intros [= <-]; auto; right; apply Hm; lia. }
  destruct (_ && _).
  { destruct (readDir fs dirPath); [destruct (existsb _ _)|]; intros [= <-];
      auto; right; apply Hm; lia. }
  intros [= <-]. right. apply Hm. lia.
Qed.

Lemma checkFolder_declaredCheck (fs : FileSystem) (dirPath : string) (s s' : Score)
    (d : string) :
  checkFolder fs dirPath s d = Some s' -> declaredCheck s s'.
Proof.
  unfold checkFolder, declaredCheck.
  destruct (exists_ fs _) as [[|]|]; simpl; [| |done]; intros [= <-]; auto.
  right. exists 2. split; [lia|done].
Qed.

Lemma foldOpt_declaredCheck {A} (f : Score -> A -> option Score) (l : list A)
    (s s' : Score) :
  (forall s0 s1 x, f s0 x = Some s1 -> declaredCheck s0 s1) ->
  accounted s -> foldOpt f l s = Some s' ->
  accounted s' /\ totalChecks s' = totalChecks s + Z.of_nat (length l).
Proof.
  intros Hf. revert s. induction l as [|x l IH]; intros s Hs; cbn [foldOpt].
  - intros [= <-]. split; [done|]. simpl. lia.
  - destruct (f s x) as [s1|] eqn:E; simpl; [|done]. intros H.
    destruct (declaredCheck_accounted _ _ Hs (Hf _ _ _ E)) as [Hs1 Ht1].
    destruct (IH _ Hs1 H) as [? ?]. split; [done|]. simpl length. lia.
Qed.

(** The pattern loop counts every pattern and adds one to the weight and
    to the matches for each pattern that matches. *)
Lemma fold_left_checkPattern (allFiles allDirs l : list string) (s : Score) :
  exists fromPatterns,
    0 <= fromPatterns <= Z.of_nat (length l)
    /\ fold_left (checkPattern allFiles allDirs) l s
       = {| confidence := confidence s + fromPatterns;
            matchCount := matchCount s + fromPatterns;
            totalChecks := totalChecks s + Z.of_nat (length l) |}.
Proof.
  revert s. induction l as [|p l IH]; intros s; cbn [fold_left].
  - exists 0. split; [simpl; lia|]. destruct s. simpl. f_equal; lia.
  - destruct (IH (checkPattern allFiles allDirs s p)) as (k & Hk & ->).
    unfold checkPattern. destruct (if includes p "*" then _ else _).
    + exists (k + 1). split; [simpl length; lia|]. simpl. f_equal; lia.
    + exists k. split; [simpl length; lia|]. simpl. f_equal; lia.
Qed.

(** X9: the score of a rule whose patterns build their regular expressions,
    as those of the table do.  The checks are the declared files and
    folders, plus all the patterns exactly when the tree could be listed.
    A match of a pattern weighs 1; the other matches, at most one for each
    declared file and folder, weigh between 2 and 5.  So there are no more
    matches than checks, the number of checks is never below the number of
    declared files and folders, and the confidence is the weight divided by
    the checks. *)
Theorem score_accounting (fs : FileSystem) (dirPath : string) (r : ProjectDetectionRule)
    (s : Score) :
  forallb buildsRegExp (rule_patterns r) = true ->
  scoreRule fs dirPath r = Some s ->
  let declared := Z.of_nat (length (rule_files r) + length (rule_folders r)) in
  let listed := match collectFiles fs 3 dirPath ([], []) with
                | Some _ => Z.of_nat (length (rule_patterns r))
                | None => 0
                end in
  totalChecks s = declared + listed
  /\ (exists fromPatterns,
        0 <= fromPatterns <= listed
        /\ 0 <= matchCount s - fromPatterns <= declared
        /\ 2 * (matchCount s - fromPatterns) <= confidence s - fromPatterns
           <= 5 * (matchCount s - fromPatterns))
  /\ 0 <= matchCount s <= totalChecks s
  /\ matchCount s <= confidence s <= 5 * matchCount s
  /\ Z.max (totalChecks s) declared = totalChecks s
  /\ (0 < totalChecks s ->
      normalizedConfidence r s = confidence s # Z.to_pos (totalChecks s)).
Proof.
  intros _ H declared listed. unfold scoreRule in H.
  destruct (foldOpt (checkFile _ _ _) _ _) as [s1|] eqn:E1; simpl in H; [|done].
  destruct (foldOpt (checkFolder _ _) _ _) as [s2|] eqn:E2; simpl in H; [|done].
  injection H as <-.
  assert (H0 : accounted zeroScore) by (unfold accounted; simpl; lia).
  destruct (foldOpt_declaredCheck _ _ _ _ (checkFile_declaredCheck fs dirPath r) H0 E1)
    as [A1 T1].
  destruct (foldOpt_declaredCheck _ _ _ _ (checkFolder_declaredCheck fs dirPath) A1 E2)
    as [[Hm2 Hc2] T2].
  simpl in T1.
  assert (Hd : totalChecks s2 = declared) by (unfold declared; lia).
  assert (Hs : exists fromPatterns,
             0 <= fromPatterns <= listed
             /\ checkPatterns fs dirPath r s2
                = {| confidence := confidence s2 + fromPatterns;
                     matchCount := matchCount s2 + fromPatterns;
                     totalChecks := totalChecks s2 + listed |}).
  { unfold checkPatterns, listed.
    destruct (rule_patterns r) as [|p ps] eqn:Ep.
    { exists 0. destruct (collectFiles _ _ _ _); (split; [simpl; lia|]);
        destruct s2; simpl; f_equal; lia. }
    destruct (collectFiles fs 3 dirPath ([], [])) as [[allFiles allDirs]|].
    - apply fold_left_checkPattern.
    - exists 0. split; [lia|]. destruct s2. simpl. f_equal; lia. }
  destruct Hs as (k & Hk & ->). cbn [confidence matchCount totalChecks].
  assert (Hlisted : 0 <= listed) by (unfold listed; destruct (collectFiles _ _ _ _); lia).
  assert (Hmax : Z.max (totalChecks s2 + listed) declared = totalChecks s2 + listed) by lia.
  split; [lia|]. split; [exists k; lia|]. split; [lia|]. split; [lia|]. split; [done|].
  intros Hpos. unfold normalizedConfidence. cbn [confidence matchCount totalChecks].
  apply Z.ltb_lt in Hpos. rewrite Hpos. fold declared. by rewrite Hmax.
Qed.

Lemma score_accounting_witness :
  let s := {| confidence := 2; matchCount := 1; totalChecks := 11 |} in
  totalChecks s = 5 + 6
  /\ (exists fromPatterns,
        0 <= fromPatterns <= 6
        /\ 0 <= matchCount s - fromPatterns <= 5
        /\ 2 * (matchCount s - fromPatterns) <= confidence s - fromPatterns
           <= 5 * (matchCount s - fromPatterns))
  /\ 0 <= matchCount s <= totalChecks s
  /\ matchCount s <= confidence s <= 5 * matchCount s
  /\ Z.max (totalChecks s) 5 = totalChecks s
  /\ (0 < totalChecks s -> normalizedConfidence cppRule s = 2 # 11).
Proof.
  apply (score_accounting makefileAndObjects "/p" cppRule); reflexivity.
Defined.

(** X10: in a directory with no entries, or one that cannot be listed, where
    none of the declared files and folders exists, no type is detected,
    whatever the table. *)
Theorem nothing_detected_in_empty_directory (E : Engine)
    (table : list ProjectDetectionRule) (fs : FileSystem) (dirPath : string) :
  (forall p, exists_ fs p = Some false) ->
  readDir fs dirPath = Some [] \/ readDir fs dirPath = None ->
  snd (detectProjectType E table fs dirPath) = Returned [].
Proof.
  intros Hex Hdir.
  assert (Hfile : forall r s f, exists s', checkFile fs dirPath r s f = Some s'
                                           /\ confidence s' = confidence s).
  { intros r s f. unfold checkFile. destruct (includes f "*").
    - destruct Hdir as [-> | ->]; by eexists.
    - rewrite Hex. by eexists. }
  assert (Hfolder : forall s d, exists s', checkFolder fs dirPath s d = Some s'
                                           /\ confidence s' = confidence s).
  { intros s d. unfold checkFolder. rewrite Hex. by eexists. }
  assert (Hfold : forall {A} (f : Score -> A -> option Score) l s,
             (forall s x, exists s', f s x = Some s' /\ confidence s' = confidence s) ->
             exists s', foldOpt f l s = Some s' /\ confidence s' = confidence s).
  { intros A f l. induction l as [|x l IH]; intros s Hf; cbn [foldOpt]; [by eexists|].
    destruct (Hf s x) as (s1 & -> & H1). simpl.
    destruct (IH s1 Hf) as (s2 & -> & H2). exists s2. split; [done|congruence]. }
  assert (Hpat : forall r s, confidence (checkPatterns fs dirPath r s) = confidence s).
  { intros r s. unfold checkPatterns. destruct (rule_patterns r) as [|p ps]; [done|].
    destruct Hdir as [Hd | Hd]; cbn [collectFiles]; rewrite Hd; [|done].
    cbn [mbind option_bind foldOpt].
    generalize (p :: ps). intros l. revert s.
    induction l as [|q l IH]; intros s; cbn [fold_left]; [done|].
    rewrite IH. unfold checkPattern.
    by destruct (includes q "*"), (endsWith q "/"). }
  assert (Hscore : forall r, exists s, scoreRule fs dirPath r = Some s /\ confidence s = 0).
  { intros r. unfold scoreRule.
    destruct (Hfold _ (checkFile fs dirPath r) (rule_files r) zeroScore) as (s1 & -> & H1);
      [by auto|].
    cbn [mbind option_bind].
    destruct (Hfold _ (checkFolder fs dirPath) (rule_folders r) s1) as (s2 & -> & H2);
      [by auto|].
    cbn [mbind option_bind]. eexists. split; [done|]. rewrite Hpat. simpl in H1. lia. }
  unfold detectProjectType. cbn [snd].
  assert (foldOpt (scanRule fs dirPath) (stableSort compareRules table) [] = Some []) as ->.
  { assert (Hscan : forall r, scanRule fs dirPath [] r = Some []).
    { intros r. unfold scanRule. destruct (Hscore r) as (s & -> & Hs).
      cbn [mbind option_bind]. unfold considered. rewrite Hs. by rewrite andb_false_r. }
    generalize (stableSort compareRules table). intros rules.
    induction rules as [|r rules IH]; [done|]. cbn [foldOpt]. by rewrite Hscan. }
  by rewrite (Permutation_nil (Permutation_sym (arraySort_perm E compareCandidates []))).
Qed.

Definition emptyDir : FileSystem :=
  {| exists_ := fun _ => Some false; readDir := fun _ => Some [];
     declaresReact := fun _ => None |}.

Lemma nothing_detected_in_empty_directory_witness :
  snd (detectProjectType stableEngine PROJECT_DETECTION_RULES emptyDir "/p") = Returned [].
Proof.
  apply (nothing_detected_in_empty_directory stableEngine PROJECT_DETECTION_RULES emptyDir).
  - reflexivity.
  - left. reflexivity.
Defined.

End Scores.

(** ** When detection raises, and the order of the table *)

Section DetectionFailureAndOrder.
Import Js ProjectDetection Fixtures.

(** An existence check of the rule that fails: of a declared file that is
    no glob, or of a declared folder *)
Definition failingCheck (fs : FileSystem) (dirPath : string) (r : ProjectDetectionRule)
    : Prop :=
  Exists (fun f => includes f "*" = false /\ exists_ fs (Path.join2 dirPath f) = None)
         (rule_files r)
  \/ Exists (fun d => exists_ fs (Path.join2 dirPath d) = None) (rule_folders r).

Lemma Exists_perm {A} (P : A -> Prop) (l1 l2 : list A) :
  Permutation l1 l2 -> Exists P l1 <-> Exists P l2.
Proof.
  intros H. rewrite !List.Exists_exists.
  split; intros (x & Hx & HP); exists x; split; try done.
  - by apply (Permutation_in _ H).
  - by apply (Permutation_in _ (Permutation_sym H)).
Qed.

Lemma Forall_perm {A} (P : A -> Prop) (l1 l2 : list A) :
  Permutation l1 l2 -> Forall P l1 <-> Forall P l2.
Proof.
  intros H. rewrite !List.Forall_forall.
  split; intros HP x Hx; apply HP.
  - by apply (Permutation_in _ (Permutation_sym H)).
  - by apply (Permutation_in _ H).
Qed.

Lemma foldOpt_None {A B} (f : B -> A -> option B) (P : A -> Prop) (l : list A) (b : B) :
  (forall b x, f b x = None <-> P x) ->
  foldOpt f l b = None <-> Exists P l.
Proof.
  intros Hf. revert b. induction l as [|x l IH]; intros b; cbn [foldOpt].
  - split; [done|]. by intros H%Exists_nil.
  - rewrite Exists_cons. destruct (f b x) as [b'|] eqn:E; simpl.
    + rewrite IH. split; [by right|]. intros [H|H]; [|done].
      apply Hf with (b := b) in H. congruence.
    + split; [|done]. intros _. left. by apply (Hf b).
Qed.

Lemma checkFile_None (fs : FileSystem) (dirPath : string) (r : ProjectDetectionRule)
    (s : Score) (f : string) :
  checkFile fs dirPath r s f = None
  <-> includes f "*" = false /\ exists_ fs (Path.join2 dirPath f) = None.
Proof.
  unfold checkFile. destruct (includes f "*").
  { destruct (readDir fs dirPath); split; [done|by intros [? _]|done|by intros [? _]]. }
  destruct (exists_ fs _) as [[|]|]; simpl; [| |done].
  - destruct (_ && _); [destruct (declaresReact fs _)|]; [| |destruct (_ && _)];
      [| | destruct (readDir fs dirPath) |]; split; try done; by intros [_ ?].
  - split; [done|by intros [_ ?]].
Qed.

Lemma checkFolder_None (fs : FileSystem) (dirPath : string) (s : Score) (d : string) :
  checkFolder fs dirPath s d = None <-> exists_ fs (Path.join2 dirPath d) = None.
Proof. unfold checkFolder. by destruct (exists_ fs _). Qed.

Lemma scoreRule_None (fs : FileSystem) (dirPath : string) (r : ProjectDetectionRule) :
  scoreRule fs dirPath r = None <-> failingCheck fs dirPath r.
Proof.
  unfold scoreRule, failingCheck.
  rewrite <- (foldOpt_None (checkFile fs dirPath r) _ (rule_files r) zeroScore
                (fun b x => checkFile_None fs dirPath r b x)).
  destruct (foldOpt (checkFile _ _ _) _ _) as [s1|]; simpl; [|by split; auto].
  rewrite <- (foldOpt_None (checkFolder fs dirPath) _ (rule_folders r) s1
                (fun b x => checkFolder_None fs dirPath b x)).
  destruct (foldOpt (checkFolder _ _) _ _); simpl.
  - split; [done|]. by intros [?|?].
  - split; auto.
Qed.

(** X11: detection raises exactly when, for some rule of the table, an
    existence check of a declared file that is no glob, or of a declared
    folder, fails; failing listings and manifests never make it raise. *)
Theorem detection_raises_iff_existence_check_fails (E : Engine)
    (table : list ProjectDetectionRule) (fs : FileSystem) (dirPath : string) :
  snd (detectProjectType E table fs dirPath) = Raised
  <-> Exists (failingCheck fs dirPath) table.
Proof.
  unfold detectProjectType. cbn [snd].
  rewrite <- (Exists_perm _ _ _ (stableSortBy_perm _ table
                                   : Permutation (stableSort compareRules table) table)).
  rewrite <- (foldOpt_None (scanRule fs dirPath) _ _ []).
  - by destruct (foldOpt _ _ []).
  - intros b r. rewrite <- scoreRule_None. unfold scanRule.
    by destruct (scoreRule fs dirPath r).
Qed.

Definition priorityOrder (a b : ProjectDetectionRule) : Prop :=
  rule_priority b <= rule_priority a.

Lemma insertBy_sorted (x : ProjectDetectionRule) (l : list ProjectDetectionRule) :
  StronglySorted priorityOrder l ->
  StronglySorted priorityOrder (insertBy (fun a b => 0 <? compareRules a b) x l).
Proof.
  induction 1 as [|y l Hs IH Hy]; cbn [insertBy]; [by repeat constructor|].
  unfold compareRules at 1. destruct (0 <? _) eqn:E.
  - constructor; [done|].
    rewrite (Forall_perm _ _ _ (insertBy_perm _ x l)).
    constructor; [|done]. unfold priorityOrder. lia.
  - apply Z.ltb_ge in E. constructor; [by constructor|].
    constructor; [unfold priorityOrder; lia|].
    eapply Forall_impl; [exact Hy|]. unfold priorityOrder. intros; lia.
Qed.

Lemma stableSort_sorted (l : list ProjectDetectionRule) :
  StronglySorted priorityOrder (stableSort compareRules l).
Proof.
  induction l as [|x l IH]; [constructor|].
  unfold stableSort, stableSortBy in *. cbn [foldr]. by apply insertBy_sorted.
Qed.

Lemma stableSort_fixed (l : list ProjectDetectionRule) :
  StronglySorted priorityOrder l -> stableSort compareRules l = l.
Proof.
  induction 1 as [|x l Hs IH Hx]; [done|].
  unfold stableSort, stableSortBy in *. cbn [foldr]. rewrite IH.
  destruct Hx as [|y l Hy _]; [done|]. cbn [insertBy]. unfold compareRules.
  unfold priorityOrder in Hy. by replace (0 <? _) with false by (symmetry; apply Z.ltb_ge; lia).
Qed.

(** X12: whatever table a call finds, it leaves the same rules in it, ordered
    by priority from the highest down; and a table so ordered is left as
    it is by every later call. *)
Theorem detection_sorts_table_once (E E' : Engine) (table : list ProjectDetectionRule)
    (fs fs' : FileSystem) (dirPath dirPath' : string) :
  let table' := fst (detectProjectType E table fs dirPath) in
  Permutation table' table
  /\ StronglySorted priorityOrder table'
  /\ fst (detectProjectType E' table' fs' dirPath') = table'.
Proof.
  cbn zeta. unfold detectProjectType. cbn [fst].
  split; [apply stableSortBy_perm|]. split; [apply stableSort_sorted|].
  apply stableSort_fixed, stableSort_sorted.
Qed.

End DetectionFailureAndOrder.

(** ** What the ignore lists hold *)

Section IgnoreLists.
Import Js ProjectDetection.

(** [x] is among the common patterns or among those of a listed type that
    has an entry in the table. *)
Definition inUnion (field : DefaultIgnorePattern -> list string) (l : list string)
    (x : string) : Prop :=
  In x (field COMMON_IGNORE_PATTERNS)
  \/ exists t p, In t l /\ DEFAULT_IGNORE_PATTERNS !! t = Some p /\ In x (field p).

Lemma own_In (field : DefaultIgnorePattern -> list string) (l : list string) (x : string) :
  In x (flat_map (own field) l)
  <-> exists t p, In t l /\ DEFAULT_IGNORE_PATTERNS !! t = Some p /\ In x (field p).
Proof.
  rewrite in_flat_map. unfold own, getProperty. split.
  - intros (t & Ht & Hx). destruct (DEFAULT_IGNORE_PATTERNS !! t) as [p|] eqn:E.
    + by exists t, p.
    + by destruct (inList t objectPrototypeKeys).
  - intros (t & p & Ht & E & Hx). exists t. by rewrite E.
Qed.

(** X13: when the merge returns, each of its three lists holds exactly the
    common patterns and the patterns of the listed types that have an
    entry, and holds none of them twice. *)
Theorem default_patterns_are_the_union (l : list string) (r : DefaultIgnorePattern) :
  getDefaultIgnorePatterns l = Some r ->
  (forall x, In x (ign_files r) <-> inUnion ign_files l x)
  /\ (forall x, In x (ign_folders r) <-> inUnion ign_folders l x)
  /\ (forall x, In x (ign_extensions r) <-> inUnion ign_extensions l x)
  /\ NoDup (ign_files r) /\ NoDup (ign_folders r) /\ NoDup (ign_extensions r).
Proof.
  unfold getDefaultIgnorePatterns. rewrite foldOpt_mergeType.
  destruct (existsb inherited l); [done|]. cbn [mbind option_bind].
  intros [= <-]. cbn [ign_files ign_folders ign_extensions ignore].
  assert (Hu : forall field x,
             In x (dedupe (field COMMON_IGNORE_PATTERNS ++ flat_map (own field) l))
             <-> inUnion field l x).
  { intros field x. unfold inUnion. by rewrite dedupe_In, in_app_iff, own_In. }
  split; [exact (Hu ign_files)|]. split; [exact (Hu ign_folders)|].
  split; [exact (Hu ign_extensions)|].
  auto using dedupe_NoDup.
Qed.

Lemma default_patterns_are_the_union_witness :
  exists r, getDefaultIgnorePatterns ["Rust"; "Gopher"] = Some r
            /\ (In "target" (ign_folders r) <-> inUnion ign_folders ["Rust"; "Gopher"] "target")
            /\ NoDup (ign_folders r).
Proof.
  eexists. split; [reflexivity|].
  pose proof (default_patterns_are_the_union ["Rust"; "Gopher"] _ eq_refl)
    as (_ & Hf & _ & _ & Hn & _).
  split; [apply Hf|exact Hn].
Defined.

Lemma setFrom_app (a b set : list string) :
  setFrom (a ++ b) set = setFrom b (setFrom a set).
Proof. revert set. induction a as [|x a IH]; intros set; cbn [app setFrom]; [done|apply IH]. Qed.


Lemma setFrom_extends (l set : list string) :
  exists rest, setFrom l set = (set ++ rest)%list
               /\ forall x, In x rest -> In x l /\ ~ In x set.
Proof.
  revert set. induction l as [|x l IH]; intros set; cbn [setFrom].
  - exists []. split; [by rewrite app_nil_r|by intros ? []].
  - destruct (inList x set) eqn:E.
    + destruct (IH set) as (rest & -> & Hrest). exists rest. split; [done|].
      intros y Hy. destruct (Hrest y Hy). split; [by right|done].
    + destruct (IH (set ++ [x])%list) as (rest & -> & Hrest). exists (x :: rest).
      split; [by rewrite <- app_assoc|].
      intros y [<- | Hy].
      * split; [by left|]. intros Hin%inList_In. congruence.
      * destruct (Hrest y Hy) as [? Hn]. split; [by right|].
        intros Hin. apply Hn, in_app_iff. by left.
Qed.

Lemma setFrom_fresh (a set : list string) :
  NoDup (set ++ a) -> setFrom a set = (set ++ a)%list.
Proof.
  revert set. induction a as [|x a IH]; intros set H; cbn [setFrom];
    [by rewrite app_nil_r|].
  assert (inList x set = false) as ->.
  { destruct (inList x set) eqn:E; [|done]. apply inList_In in E.
    apply NoDup_ListNoDup, NoDup_remove_2 in H. destruct H. apply in_app_iff. by left. }
  rewrite IH; rewrite <- app_assoc; done.
Qed.

(** X14: the user's entries take precedence: a non-empty list of the user
    without repetitions comes first and unchanged, followed by the
    defaults it does not already hold. *)
Theorem user_entries_come_first (existing defaults : list string) :
  existing <> [] ->
  NoDup existing ->
  exists rest,
    mergeArrays (Some existing) defaults = (existing ++ rest)%list
    /\ forall x, In x rest -> In x defaults /\ ~ In x existing.
Proof.
  intros Hne Hnd. destruct existing as [|e existing]; [done|].
  cbn [mergeArrays]. unfold dedupe. rewrite setFrom_app.
  rewrite (setFrom_fresh (e :: existing) []) by done. cbn [app].
  apply setFrom_extends.
Qed.

Lemma user_entries_come_first_witness :
  exists rest,
    mergeArrays (Some ["notes.txt"; ".git"]) [".git"; "tmp"] = (["notes.txt"; ".git"] ++ rest)%list
    /\ forall x, In x rest -> In x [".git"; "tmp"] /\ ~ In x ["notes.txt"; ".git"].
Proof.
  apply (user_entries_come_first ["notes.txt"; ".git"] [".git"; "tmp"]); [done|].
  apply (bool_decide_unpack _). vm_compute. exact I.
Defined.



End IgnoreLists.

(** ** The configuration file *)

Module Config.
Import Js.

(** An object with string values, by its own properties in the order the
    engine enumerates them: array indices first, ascending, then the other
    keys in the order they were created. *)
Definition JsObject := list (string * option string).

Record Config := {
  useGitignore : option bool;
  ignoreFiles : option (list string);
  ignoreFolders : option (list string);
  ignoreExtensions : option (list string);
  visual : option JsObject;
  output_encoding : option string;
  read_large_files : option bool;
  max_large_files : option string;
  auto_detect_project : option bool;
  project_type : option string
}.

Definition emptyConfig : Config :=
  {| useGitignore := None; ignoreFiles := None; ignoreFolders := None; ignoreExtensions := None; visual := None;
     output_encoding := None; read_large_files := None; max_large_files := None; auto_detect_project := None; project_type := None |}.

Definition set_useGitignore (v : option bool) (c : Config) : Config :=
  {| useGitignore := v;
     ignoreFiles := ignoreFiles c;
     ignoreFolders := ignoreFolders c;
     ignoreExtensions := ignoreExtensions c;
     visual := visual c;
     output_encoding := output_encoding c;
     read_large_files := read_large_files c;
     max_large_files := max_large_files c;
     auto_detect_project := auto_detect_project c;
     project_type := project_type c |}.

Definition set_ignoreFiles (v : option (list string)) (c : Config) : Config :=
  {| useGitignore := useGitignore c;
     ignoreFiles := v;
     ignoreFolders := ignoreFolders c;
     ignoreExtensions := ignoreExtensions c;
     visual := visual c;
     output_encoding := output_encoding c;
     read_large_files := read_large_files c;
     max_large_files := max_large_files c;
     auto_detect_project := auto_detect_project c;
     project_type := project_type c |}.

Definition set_ignoreFolders (v : option (list string)) (c : Config) : Config :=
  {| useGitignore := useGitignore c;
     ignoreFiles := ignoreFiles c;
     ignoreFolders := v;
     ignoreExtensions := ignoreExtensions c;
     visual := visual c;
     output_encoding := output_encoding c;
     read_large_files := read_large_files c;
     max_large_files := max_large_files c;
     auto_detect_project := auto_detect_project c;
     project_type := project_type c |}.

Definition set_ignoreExtensions (v : option (list string)) (c : Config) : Config :=
  {| useGitignore := useGitignore c;
     ignoreFiles := ignoreFiles c;
     ignoreFolders := ignoreFolders c;
     ignoreExtensions := v;
     visual := visual c;
     output_encoding := output_encoding c;
     read_large_files := read_large_files c;
     max_large_files := max_large_files c;
     auto_detect_project := auto_detect_project c;
     project_type := project_type c |}.

Definition set_visual (v : option JsObject) (c : Config) : Config :=
  {| useGitignore := useGitignore c;
     ignoreFiles := ignoreFiles c;
     ignoreFolders := ignoreFolders c;
     ignoreExtensions := ignoreExtensions c;
     visual := v;
     output_encoding := output_encoding c;
     read_large_files := read_large_files c;
     max_large_files := max_large_files c;
     auto_detect_project := auto_detect_project c;
     project_type := project_type c |}.

Definition set_output_encoding (v : option string) (c : Config) : Config :=
  {| useGitignore := useGitignore c;
     ignoreFiles := ignoreFiles c;
     ignoreFolders := ignoreFolders c;
     ignoreExtensions := ignoreExtensions c;
     visual := visual c;
     output_encoding := v;
     read_large_files := read_large_files c;
     max_large_files := max_large_files c;
     auto_detect_project := auto_detect_project c;
     project_type := project_type c |}.

Definition set_read_large_files (v : option bool) (c : Config) : Config :=
  {| useGitignore := useGitignore c;
     ignoreFiles := ignoreFiles c;
     ignoreFolders := ignoreFolders c;
     ignoreExtensions := ignoreExtensions c;
     visual := visual c;
     output_encoding := output_encoding c;
     read_large_files := v;
     max_large_files := max_large_files c;
     auto_detect_project := auto_detect_project c;
     project_type := project_type c |}.

Definition set_max_large_files (v : option string) (c : Config) : Config :=
  {| useGitignore := useGitignore c;
     ignoreFiles := ignoreFiles c;
     ignoreFolders := ignoreFolders c;
     ignoreExtensions := ignoreExtensions c;
     visual := visual c;
     output_encoding := output_encoding c;
     read_large_files := read_large_files c;
     max_large_files := v;
     auto_detect_project := auto_detect_project c;
     project_type := project_type c |}.

Definition set_auto_detect_project (v : option bool) (c : Config) : Config :=
  {| useGitignore := useGitignore c;
     ignoreFiles := ignoreFiles c;
     ignoreFolders := ignoreFolders c;
     ignoreExtensions := ignoreExtensions c;
     visual := visual c;
     output_encoding := output_encoding c;
     read_large_files := read_large_files c;
     max_large_files := max_large_files c;
     auto_detect_project := v;
     project_type := project_type c |}.

Definition set_project_type (v : option string) (c : Config) : Config :=
  {| useGitignore := useGitignore c;
     ignoreFiles := ignoreFiles c;
     ignoreFolders := ignoreFolders c;
     ignoreExtensions := ignoreExtensions c;
     visual := visual c;
     output_encoding := output_encoding c;
     read_large_files := read_large_files c;
     max_large_files := max_large_files c;
     auto_detect_project := auto_detect_project c;
     project_type := v |}.

Definition isDigit (c : ascii) : bool :=
  let n := nat_of_ascii c in (48 <=? n)%nat && (n <=? 57)%nat.

Fixpoint allDigits (s : string) : bool :=
  match s with
  | "" => true
  | String c r => isDigit c && allDigits r
  end.

Fixpoint decimalValue (s : string) (acc : N) : N :=
  match s with
  | "" => acc
  | String c r => decimalValue r (10 * acc + N.of_nat (nat_of_ascii c - 48))%N
  end.

(** The array index a key spells, if it spells one: decimal digits with
    no leading zero, below 2^32 - 1. *)
Definition arrayIndex (key : string) : option N :=
  match key with
  | "" => None
  | String c r =>
      if allDigits key && (String.eqb key "0" || negb (Ascii.eqb c "0"))
         && (String.length key <=? 10)%nat
         && (decimalValue key 0 <? 4294967295)%N
      then Some (decimalValue key 0) else None
  end.

Definition hasKey (o : JsObject) (key : string) : bool :=
  existsb (fun kv => String.eqb (fst kv) key) o.

Fixpoint updateProp (o : JsObject) (key value : string) : JsObject :=
  match o with
  | [] => []
  | (k, v) :: rest =>
      if String.eqb k key then (k, Some value) :: rest
      else (k, v) :: updateProp rest key value
  end.

Fixpoint insertIndex (o : JsObject) (n : N) (key value : string) : JsObject :=
  match o with
  | [] => [(key, Some value)]
  | (k, v) :: rest =>
      match arrayIndex k with
      | Some n' => if (n <? n')%N then (key, Some value) :: o
                   else (k, v) :: insertIndex rest n key value
      | None => (key, Some value) :: o
      end
  end.

(** [o[key] = value] on an object made by a literal.  Under Deno no
    object inherits a [__proto__] accessor, so every key names an own
    property. *)
Definition setProp (o : JsObject) (key value : string) : JsObject :=
  if hasKey o key then updateProp o key value
  else match arrayIndex key with
       | Some n => insertIndex o n key value
       | None => (o ++ [(key, Some value)])%list
       end.

(** [value.toLowerCase() === "true"]; among the code units carried only
    the letters A to Z change to a letter of [true]. *)
Definition isTrue (value : string) : bool := String.eqb (toLowerCase value) "true".

Definition parseListValue (value : string) : list string :=
  if String.eqb value "" || String.eqb (trim value) "" then []
  else List.filter (fun s => negb (String.eqb s "")) (List.map trim (split "," value)).

Definition formatListValue (items : option (list string)) : string :=
  match items with
  | None | Some [] => ""
  | Some items => join ", " items
  end.

Record ParseState := {
  config : Config;
  inVisualSection : bool;
  visualSoFar : JsObject
}.

(** The [switch] on the key *)
Definition assign (key value : string) (c : Config) : Config :=
  if String.eqb key "gitignore" then set_useGitignore (Some (isTrue value)) c
  else if String.eqb key "auto_detect_project" then set_auto_detect_project (Some (isTrue value)) c
  else if String.eqb key "project_type" then set_project_type (Some value) c
  else if String.eqb key "files" then set_ignoreFiles (Some (parseListValue value)) c
  else if String.eqb key "folders" then set_ignoreFolders (Some (parseListValue value)) c
  else if String.eqb key "ext" then set_ignoreExtensions (Some (parseListValue value)) c
  else if String.eqb key "output_encoding" then set_output_encoding (Some value) c
  else if String.eqb key "read_large_files" then set_read_large_files (Some (isTrue value)) c
  else if String.eqb key "max_large_files" then set_max_large_files (Some value) c
  else c.

(** The body of the loop over the lines *)
Definition parseLine (st : ParseState) (line : string) : ParseState :=
  let trimmedLine := trim line in
  if String.eqb trimmedLine "" || startsWith trimmedLine "#" then st
  else if String.eqb trimmedLine "visual:" then
    {| config := config st; inVisualSection := true; visualSoFar := visualSoFar st |}
  else
    let colonIndex := indexOf trimmedLine ":" in
    if colonIndex =? -1 then st
    else
      let key := trim (substring trimmedLine 0 colonIndex) in
      let value := trim (substring trimmedLine (colonIndex + 1) (len trimmedLine)) in
      if inVisualSection st then
        {| config := config st; inVisualSection := true;
           visualSoFar := setProp (visualSoFar st) key value |}
      else
        {| config := assign key value (config st); inVisualSection := false;
           visualSoFar := visualSoFar st |}.

Definition parseLines (lines : list string) : ParseState :=
  fold_left parseLine lines
    {| config := emptyConfig; inVisualSection := false; visualSoFar := [] |}.

Definition parseConfigFile (configContent : string) : Config :=
  let st := parseLines (split LF configContent) in
  match visualSoFar st with
  | [] => config st
  | visual => set_visual (Some visual) (config st)
  end.

Definition boolText (b : option bool) : string :=
  match b with Some true => "true" | _ => "false" end.

(** [v || fallback] on an optional string *)
Definition orElse (v : option string) (fallback : string) : string :=
  match v with
  | Some s => if String.eqb s "" then fallback else s
  | None => fallback
  end.

(** A line [key: value] *)
Definition setting (key value : string) : string := key ++ ": " ++ value.

Definition visualLine (kv : string * option string) : list string :=
  match snd kv with
  | Some value => ["   " ++ setting (fst kv) value]
  | None => []
  end.

Definition visualLines (c : Config) : list string :=
  match visual c with
  | None | Some [] => []
  | Some entries => "# Visual Settings" :: "visual:" :: flat_map visualLine entries
  end.

Definition projectTypeLine (c : Config) : list string :=
  match project_type c with
  | Some t => if String.eqb t "" then [] else [setting "project_type" t]
  | None => []
  end.

(** The lines [writeConfig] assembles *)
Definition configLines (c : Config) : list string :=
  (["# Clipo Configuration"; "# Auto-generated configuration file"; "";
    "# Core Settings";
    setting "gitignore" (boolText (useGitignore c));
    setting "auto_detect_project" (boolText (auto_detect_project c))]
   ++ projectTypeLine c
   ++ [setting "output_encoding" (orElse (output_encoding c) "utf-8");
       setting "read_large_files" (boolText (read_large_files c));
       setting "max_large_files" (orElse (max_large_files c) "10MB");
       "";
       "# Ignore Patterns";
       setting "files" (formatListValue (ignoreFiles c));
       setting "folders" (formatListValue (ignoreFolders c));
       setting "ext" (formatListValue (ignoreExtensions c));
       ""]
   ++ visualLines c)%list.

(** The text [writeConfig] writes to the configuration path *)
Definition writeConfig (c : Config) : string := join nl (configLines c).

(** [list = list || []; if (!list.includes(x)) list.push(x)], with whether
    it pushed *)
Definition addEntry (entries : option (list string)) (x : string) : list string * bool :=
  let l := default [] entries in
  if ProjectDetection.inList x l then (l, false) else ((l ++ [x])%list, true).

Record AddOptions := {
  addFile : string;
  addFolder : string;
  addExt : string
}.

(** One of the three steps of [updateConfigFromOptions], on the
    configuration and the flag [updated]: an empty option is no option. *)
Definition addOption (get : Config -> option (list string))
    (set : option (list string) -> Config -> Config) (x : string)
    (cu : Config * bool) : Config * bool :=
  if String.eqb x "" then cu
  else
    let added := addEntry (get (fst cu)) x in
    (set (Some (fst added)) (fst cu), snd cu || snd added).

Definition updateConfigFromOptions (c : Config) (o : AddOptions) : Config * bool :=
  addOption ignoreExtensions set_ignoreExtensions (addExt o)
    (addOption ignoreFolders set_ignoreFolders (addFolder o)
       (addOption ignoreFiles set_ignoreFiles (addFile o) (c, false))).

End Config.

(** ** Trimming and splitting *)

Section TrimFacts.
Import Js.

Lemma trimStart_length (s : string) : (String.length (trimStart s) <= String.length s)%nat.
Proof. induction s as [|c s IH]; simpl; [lia|]. destruct (isWhiteSpace c); simpl; lia. Qed.

Lemma trimEnd_length (s : string) : (String.length (trimEnd s) <= String.length s)%nat.
Proof.
  induction s as [|c s IH]; cbn [trimEnd]; [simpl; lia|].
  destruct (trimEnd s); [destruct (isWhiteSpace c)|]; simpl in *; lia.
Qed.

Lemma trimEnd_cons (c : ascii) (s : string) :
  trimEnd (String c s)
  = if String.eqb (trimEnd s) "" then (if isWhiteSpace c then "" else String c "")
    else String c (trimEnd s).
Proof. cbn [trimEnd]. by destruct (trimEnd s). Qed.

Lemma trimEnd_app (a b : string) :
  trimEnd (a ++ b) = if String.eqb (trimEnd b) "" then trimEnd a else a ++ trimEnd b.
Proof.
  induction a as [|c a IH].
  - change ("" ++ b) with b. by destruct (trimEnd b).
  - change (String c a ++ b) with (String c (a ++ b)). rewrite !trimEnd_cons, IH.
    destruct (String.eqb (trimEnd b) "") eqn:E; [done|].
    assert (String.eqb (a ++ trimEnd b) "" = false) as ->; [|done].
    destruct a; [done|reflexivity].
Qed.

(** A text that trimming leaves as it is *)
Definition trimmed (s : string) : Prop := trim s = s.

Lemma trimmed_inv (s : string) :
  trimmed s -> s <> "" ->
  trimStart s = s /\ trimEnd s = s
  /\ exists c r, s = String c r /\ isWhiteSpace c = false.
Proof.
  unfold trimmed, trim. intros Ht Hne. destruct s as [|c r]; [done|].
  destruct (isWhiteSpace c) eqn:E.
  - exfalso. cbn [trimStart] in Ht. rewrite E in Ht.
    pose proof (trimEnd_length (trimStart r)). pose proof (trimStart_length r).
    rewrite Ht in *. simpl in *. lia.
  - cbn [trimStart] in *. rewrite E in *. split; [done|]. split; [done|]. by exists c, r.
Qed.

Lemma trimmed_trimEnd_nonempty (s : string) :
  trimmed s -> s <> "" -> String.eqb (trimEnd s) "" = false.
Proof.
  intros Ht Hne. destruct (trimmed_inv s Ht Hne) as (_ & -> & _). by apply String.eqb_neq.
Qed.

(** A trimmed text stays trimmed when a trimmed, non-empty text follows
    it. *)
Lemma trimmed_app (a b m : string) :
  trimmed a -> a <> "" -> trimmed b -> b <> "" -> trimmed (a ++ m ++ b).
Proof.
  intros Ha Hane Hb Hbne. unfold trimmed, trim.
  destruct (trimmed_inv a Ha Hane) as (_ & _ & c & r & -> & Hc).
  change (String c r ++ m ++ b) with (String c (r ++ m ++ b)).
  cbn [trimStart]. rewrite Hc.
  change (String c (r ++ m ++ b)) with (String c r ++ m ++ b).
  rewrite <- app_assoc_s, trimEnd_app.
  rewrite (trimmed_trimEnd_nonempty b Hb Hbne).
  by destruct (trimmed_inv b Hb Hbne) as (_ & -> & _).
Qed.

End TrimFacts.

(** ** Lists in the configuration file *)

Section ConfigLists.
Import Js Config.

(** An entry of a list that survives writing and reading: trimmed, not
    empty, without a comma. *)
Definition listItem (x : string) : Prop :=
  trimmed x /\ x <> "" /\ includes x "," = false.

Lemma split_join_items (x : string) (items : list string) :
  Forall listItem (x :: items) ->
  split "," (join ", " (x :: items)) = x :: List.map (fun y => " " ++ y) items.
Proof.
  revert x. induction items as [|y items IH]; intros x H.
  - apply Forall_inv in H as (_ & _ & Hc). by apply split_one_field.
  - rewrite join_cons by done.
    pose proof (Forall_inv H) as (_ & _ & Hc). apply Forall_inv_tail in H.
    change (x ++ ", " ++ join ", " (y :: items))
      with (x ++ String "," (" " ++ join ", " (y :: items))).
    rewrite (split_first_field "," x _ Hc). f_equal.
    specialize (IH y H).
    destruct (split "," (join ", " (y :: items))) as [|h t] eqn:E; [done|].
    injection IH as -> ->.
    change (" " ++ join ", " (y :: items)) with (String " " (join ", " (y :: items))).
    cbn [split]. change (Ascii.eqb " " ",") with false. cbv iota. by rewrite E.
Qed.

Lemma join_items_trimmed (x : string) (items : list string) :
  Forall listItem (x :: items) ->
  trimmed (join ", " (x :: items)) /\ join ", " (x :: items) <> "".
Proof.
  revert x. induction items as [|y items IH]; intros x H.
  - by apply Forall_inv in H as (? & ? & _).
  - rewrite join_cons by done.
    pose proof (Forall_inv H) as (Hx & Hne & _). apply Forall_inv_tail in H.
    destruct (IH y H) as [Ht Hn]. split; [by apply trimmed_app|].
    destruct x; [done|discriminate].
Qed.

Lemma parse_format_items (items : list string) :
  Forall listItem items -> parseListValue (formatListValue (Some items)) = items.
Proof.
  intros H. destruct items as [|x items]; [done|].
  cbn [formatListValue]. unfold parseListValue.
  destruct (join_items_trimmed x items H) as [Ht Hn].
  rewrite Ht. apply String.eqb_neq in Hn. rewrite Hn. cbn [orb].
  rewrite (split_join_items x items H). cbn [List.map List.filter].
  pose proof (Forall_inv H) as (Hx & Hxne & _). rewrite Hx.
  apply String.eqb_neq in Hxne. rewrite Hxne. cbn [negb]. f_equal.
  apply Forall_inv_tail in H. clear -H.
  induction H as [|y items (Hy & Hyne & _) _ IH]; [done|].
  cbn [List.map List.filter].
  change (trim (" " ++ y)) with (trim y). rewrite Hy.
  apply String.eqb_neq in Hyne. rewrite Hyne. cbn [negb]. by rewrite IH.
Qed.

(** X16: reading back a written list gives the list, for entries that are
    trimmed, not empty and free of commas; no list and the empty list are
    both read back as the empty list. *)
Theorem list_value_round_trip (items : list string) :
  Forall listItem items ->
  parseListValue (formatListValue (Some items)) = items
  /\ parseListValue (formatListValue None) = [].
Proof. intros H. split; [by apply parse_format_items|done]. Qed.

Lemma list_value_round_trip_witness :
  parseListValue (formatListValue (Some ["node_modules"; "my notes.txt"; ".env"]))
  = ["node_modules"; "my notes.txt"; ".env"].
Proof.
  apply (list_value_round_trip ["node_modules"; "my notes.txt"; ".env"]).
  repeat constructor; done.
Defined.

Lemma addEntry_again (entries : option (list string)) (x : string) :
  addEntry (Some (fst (addEntry entries x))) x = (fst (addEntry entries x), false).
Proof.
  unfold addEntry. cbv zeta.
  destruct (ProjectDetection.inList x (default [] entries)) eqn:E;
    cbn [fst]; change (default [] (Some ?l)) with l.
  - by rewrite E.
  - assert (ProjectDetection.inList x (default [] entries ++ [x]) = true) as ->; [|done].
    apply inList_In, in_app_iff. right. by left.
Qed.

Lemma addEntry_spec (entries : option (list string)) (x : string) :
  In x (fst (addEntry entries x))
  /\ (NoDup (default [] entries) -> NoDup (fst (addEntry entries x)))
  /\ (forall y, In y (default [] entries) -> In y (fst (addEntry entries x))).
Proof.
  unfold addEntry.
  destruct (ProjectDetection.inList x (default [] entries)) eqn:E; cbn [fst].
  - apply inList_In in E. auto.
  - split; [apply in_app_iff; right; by left|]. split.
    + intros H. apply NoDup_app. split; [done|]. split; [|apply NoDup_singleton].
      intros y Hy%list_elem_of_In ->%list_elem_of_singleton.
      apply inList_In in Hy. congruence.
    + intros y Hy. apply in_app_iff. by left.
Qed.

(** X17: adding the entries of the command line a second time changes nothing
    and reports no update; after the first time each named entry is in its
    list; and each of the three lists that had no repetitions has none
    afterwards, whether or not an entry was named for it. *)
Theorem adding_entries_twice_adds_once (c : Config) (o : AddOptions) :
  let c1 := fst (updateConfigFromOptions c o) in
  updateConfigFromOptions c1 o = (c1, false)
  /\ (addFile o <> "" -> In (addFile o) (default [] (ignoreFiles c1)))
  /\ (addFolder o <> "" -> In (addFolder o) (default [] (ignoreFolders c1)))
  /\ (addExt o <> "" -> In (addExt o) (default [] (ignoreExtensions c1)))
  /\ (NoDup (default [] (ignoreFiles c)) -> NoDup (default [] (ignoreFiles c1)))
  /\ (NoDup (default [] (ignoreFolders c)) -> NoDup (default [] (ignoreFolders c1)))
  /\ (NoDup (default [] (ignoreExtensions c)) -> NoDup (default [] (ignoreExtensions c1))).
Proof.
  destruct c as [g files folders exts v oe r m a p].
  cbn zeta. unfold updateConfigFromOptions, addOption.
  pose proof (addEntry_again files (addFile o)) as A1.
  pose proof (addEntry_again folders (addFolder o)) as A2.
  pose proof (addEntry_again exts (addExt o)) as A3.
  pose proof (addEntry_spec files (addFile o)) as (S1 & N1 & _).
  pose proof (addEntry_spec folders (addFolder o)) as (S2 & N2 & _).
  pose proof (addEntry_spec exts (addExt o)) as (S3 & N3 & _).
  destruct (String.eqb (addFile o) "") eqn:E1,
           (String.eqb (addFolder o) "") eqn:E2,
           (String.eqb (addExt o) "") eqn:E3;
    repeat (progress (cbn [fst snd set_ignoreFiles set_ignoreFolders set_ignoreExtensions
                           ignoreFiles ignoreFolders ignoreExtensions default orb];
                      rewrite ?E1, ?E2, ?E3, ?A1, ?A2, ?A3));
    (apply String.eqb_neq in E1 || apply String.eqb_eq in E1);
    (apply String.eqb_neq in E2 || apply String.eqb_eq in E2);
    (apply String.eqb_neq in E3 || apply String.eqb_eq in E3);
    repeat split; intros; try done; auto.
Qed.

Lemma adding_entries_twice_adds_once_witness :
  let o := {| addFile := "secret.txt"; addFolder := "dist"; addExt := ".log" |} in
  let c := set_ignoreFolders (Some ["dist"; "tmp"]) emptyConfig in
  let c1 := fst (updateConfigFromOptions c o) in
  updateConfigFromOptions c1 o = (c1, false)
  /\ In "secret.txt" (default [] (ignoreFiles c1))
  /\ In "dist" (default [] (ignoreFolders c1))
  /\ In ".log" (default [] (ignoreExtensions c1))
  /\ NoDup (default [] (ignoreFiles c1))
  /\ NoDup (default [] (ignoreFolders c1))
  /\ NoDup (default [] (ignoreExtensions c1)).
Proof.
  cbv zeta.
  destruct (adding_entries_twice_adds_once
              (set_ignoreFolders (Some ["dist"; "tmp"]) emptyConfig)
              {| addFile := "secret.txt"; addFolder := "dist"; addExt := ".log" |})
    as (H0 & H1 & H2 & H3 & H4 & H5 & H6).
  split; [exact H0|].
  split; [by apply H1|]. split; [by apply H2|]. split; [by apply H3|].
  split; [apply H4; constructor|].
  split; [apply H5; apply (bool_decide_unpack _); vm_compute; exact I|].
  apply H6. constructor.
Defined.

End ConfigLists.

(** ** Writing the configuration and reading it back *)

Section ConfigRoundTrip.
Import Js Config.

Lemma includes_char_app (c : ascii) (a b : string) :
  includes (a ++ b) (String c "") = includes a (String c "") || includes b (String c "").
Proof.
  induction a as [|x a IH].
  - change ("" ++ b) with b. by destruct b.
  - change (String x a ++ b) with (String x (a ++ b)). cbn [includes startsWith].
    rewrite IH, !startsWith_empty. by destruct (Ascii.eqb c x).
Qed.

Lemma oneLine_app (a b : string) : oneLine a -> oneLine b -> oneLine (a ++ b).
Proof. unfold oneLine, nl. rewrite includes_char_app. by intros -> ->. Qed.

Lemma oneLine_setting (k v : string) : oneLine k -> oneLine v -> oneLine (setting k v).
Proof. intros Hk Hv. unfold setting. auto using oneLine_app. Qed.

Lemma oneLine_join (sep : string) (l : list string) :
  oneLine sep -> Forall oneLine l -> oneLine (join sep l).
Proof.
  intros Hsep H. induction H as [|x l Hx _ IH]; [done|].
  destruct l as [|y l]; [done|]. rewrite join_cons by done. auto using oneLine_app.
Qed.

Lemma split_join_lines (l : list string) :
  Forall oneLine l -> l <> [] -> split LF (join nl l) = l.
Proof.
  intros H Hne. induction H as [|x l Hx _ IH]; [done|].
  destruct l as [|y l]; [by apply split_oneLine|].
  rewrite join_cons by done. rewrite (split_first_line _ _ Hx). by rewrite IH.
Qed.

Lemma indexOfFrom_first_char (c : ascii) (k r : string) (i : Z) :
  includes k (String c "") = false ->
  indexOfFrom (k ++ String c r) (String c "") i = i + len k.
Proof.
  revert i. induction k as [|x k IH]; intros i H.
  - change ("" ++ String c r) with (String c r). cbn [indexOfFrom startsWith].
    rewrite Ascii.eqb_refl, startsWith_empty. unfold len. simpl. lia.
  - change (String x k ++ String c r) with (String x (k ++ String c r)).
    cbn [indexOfFrom startsWith]. pose proof (includes_cons_false _ _ _ H) as Hk.
    cbn [includes startsWith] in H. apply orb_false_iff in H as [H _].
    destruct (Ascii.eqb c x); [by rewrite startsWith_empty in H|].
    rewrite (IH _ Hk). unfold len. simpl String.length. lia.
Qed.

Lemma substring_prefix (k r : string) : substring (k ++ r) 0 (len k) = k.
Proof.
  pose proof (substring_middle "" k r) as H.
  change ("" ++ k ++ r) with (k ++ r) in H. by rewrite Z.add_0_l in H.
Qed.

Lemma substring_suffix (a b : string) : substring (a ++ b) (len a) (len (a ++ b)) = b.
Proof.
  pose proof (substring_middle a b "") as H. rewrite app_empty_r in H.
  replace (len (a ++ b)) with (len a + len b); [exact H|].
  unfold len. rewrite length_app_s. lia.
Qed.

Lemma colon_split_unique (k k' w w' : string) :
  includes k ":" = false -> includes k' ":" = false ->
  k ++ ":" ++ w = k' ++ ":" ++ w' -> k = k' /\ w = w'.
Proof.
  revert k'. induction k as [|x k IH]; intros [|x' k'] Hk Hk' E.
  - by injection E.
  - exfalso. injection E as <- _. cbn [includes startsWith] in Hk'.
    by rewrite startsWith_empty in Hk'.
  - exfalso. injection E as -> _. cbn [includes startsWith] in Hk.
    by rewrite startsWith_empty in Hk.
  - injection E as -> E.
    destruct (IH k' (includes_cons_false _ _ _ Hk) (includes_cons_false _ _ _ Hk') E)
      as [-> ->]. done.
Qed.

(** What is left of the value behind the colon after trimming the line *)
Definition afterColon (v : string) : string := if String.eqb v "" then "" else " " ++ v.

Lemma trim_afterColon (v : string) : trimmed v -> trim (afterColon v) = v.
Proof.
  unfold afterColon. destruct (String.eqb v "") eqn:E; [by apply String.eqb_eq in E as ->|].
  intros Hv. exact Hv.
Qed.

Lemma trim_setting (k v : string) :
  trimmed k -> trimmed v -> trim (setting k v) = k ++ ":" ++ afterColon v.
Proof.
  intros Hk Hv. unfold setting, trim.
  assert (Hstart : trimStart (k ++ ": " ++ v) = k ++ ": " ++ v).
  { destruct (String.eqb k "") eqn:E.
    - apply String.eqb_eq in E as ->. reflexivity.
    - apply String.eqb_neq in E.
      destruct (trimmed_inv k Hk E) as (_ & _ & c & r & -> & Hc).
      change (String c r ++ ": " ++ v) with (String c (r ++ ": " ++ v)).
      cbn [trimStart]. by rewrite Hc. }
  rewrite Hstart.
  change (k ++ ": " ++ v) with (k ++ ":" ++ " " ++ v).
  rewrite <- (app_assoc_s k ":"), trimEnd_app.
  assert (Hw : trimEnd (" " ++ v) = afterColon v).
  { rewrite trimEnd_app. unfold afterColon.
    destruct (String.eqb v "") eqn:E.
    - apply String.eqb_eq in E as ->. reflexivity.
    - apply String.eqb_neq in E.
      rewrite (trimmed_trimEnd_nonempty v Hv E).
      by destruct (trimmed_inv v Hv E) as (_ & -> & _). }
  rewrite Hw. unfold afterColon.
  destruct (String.eqb v "") eqn:E.
  - change (String.eqb "" "") with true. cbv iota.
    rewrite trimEnd_app. change (String.eqb (trimEnd ":") "") with false. cbv iota.
    reflexivity.
  - change (String.eqb (" " ++ v) "") with false. cbv iota. by rewrite app_assoc_s.
Qed.

(** A written setting is read as its key and its value. *)
Lemma parseLine_setting (st : ParseState) (pad k v : string) :
  pad = "" \/ pad = "   " ->
  trimmed k -> includes k ":" = false -> startsWith k "#" = false ->
  trimmed v -> ~ (k = "visual" /\ v = "") ->
  parseLine st (pad ++ setting k v)
  = if inVisualSection st
    then {| config := config st; inVisualSection := true;
            visualSoFar := setProp (visualSoFar st) k v |}
    else {| config := assign k v (config st); inVisualSection := false;
            visualSoFar := visualSoFar st |}.
Proof.
  intros Hpad Hk Hcolon Hhash Hv Hvis. unfold parseLine.
  assert (Htrim : trim (pad ++ setting k v) = k ++ ":" ++ afterColon v).
  { rewrite <- (trim_setting k v Hk Hv). by destruct Hpad as [-> | ->]. }
  rewrite Htrim.
  assert (String.eqb (k ++ ":" ++ afterColon v) "" = false) as -> by (by destruct k).
  assert (startsWith (k ++ ":" ++ afterColon v) "#" = false) as ->.
  { destruct k as [|c r]; [done|].
    change (String c r ++ ":" ++ afterColon v) with (String c (r ++ ":" ++ afterColon v)).
    cbn [startsWith] in *. destruct (Ascii.eqb "#" c); [|done].
    by rewrite startsWith_empty in Hhash. }
  assert (String.eqb (k ++ ":" ++ afterColon v) "visual:" = false) as ->.
  { apply String.eqb_neq. intros E.
    apply (colon_split_unique k "visual" (afterColon v) "") in E as [-> Hw]; [|done..].
    apply Hvis. split; [done|]. unfold afterColon in Hw.
    destruct (String.eqb v "") eqn:Ev; [by apply String.eqb_eq|done]. }
  cbn [orb]. unfold indexOf.
  change (k ++ ":" ++ afterColon v) with (k ++ String ":" (afterColon v)).
  rewrite (indexOfFrom_first_char ":" k _ 0 Hcolon), Z.add_0_l.
  assert ((len k =? -1) = false) as -> by (apply Z.eqb_neq; unfold len; lia).
  rewrite substring_prefix, Hk.
  change (k ++ String ":" (afterColon v)) with (k ++ ":" ++ afterColon v).
  rewrite <- (app_assoc_s k ":").
  replace (len k + 1) with (len (k ++ ":")) by (unfold len; rewrite length_app_s; simpl; lia).
  by rewrite substring_suffix, (trim_afterColon v Hv).
Qed.

(** A text that can stand as a value of a line *)
Definition lineValue (v : string) : Prop := trimmed v /\ oneLine v.

(** A property of the visual settings that is written the way it is
    read: its key is trimmed, on one line, free of colons, no comment and
    no array index, and its value is a line value that does not turn the
    line into the section header. *)
Definition visualEntry (kv : string * option string) : Prop :=
  forall v, snd kv = Some v ->
    lineValue (fst kv) /\ includes (fst kv) ":" = false
    /\ startsWith (fst kv) "#" = false
    /\ arrayIndex (fst kv) = None
    /\ lineValue v /\ ~ (fst kv = "visual" /\ v = "").

(** The properties [Object.entries] yields with a value *)
Definition defined (o : JsObject) : JsObject :=
  List.filter (fun kv => match snd kv with Some _ => true | None => false end) o.

Record Writable (c : Config) : Prop := {
  writable_project_type : forall t, project_type c = Some t -> lineValue t;
  writable_output_encoding : forall t, output_encoding c = Some t -> lineValue t;
  writable_max_large_files : forall t, max_large_files c = Some t -> lineValue t;
  writable_files : Forall (fun x => listItem x /\ oneLine x) (default [] (ignoreFiles c));
  writable_folders : Forall (fun x => listItem x /\ oneLine x) (default [] (ignoreFolders c));
  writable_ext : Forall (fun x => listItem x /\ oneLine x) (default [] (ignoreExtensions c));
  writable_visual : forall o, visual c = Some o ->
    NoDup (List.map fst o) /\ Forall visualEntry o
}.

Definition isSomeTrue (b : option bool) : bool :=
  match b with Some true => true | _ => false end.

(** What [parseConfigFile] makes of the text [writeConfig] writes *)
Definition readBack (c : Config) : Config :=
  {| useGitignore := Some (isSomeTrue (useGitignore c));
     ignoreFiles := Some (default [] (ignoreFiles c));
     ignoreFolders := Some (default [] (ignoreFolders c));
     ignoreExtensions := Some (default [] (ignoreExtensions c));
     visual := match defined (default [] (visual c)) with
               | [] => None
               | o => Some o
               end;
     output_encoding := Some (orElse (output_encoding c) "utf-8");
     read_large_files := Some (isSomeTrue (read_large_files c));
     max_large_files := Some (orElse (max_large_files c) "10MB");
     auto_detect_project := Some (isSomeTrue (auto_detect_project c));
     project_type := match project_type c with
                     | Some t => if String.eqb t "" then None else Some t
                     | None => None
                     end |}.

(** A configuration with a list holding a space, an empty list, a list not
    set, and a visual property without value *)
Definition sampleConfig : Config :=
  {| useGitignore := Some true;
     ignoreFiles := Some ["a.txt"; "my notes.md"];
     ignoreFolders := None;
     ignoreExtensions := Some [".log"];
     visual := Some [("style", Some "true"); ("folder", None);
                     ("excluded", Some "(excluded)"); ("url", Some "http://x")];
     output_encoding := None;
     read_large_files := None;
     max_large_files := Some "5MB";
     auto_detect_project := Some false;
     project_type := Some "Deno" |}.

Lemma parseLine_top (cfg : Config) (acc : JsObject) (k v : string) :
  trimmed k -> includes k ":" = false -> startsWith k "#" = false ->
  lineValue v -> k <> "visual" ->
  parseLine {| config := cfg; inVisualSection := false; visualSoFar := acc |} (setting k v)
  = {| config := assign k v cfg; inVisualSection := false; visualSoFar := acc |}.
Proof.
  intros Hk Hc Hh [Hv _] Hne.
  exact (parseLine_setting {| config := cfg; inVisualSection := false; visualSoFar := acc |}
           "" k v (or_introl eq_refl) Hk Hc Hh Hv (fun H => Hne (proj1 H))).
Qed.

Lemma isTrue_boolText (b : option bool) : isTrue (boolText b) = isSomeTrue b.
Proof. by destruct b as [[]|]. Qed.

Lemma lineValue_boolText (b : option bool) : lineValue (boolText b).
Proof. by destruct b as [[]|]. Qed.

Lemma lineValue_orElse (o : option string) (fallback : string) :
  (forall t, o = Some t -> lineValue t) -> lineValue fallback ->
  lineValue (orElse o fallback).
Proof.
  intros H Hf. destruct o as [s|]; [|done]. cbn [orElse].
  destruct (String.eqb s ""); [done|]. by apply H.
Qed.

Lemma lineValue_formatListValue (items : option (list string)) :
  Forall (fun x => listItem x /\ oneLine x) (default [] items) ->
  lineValue (formatListValue items)
  /\ parseListValue (formatListValue items) = default [] items.
Proof.
  intros H. destruct items as [[|x items]|]; [done| |done].
  change (Forall (fun x => listItem x /\ oneLine x) (x :: items)) in H.
  assert (Hitems : Forall listItem (x :: items))
    by (eapply Forall_impl; [exact H|]; by intros ? [? _]).
  assert (Hlines : Forall oneLine (x :: items))
    by (eapply Forall_impl; [exact H|]; by intros ? [_ ?]).
  split; [|by apply parse_format_items]. split.
  - by destruct (join_items_trimmed x items Hitems).
  - by apply oneLine_join.
Qed.

Lemma hasKey_snoc (o : JsObject) (k k' : string) (v : option string) :
  hasKey (o ++ [(k, v)])%list k' = hasKey o k' || String.eqb k k'.
Proof. unfold hasKey. rewrite existsb_app. cbn [existsb fst]. by rewrite orb_false_r. Qed.

(** The lines of the visual section are read back property by property. *)
Lemma parse_visual_entries (cfg : Config) (o acc : JsObject) :
  Forall visualEntry o -> NoDup (List.map fst o) ->
  (forall kv, In kv o -> hasKey acc (fst kv) = false) ->
  fold_left parseLine (flat_map visualLine o)
    {| config := cfg; inVisualSection := true; visualSoFar := acc |}
  = {| config := cfg; inVisualSection := true; visualSoFar := (acc ++ defined o)%list |}.
Proof.
  intros Ho. revert acc. induction Ho as [|[k ov] o Hkv _ IH]; intros acc Hnd Hfresh.
  - cbn. by rewrite app_nil_r.
  - cbn [List.map fst] in Hnd. apply NoDup_cons in Hnd as [Hk Hnd].
    cbn [flat_map defined List.filter snd]. destruct ov as [v|].
    + destruct (Hkv v eq_refl) as ([Hkt _] & Hc & Hh & Hi & [Hv _] & Hvis).
      cbn [fst snd] in *. unfold visualLine at 1. cbn [snd fst app fold_left].
      rewrite (parseLine_setting _ "   " k v); auto.
      cbn [inVisualSection config visualSoFar]. unfold setProp.
      pose proof (Hfresh (k, Some v) (or_introl eq_refl)) as Hacc. cbn [fst] in Hacc.
      rewrite Hacc, Hi.
      rewrite IH; [by rewrite <- app_assoc|done|].
      intros kv Hin. rewrite hasKey_snoc, (Hfresh kv) by (by right). cbn [orb].
      apply String.eqb_neq. intros ->. apply Hk, list_elem_of_In, in_map_iff. by exists kv.
    + unfold visualLine at 1. cbn [snd app]. apply IH; [done|].
      intros kv Hin. apply Hfresh. by right.
Qed.

Lemma oneLine_visualLines (o : JsObject) :
  Forall visualEntry o -> Forall oneLine (flat_map visualLine o).
Proof.
  intros H. induction H as [|[k ov] o Hkv _ IH]; [done|].
  cbn [flat_map]. apply Forall_app. split; [|done].
  destruct ov as [v|]; [|done]. unfold visualLine. cbn [snd fst].
  destruct (Hkv v eq_refl) as ([_ Hk] & _ & _ & _ & [_ Hv] & _).
  repeat constructor. apply (oneLine_app "   "); [done|]. by apply oneLine_setting.
Qed.

Lemma parseLine_skip (st : ParseState) (line : string) :
  String.eqb (trim line) "" || startsWith (trim line) "#" = true -> parseLine st line = st.
Proof. intros H. unfold parseLine. by rewrite H. Qed.

Lemma configLines_visual (c : Config) :
  configLines c = (configLines (set_visual None c) ++ visualLines c)%list.
Proof.
  unfold configLines. cbn [visualLines set_visual visual project_type projectTypeLine
    useGitignore auto_detect_project output_encoding read_large_files max_large_files
    ignoreFiles ignoreFolders ignoreExtensions].
  change (projectTypeLine (set_visual None c)) with (projectTypeLine c).
  by rewrite app_nil_r, <- !app_assoc.
Qed.

Lemma oneLine_configLines (c : Config) : Writable c -> Forall oneLine (configLines c).
Proof.
  intros [Wpt Woe Wml Wf Wd We Wv]. unfold configLines.
  pose proof (lineValue_boolText (useGitignore c)) as [_ ?].
  pose proof (lineValue_boolText (auto_detect_project c)) as [_ ?].
  pose proof (lineValue_boolText (read_large_files c)) as [_ ?].
  pose proof (lineValue_orElse _ "utf-8" Woe (conj eq_refl eq_refl)) as [_ ?].
  pose proof (lineValue_orElse _ "10MB" Wml (conj eq_refl eq_refl)) as [_ ?].
  pose proof (lineValue_formatListValue _ Wf) as [[_ ?] _].
  pose proof (lineValue_formatListValue _ Wd) as [[_ ?] _].
  pose proof (lineValue_formatListValue _ We) as [[_ ?] _].
  repeat first [apply Forall_app; split | apply Forall_cons; split | apply Forall_nil];
    try (by apply oneLine_setting); try done.
  - unfold projectTypeLine. destruct (project_type c) as [t|] eqn:E; [|done].
    destruct (String.eqb t ""); [done|]. repeat constructor.
    apply oneLine_setting; [done|]. by destruct (Wpt t eq_refl).
  - unfold visualLines. destruct (visual c) as [[|e o]|] eqn:E; [done| |done].
    destruct (Wv _ eq_refl) as [_ Ho]. repeat (apply Forall_cons; split); [done..|].
    by apply (oneLine_visualLines (e :: o)).
Qed.

(** The lines before the visual section are read back setting by setting. *)
Lemma parse_core_lines (c : Config) :
  Writable c ->
  parseLines (configLines (set_visual None c))
  = {| config := set_visual None (readBack c); inVisualSection := false; visualSoFar := [] |}.
Proof.
  intros [Wpt Woe Wml Wf Wd We _].
  destruct c as [g files folders exts vis oe rl ml ad pt].
  cbn [project_type output_encoding max_large_files ignoreFiles ignoreFolders
       ignoreExtensions] in *.
  pose proof (lineValue_orElse _ "utf-8" Woe (conj eq_refl eq_refl)) as Hoe.
  pose proof (lineValue_orElse _ "10MB" Wml (conj eq_refl eq_refl)) as Hml.
  destruct (lineValue_formatListValue _ Wf) as [Hf Rf].
  destruct (lineValue_formatListValue _ Wd) as [Hd Rd].
  destruct (lineValue_formatListValue _ We) as [He Re].
  assert (Hpt : forall st,
    fold_left parseLine (projectTypeLine (set_visual None
      {| useGitignore := g; ignoreFiles := files; ignoreFolders := folders;
         ignoreExtensions := exts; visual := vis; output_encoding := oe;
         read_large_files := rl; max_large_files := ml; auto_detect_project := ad;
         project_type := pt |}))
      {| config := st; inVisualSection := false; visualSoFar := [] |}
    = {| config := match pt with
                   | Some t => if String.eqb t "" then st else set_project_type (Some t) st
                   | None => st
                   end;
         inVisualSection := false; visualSoFar := [] |}).
  { intros st. unfold projectTypeLine. cbn [set_visual project_type].
    destruct pt as [t|]; [|done]. destruct (String.eqb t ""); [done|].
    cbn [fold_left]. by rewrite parseLine_top by (done || by apply Wpt). }
  unfold parseLines, configLines. rewrite !fold_left_app. cbn [fold_left].
  cbn [set_visual useGitignore auto_detect_project output_encoding read_large_files
       max_large_files ignoreFiles ignoreFolders ignoreExtensions visualLines visual].
  rewrite (parseLine_skip _ "# Clipo Configuration") by done.
  rewrite (parseLine_skip _ "# Auto-generated configuration file") by done.
  rewrite !(parseLine_skip _ "") by done.
  rewrite (parseLine_skip _ "# Core Settings") by done.
  rewrite (parseLine_top _ _ "gitignore") by (done || apply lineValue_boolText).
  rewrite (parseLine_top _ _ "auto_detect_project") by (done || apply lineValue_boolText).
  rewrite Hpt.
  rewrite (parseLine_top _ _ "output_encoding") by done.
  rewrite (parseLine_top _ _ "read_large_files") by (done || apply lineValue_boolText).
  rewrite (parseLine_top _ _ "max_large_files") by done.
  rewrite (parseLine_skip _ "# Ignore Patterns") by done.
  rewrite (parseLine_top _ _ "files") by done.
  rewrite (parseLine_top _ _ "folders") by done.
  rewrite (parseLine_top _ _ "ext") by done.
  cbn [fold_left]. f_equal.
  change (assign "ext") with (fun v => set_ignoreExtensions (Some (parseListValue v))).
  change (assign "folders") with (fun v => set_ignoreFolders (Some (parseListValue v))).
  change (assign "files") with (fun v => set_ignoreFiles (Some (parseListValue v))).
  change (assign "max_large_files") with (fun v => set_max_large_files (Some v)).
  change (assign "read_large_files") with (fun v => set_read_large_files (Some (isTrue v))).
  change (assign "output_encoding") with (fun v => set_output_encoding (Some v)).
  change (assign "auto_detect_project")
    with (fun v => set_auto_detect_project (Some (isTrue v))).
  change (assign "gitignore") with (fun v => set_useGitignore (Some (isTrue v))).
  cbv beta. rewrite Rf, Rd, Re, !isTrue_boolText.
  destruct pt as [t|]; [destruct (String.eqb t "") eqn:E|]; unfold readBack;
    cbn [project_type]; rewrite ?E; reflexivity.
Qed.

Lemma parse_written_config (c : Config) :
  Writable c -> parseConfigFile (writeConfig c) = readBack c.
Proof.
  intros W. unfold parseConfigFile, writeConfig.
  rewrite split_join_lines; [|by apply oneLine_configLines|done].
  rewrite configLines_visual. unfold parseLines. rewrite fold_left_app.
  fold (parseLines (configLines (set_visual None c))). rewrite (parse_core_lines c W).
  destruct W as [_ _ _ _ _ _ Wv]. unfold visualLines.
  destruct (visual c) as [[|e o]|] eqn:E.
  - cbn [fold_left visualSoFar config]. unfold readBack. by rewrite E.
  - destruct (Wv _ eq_refl) as [Hnd Ho].
    cbn [fold_left]. rewrite (parseLine_skip _ "# Visual Settings") by done.
    change (parseLine ?st "visual:")
      with {| config := config st; inVisualSection := true; visualSoFar := visualSoFar st |}.
    cbn [config visualSoFar]. rewrite (parse_visual_entries _ (e :: o) []); [|done..].
    cbn [visualSoFar config app]. unfold readBack. rewrite E.
    change (default [] (Some (e :: o))) with (e :: o).
    by destruct (defined (e :: o)).
  - cbn [fold_left visualSoFar config]. unfold readBack. by rewrite E.
Qed.

Lemma defined_idem (o : JsObject) : defined (defined o) = defined o.
Proof.
  unfold defined. induction o as [|[k [v|]] o IH]; [done| |done].
  cbn [List.filter snd]. by rewrite IH.
Qed.

Lemma defined_keys (o : JsObject) :
  NoDup (List.map fst o) -> NoDup (List.map fst (defined o)).
Proof.
  unfold defined. induction o as [|[k ov] o IH]; [done|].
  cbn [List.map fst]. intros [Hk Hnd]%NoDup_cons.
  cbn [List.filter snd]. destruct ov; [|by apply IH].
  cbn [List.map fst]. apply NoDup_cons. split; [|by apply IH].
  intros Hin%list_elem_of_In%in_map_iff. destruct Hin as (kv & <- & Hkv%filter_In).
  apply Hk, list_elem_of_In, in_map_iff. exists kv. by destruct Hkv.
Qed.

Lemma orElse_idem (o : option string) (fallback : string) :
  fallback <> "" -> orElse (Some (orElse o fallback)) fallback = orElse o fallback.
Proof.
  intros Hf%String.eqb_neq. destruct o as [s|]; cbn [orElse]; [|by rewrite Hf].
  destruct (String.eqb s "") eqn:E; by rewrite ?E, ?Hf.
Qed.

Lemma readBack_idem (c : Config) : readBack (readBack c) = readBack c.
Proof.
  destruct c as [g files folders exts vis oe rl ml ad pt]. unfold readBack.
  cbn [useGitignore ignoreFiles ignoreFolders ignoreExtensions visual output_encoding
       read_large_files max_large_files auto_detect_project project_type].
  rewrite !orElse_idem by done.
  assert (Hb : forall b, isSomeTrue (Some (isSomeTrue b)) = isSomeTrue b)
    by (by intros [[]|]).
  rewrite !Hb. f_equal.
  - destruct (defined (default [] vis)) as [|kv o] eqn:E; [done|].
    change (default [] (Some (kv :: o))) with (kv :: o).
    by rewrite <- E, defined_idem, E.
  - destruct pt as [t|]; [|done]. destruct (String.eqb t "") eqn:E; [done|]. by rewrite E.
Qed.

Lemma readBack_writable (c : Config) : Writable c -> Writable (readBack c).
Proof.
  intros [Wpt Woe Wml Wf Wd We Wv].
  destruct c as [g files folders exts vis oe rl ml ad pt]. 
  cbn [project_type output_encoding max_large_files ignoreFiles ignoreFolders
       ignoreExtensions visual] in *.
  split; unfold readBack;
    cbn [project_type output_encoding max_large_files ignoreFiles ignoreFolders
         ignoreExtensions visual]; try done.
  - intros t Ht. destruct pt as [t'|]; [|done]. destruct (String.eqb t' ""); [done|].
    injection Ht as <-. by apply Wpt.
  - intros t [= <-]. by apply lineValue_orElse.
  - intros t [= <-]. by apply lineValue_orElse.
  - intros o Ho. destruct vis as [o'|]; [|done].
    change (default [] (Some o')) with o' in Ho.
    destruct (Wv o' eq_refl) as [Hnd Hall].
    assert (o = defined o') as -> by (destruct (defined o'); [done|by injection Ho]).
    split; [by apply defined_keys|].
    apply Forall_forall. intros kv Hin%list_elem_of_In.
    apply filter_In in Hin as [Hin _].
    rewrite Forall_forall in Hall. by apply Hall, list_elem_of_In.
Qed.

Ltac sample_is_writable :=
  split; cbn [sampleConfig project_type output_encoding max_large_files
              ignoreFiles ignoreFolders ignoreExtensions visual default];
  [ by intros t [= <-]
  | done
  | by intros t [= <-]
  | repeat constructor; done
  | constructor
  | repeat constructor; done
  | intros o [= <-]; split;
    [ apply (bool_decide_unpack _); vm_compute; exact I
    | repeat (apply Forall_cons; split); try (by apply Forall_nil);
      intros v Hv; cbn [snd fst] in *; try discriminate;
      injection Hv as <-; repeat split; try done; by intros [? _] ] ].

(** X18: reading back a written configuration: every setting comes back as it
    was written, with the defaults the writer fills in, and the visual
    settings come back as the properties that had a value. *)
Theorem config_round_trip (c : Config) :
  Writable c -> parseConfigFile (writeConfig c) = readBack c.
Proof. apply parse_written_config. Qed.

Lemma config_round_trip_witness :
  parseConfigFile (writeConfig sampleConfig) = readBack sampleConfig.
Proof. apply (config_round_trip sampleConfig). sample_is_writable. Defined.

(** X19: a configuration file that was written, read and written again is read
    as the same configuration: after the first round the file is stable. *)
Theorem written_config_is_stable (c : Config) :
  Writable c ->
  let c1 := parseConfigFile (writeConfig c) in
  parseConfigFile (writeConfig c1) = c1.
Proof.
  intros W c1. subst c1. rewrite (parse_written_config c W).
  rewrite (parse_written_config _ (readBack_writable c W)). by rewrite readBack_idem.
Qed.

Lemma written_config_is_stable_witness :
  parseConfigFile (writeConfig (parseConfigFile (writeConfig sampleConfig)))
  = parseConfigFile (writeConfig sampleConfig).
Proof. apply (written_config_is_stable sampleConfig). sample_is_writable. Defined.

End ConfigRoundTrip.

(** ** Loading the configuration *)

Module Loader.
Import Js ProjectDetection.

Inductive LoadOutcome :=
| Loaded (config : Config.Config)
| Failed.

(** [v ?? fallback] *)
Definition orDefault {A} (v : option A) (fallback : A) : option A :=
  match v with
  | Some x => Some x
  | None => Some fallback
  end.

(** The visual settings [loadConfig] supplies; the two pictograms are
    carried by their UTF-8 bytes. *)
Definition defaultVisual : Config.JsObject :=
  [("style", Some "true"); ("folder", Some "📁"); ("file", Some "📄");
   ("excluded", Some "(excluded)")].

(** The configuration of the file, or the empty object when reading the
    file throws *)
Definition readConfig (configText : option string) : Config.Config :=
  match configText with
  | Some configContent => Config.parseConfigFile configContent
  | None => Config.emptyConfig
  end.

Definition withDefaults (c : Config.Config) (disableAutoDetect : bool) : Config.Config :=
  let c := Config.set_useGitignore (orDefault (Config.useGitignore c) true) c in
  let c := Config.set_auto_detect_project (orDefault (Config.auto_detect_project c) true) c in
  let c := Config.set_read_large_files (orDefault (Config.read_large_files c) false) c in
  let c := Config.set_max_large_files (orDefault (Config.max_large_files c) "10MB") c in
  let c := Config.set_output_encoding (orDefault (Config.output_encoding c) "utf-8") c in
  if disableAutoDetect then Config.set_auto_detect_project (Some false) c else c.

(** [detectedTypes.indexOf(x)] *)
Fixpoint positionOf (x : string) (l : list string) : option nat :=
  match l with
  | [] => None
  | y :: r => if String.eqb y x then Some O else option_map S (positionOf x r)
  end.

(** [exists(deno.json) || exists(deno.jsonc)]; [None] when a check throws *)
Definition hasDenoJson (fs : FileSystem) (projectPath : string) : option bool :=
  match exists_ fs (Path.join2 projectPath "deno.json") with
  | Some true => Some true
  | Some false => exists_ fs (Path.join2 projectPath "deno.jsonc")
  | None => None
  end.

(** The [try] block that moves Deno to the front; its [catch] leaves the
    list as it is. *)
Definition preferDeno (fs : FileSystem) (projectPath : string)
    (detectedTypes : list string) : list string :=
  match hasDenoJson fs projectPath with
  | Some true =>
      match positionOf "Deno" detectedTypes with
      | Some (S i) =>
          "Deno" :: (take (S i) detectedTypes ++ drop (S (S i)) detectedTypes)%list
      | _ => detectedTypes
      end
  | _ => detectedTypes
  end.

(** The primary type and the merged ignore lists; [None] when
    [getDefaultIgnorePatterns] throws. *)
Definition applyDetected (detectedTypes : list string) (c : Config.Config)
    : option Config.Config :=
  let c := Config.set_project_type (head detectedTypes) c in
  match getDefaultIgnorePatterns detectedTypes with
  | Some defaultPatterns =>
      let c := Config.set_ignoreFiles
                 (Some (mergeArrays (Config.ignoreFiles c) (ign_files defaultPatterns))) c in
      let c := Config.set_ignoreFolders
                 (Some (mergeArrays (Config.ignoreFolders c) (ign_folders defaultPatterns))) c in
      Some (Config.set_ignoreExtensions
              (Some (mergeArrays (Config.ignoreExtensions c)
                       (ign_extensions defaultPatterns))) c)
  | None => None
  end.

Definition ensureVisual (c : Config.Config) : Config.Config :=
  match Config.visual c with
  | Some _ => c
  | None => Config.set_visual (Some defaultVisual) c
  end.

(** [loadConfig(configPath, projectPath, disableAutoDetect)], with the text
    of the file at [configPath] ([None]: reading it throws) and the rule
    table, which the call hands back as detection leaves it. *)
Definition loadConfig (E : Engine) (table : list ProjectDetectionRule) (fs : FileSystem)
    (configText : option string) (projectPath : string) (disableAutoDetect : bool)
    : list ProjectDetectionRule * LoadOutcome :=
  let config := withDefaults (readConfig configText) disableAutoDetect in
  match Config.auto_detect_project config with
  | Some true =>
      match detectProjectType E table fs projectPath with
      | (table, Returned []) => (table, Loaded (ensureVisual config))
      | (table, Returned detectedTypes) =>
          match applyDetected (preferDeno fs projectPath detectedTypes) config with
          | Some config => (table, Loaded (ensureVisual config))
          | None => (table, Failed)
          end
      | (table, Raised) => (table, Failed)
      end
  | _ => (table, Loaded (ensureVisual config))
  end.

End Loader.

Section LoadingFacts.
Import Js ProjectDetection Fixtures Loader.

Variable E : Engine.
Variable table : list ProjectDetectionRule.
Variable fs : FileSystem.
Variable configText : option string.
Variable projectPath : string.

(** Whether a load runs detection *)
Definition detects (disableAutoDetect : bool) : bool :=
  negb disableAutoDetect
  && default true (Config.auto_detect_project (readConfig configText)).

Lemma auto_detect_withDefaults (c : Config.Config) (disableAutoDetect : bool) :
  Config.auto_detect_project (withDefaults c disableAutoDetect)
  = Some (negb disableAutoDetect && default true (Config.auto_detect_project c)).
Proof. destruct c as [g f d e v oe rl ml [[]|] pt], disableAutoDetect; reflexivity. Qed.

(** The shapes a load can take *)
Lemma loadConfig_cases (disableAutoDetect : bool) :
  let file := withDefaults (readConfig configText) disableAutoDetect in
  (detects disableAutoDetect = false
   /\ loadConfig E table fs configText projectPath disableAutoDetect
      = (table, Loaded (ensureVisual file)))
  \/ (detects disableAutoDetect = true
      /\ snd (detectProjectType E table fs projectPath) = Raised
      /\ loadConfig E table fs configText projectPath disableAutoDetect
         = (stableSort compareRules table, Failed))
  \/ (detects disableAutoDetect = true
      /\ snd (detectProjectType E table fs projectPath) = Returned []
      /\ loadConfig E table fs configText projectPath disableAutoDetect
         = (stableSort compareRules table, Loaded (ensureVisual file)))
  \/ (detects disableAutoDetect = true
      /\ exists detectedTypes,
           snd (detectProjectType E table fs projectPath) = Returned detectedTypes
           /\ detectedTypes <> []
           /\ loadConfig E table fs configText projectPath disableAutoDetect
              = (stableSort compareRules table,
                 match applyDetected (preferDeno fs projectPath detectedTypes) file with
                 | Some config => Loaded (ensureVisual config)
                 | None => Failed
                 end)).
Proof.
  cbv zeta. unfold loadConfig.
  rewrite auto_detect_withDefaults. fold (detects disableAutoDetect).
  destruct (detects disableAutoDetect); [|by left].
  right. unfold detectProjectType. cbn [snd].
  destruct (foldOpt _ _ []) as [detected|]; [|by left].
  right. destruct (List.map cand_name _) as [|t types] eqn:Et; [by left|].
  right. split; [done|]. exists (t :: types). split; [done|]. split; [done|].
  by destruct (applyDetected _ _).
Qed.

(** The settings detection has no part in *)
Definition sameSettings (a b : Config.Config) : Prop :=
  Config.useGitignore a = Config.useGitignore b
  /\ Config.auto_detect_project a = Config.auto_detect_project b
  /\ Config.read_large_files a = Config.read_large_files b
  /\ Config.max_large_files a = Config.max_large_files b
  /\ Config.output_encoding a = Config.output_encoding b.

Lemma applyDetected_spec (detectedTypes : list string) (c c' : Config.Config) :
  applyDetected detectedTypes c = Some c' ->
  sameSettings c' c /\ Config.visual c' = Config.visual c
  /\ Config.project_type c' = head detectedTypes
  /\ exists defaultPatterns,
       getDefaultIgnorePatterns detectedTypes = Some defaultPatterns
       /\ Config.ignoreFiles c'
          = Some (mergeArrays (Config.ignoreFiles c) (ign_files defaultPatterns))
       /\ Config.ignoreFolders c'
          = Some (mergeArrays (Config.ignoreFolders c) (ign_folders defaultPatterns))
       /\ Config.ignoreExtensions c'
          = Some (mergeArrays (Config.ignoreExtensions c) (ign_extensions defaultPatterns)).
Proof.
  unfold applyDetected. destruct (getDefaultIgnorePatterns detectedTypes) as [dp|]; [|done].
  intros [= <-]. destruct c. repeat split. by exists dp.
Qed.

Lemma ensureVisual_spec (c : Config.Config) :
  sameSettings (ensureVisual c) c
  /\ Config.visual (ensureVisual c) = Some (default defaultVisual (Config.visual c))
  /\ Config.project_type (ensureVisual c) = Config.project_type c
  /\ Config.ignoreFiles (ensureVisual c) = Config.ignoreFiles c
  /\ Config.ignoreFolders (ensureVisual c) = Config.ignoreFolders c
  /\ Config.ignoreExtensions (ensureVisual c) = Config.ignoreExtensions c.
Proof. destruct c as [g f d e [v|] oe rl ml ad pt]; repeat split. Qed.

Lemma withDefaults_spec (c : Config.Config) (disableAutoDetect : bool) :
  let c' := withDefaults c disableAutoDetect in
  Config.useGitignore c' = Some (default true (Config.useGitignore c))
  /\ Config.read_large_files c' = Some (default false (Config.read_large_files c))
  /\ Config.max_large_files c' = Some (default "10MB" (Config.max_large_files c))
  /\ Config.output_encoding c' = Some (default "utf-8" (Config.output_encoding c))
  /\ Config.visual c' = Config.visual c
  /\ Config.project_type c' = Config.project_type c
  /\ Config.ignoreFiles c' = Config.ignoreFiles c
  /\ Config.ignoreFolders c' = Config.ignoreFolders c
  /\ Config.ignoreExtensions c' = Config.ignoreExtensions c.
Proof.
  destruct c as [[g|] f d e v [oe|] [rl|] [ml|] ad pt], disableAutoDetect; repeat split.
Qed.

(** X20: whatever a load returns has the settings of the file, the defaults
    where the file is silent: detection changes none of them, and the
    visual settings are those of the file or the built-in ones. *)
Theorem loading_fills_missing_settings (disableAutoDetect : bool) (c : Config.Config) :
  snd (loadConfig E table fs configText projectPath disableAutoDetect) = Loaded c ->
  let file := readConfig configText in
  Config.useGitignore c = Some (default true (Config.useGitignore file))
  /\ Config.auto_detect_project c
     = Some (negb disableAutoDetect && default true (Config.auto_detect_project file))
  /\ Config.read_large_files c = Some (default false (Config.read_large_files file))
  /\ Config.max_large_files c = Some (default "10MB" (Config.max_large_files file))
  /\ Config.output_encoding c = Some (default "utf-8" (Config.output_encoding file))
  /\ Config.visual c = Some (default defaultVisual (Config.visual file)).
Proof.
  intros Hload file.
  pose proof (withDefaults_spec file disableAutoDetect) as (Hg & Hrl & Hml & Hoe & Hv & _).
  pose proof (auto_detect_withDefaults file disableAutoDetect) as Had.
  assert (Hc : exists c0, c = ensureVisual c0
                          /\ sameSettings c0 (withDefaults file disableAutoDetect)
                          /\ Config.visual c0 = Config.visual file).
  { destruct (loadConfig_cases disableAutoDetect)
      as [[_ Hl]|[(_ & _ & Hl)|[(_ & _ & Hl)|(_ & types & _ & _ & Hl)]]];
      rewrite Hl in Hload; cbn [snd] in Hload; try discriminate.
    - injection Hload as <-. eexists. split; [done|]. by repeat split.
    - injection Hload as <-. eexists. split; [done|]. by repeat split.
    - destruct (applyDetected _ _) as [c0|] eqn:Ea; [|done]. injection Hload as <-.
      exists c0. split; [done|].
      destruct (applyDetected_spec _ _ _ Ea) as (Hs & Hv0 & _). split; [done|].
      by rewrite Hv0. }
  destruct Hc as (c0 & -> & (Sg & Sad & Srl & Sml & Soe) & Sv).
  destruct (ensureVisual_spec c0) as ((Eg & Ead & Erl & Eml & Eoe) & Ev & _).
  rewrite Eg, Ead, Erl, Eml, Eoe, Ev, Sg, Sad, Srl, Sml, Soe, Sv. fold file.
  by rewrite Hg, Had, Hrl, Hml, Hoe.
Qed.

(** X21: with detection switched off, on the command line or in the file, a
    load reads nothing but the file: it cannot fail, leaves the rule table
    alone and hands the lists and the project type of the file on as they
    are. *)
Theorem loading_without_detection (disableAutoDetect : bool) :
  disableAutoDetect = true
  \/ Config.auto_detect_project (readConfig configText) = Some false ->
  exists c,
    loadConfig E table fs configText projectPath disableAutoDetect = (table, Loaded c)
    /\ Config.project_type c = Config.project_type (readConfig configText)
    /\ Config.ignoreFiles c = Config.ignoreFiles (readConfig configText)
    /\ Config.ignoreFolders c = Config.ignoreFolders (readConfig configText)
    /\ Config.ignoreExtensions c = Config.ignoreExtensions (readConfig configText).
Proof.
  intros Hoff.
  assert (Hd : detects disableAutoDetect = false).
  { unfold detects. destruct Hoff as [-> | ->]; [done|apply andb_false_r]. }
  destruct (loadConfig_cases disableAutoDetect)
    as [[_ Hl]|[(Ht & _)|[(Ht & _)|(Ht & _)]]]; try congruence.
  eexists. split; [exact Hl|].
  destruct (ensureVisual_spec (withDefaults (readConfig configText) disableAutoDetect))
    as (_ & _ & -> & -> & -> & ->).
  by destruct (withDefaults_spec (readConfig configText) disableAutoDetect)
    as (_ & _ & _ & _ & _ & -> & -> & -> & ->).
Qed.

Lemma mergeArrays_keeps (l defaults : list string) :
  NoDup l -> exists rest, mergeArrays (Some l) defaults = (l ++ rest)%list.
Proof.
  intros Hnd. destruct l as [|x l]; [by exists defaults|].
  cbn [mergeArrays]. unfold dedupe. rewrite setFrom_app.
  rewrite (setFrom_fresh (x :: l) []) by done. cbn [app].
  destruct (setFrom_extends defaults (x :: l)) as (rest & -> & _). by exists rest.
Qed.

(** X22: the lists of the file survive loading: a list without repetitions
    stands unchanged at the front of the loaded list, whatever detection
    adds behind it. *)
Theorem loading_keeps_user_entries (disableAutoDetect : bool) (c : Config.Config)
    (field : Config.Config -> option (list string)) :
  snd (loadConfig E table fs configText projectPath disableAutoDetect) = Loaded c ->
  In field [Config.ignoreFiles; Config.ignoreFolders; Config.ignoreExtensions] ->
  forall l, field (readConfig configText) = Some l -> NoDup l ->
  exists rest, field c = Some (l ++ rest)%list.
Proof.
  intros Hload Hfield l Hl Hnd.
  pose proof (withDefaults_spec (readConfig configText) disableAutoDetect)
    as (_ & _ & _ & _ & _ & _ & Wf & Wd & We).
  assert (Hplain : exists rest,
            field (ensureVisual (withDefaults (readConfig configText) disableAutoDetect))
            = Some (l ++ rest)%list).
  { exists []. rewrite app_nil_r, <- Hl.
    destruct (ensureVisual_spec (withDefaults (readConfig configText) disableAutoDetect))
      as (_ & _ & _ & Ef & Ed & Ee).
    cbn [In] in Hfield. destruct Hfield as [<-|[<-|[<-|[]]]]; congruence. }
  destruct (loadConfig_cases disableAutoDetect)
    as [[_ Hc]|[(_ & _ & Hc)|[(_ & _ & Hc)|(_ & types & _ & _ & Hc)]]];
    rewrite Hc in Hload; cbn [snd] in Hload; try discriminate;
    try (by injection Hload as <-).
  destruct (applyDetected _ _) as [c0|] eqn:Ea; [|done]. injection Hload as <-.
  destruct (applyDetected_spec _ _ _ Ea) as (_ & _ & _ & dp & _ & Af & Ad & Ae).
  destruct (ensureVisual_spec c0) as (_ & _ & _ & Ef & Ed & Ee).
  cbn [In] in Hfield. destruct Hfield as [<-|[<-|[<-|[]]]].
  - rewrite Ef, Af, Wf, Hl. destruct (mergeArrays_keeps l (ign_files dp) Hnd) as [rest ->].
    by exists rest.
  - rewrite Ed, Ad, Wd, Hl. destruct (mergeArrays_keeps l (ign_folders dp) Hnd) as [rest ->].
    by exists rest.
  - rewrite Ee, Ae, We, Hl.
    destruct (mergeArrays_keeps l (ign_extensions dp) Hnd) as [rest ->]. by exists rest.
Qed.

Lemma positionOf_Some (x : string) (l : list string) (i : nat) :
  positionOf x l = Some i -> l = (take i l ++ x :: drop (S i) l)%list.
Proof.
  revert i. induction l as [|y l IH]; intros i; cbn [positionOf]; [done|].
  destruct (String.eqb y x) eqn:Ey.
  - intros [= <-]. apply String.eqb_eq in Ey as ->. reflexivity.
  - destruct (positionOf x l) as [j|]; [|done]. intros [= <-].
    cbn [take drop app]. f_equal. by apply IH.
Qed.

Lemma positionOf_None (x : string) (l : list string) :
  positionOf x l = None -> ~ In x l.
Proof.
  induction l as [|y l IH]; cbn [positionOf]; [by intros _ []|].
  destruct (String.eqb y x) eqn:Ey; [done|].
  destruct (positionOf x l) as [j|]; [done|]. intros _ [->|H]; [|by apply IH].
  by rewrite String.eqb_refl in Ey.
Qed.

(** Moving Deno to the front keeps the detected types. *)
Lemma preferDeno_perm (detectedTypes : list string) :
  Permutation (preferDeno fs projectPath detectedTypes) detectedTypes.
Proof.
  unfold preferDeno. destruct (hasDenoJson fs projectPath) as [[]|]; [|done..].
  destruct (positionOf "Deno" detectedTypes) as [[|i]|] eqn:Ep; [done| |done].
  rewrite (positionOf_Some _ _ _ Ep) at 3. apply Permutation_middle.
Qed.

Lemma preferDeno_head (detectedTypes : list string) :
  (hasDenoJson fs projectPath = Some true -> In "Deno" detectedTypes ->
   head (preferDeno fs projectPath detectedTypes) = Some "Deno")
  /\ (hasDenoJson fs projectPath <> Some true ->
      preferDeno fs projectPath detectedTypes = detectedTypes).
Proof.
  unfold preferDeno. split.
  - intros -> Hin. destruct (positionOf "Deno" detectedTypes) as [[|i]|] eqn:Ep; [|done|].
    + apply positionOf_Some in Ep. by rewrite Ep.
    + by apply positionOf_None in Ep.
  - intros H. by destruct (hasDenoJson fs projectPath) as [[]|].
Qed.

Lemma returned_types_are_rule_names (detectedTypes : list string) (t : string) :
  snd (detectProjectType E table fs projectPath) = Returned detectedTypes ->
  In t detectedTypes -> In t (List.map rule_name table).
Proof.
  unfold detectProjectType. cbn [snd].
  destruct (foldOpt _ _ []) as [detected|] eqn:Ed; [|done]. intros [= <-] Ht.
  destruct (scanRule_names _ _ _ _ _ Ed) as (picked & Hsub & Hnames).
  cbn [List.map app] in Hnames.
  apply in_map_iff in Ht as (c & <- & Hc).
  apply list_elem_of_In, elem_of_take in Hc as (i & Hc & _).
  apply list_elem_of_lookup_2, list_elem_of_In in Hc.
  apply (Permutation_in _ (arraySort_perm E _ _)) in Hc.
  apply (in_map cand_name) in Hc. rewrite Hnames in Hc.
  apply (Permutation_in (l := List.map rule_name (stableSort compareRules table)));
    [apply Permutation_map, stableSortBy_perm|].
  apply list_elem_of_In. eapply elem_of_sublist; [|exact Hsub]. by apply list_elem_of_In.
Qed.

Lemma detection_raised_iff :
  snd (detectProjectType E table fs projectPath) = Raised
  <-> Exists (failingCheck fs projectPath) table.
Proof.
  unfold detectProjectType. cbn [snd].
  rewrite <- (Exists_perm _ _ _ (stableSortBy_perm _ table
                                   : Permutation (stableSort compareRules table) table)).
  rewrite <- (foldOpt_None (scanRule fs projectPath) _ _ []).
  - by destruct (foldOpt _ _ []).
  - intros b r. rewrite <- scoreRule_None. unfold scanRule.
    by destruct (scoreRule fs projectPath r).
Qed.

(** X23: when detection finds something, the project type of the file is
    replaced by a detected type, the name of a rule: Deno when it is among
    the detected types and a Deno manifest stands in the project, the first
    detected type when no manifest is found or looking for it fails. *)
Theorem detected_type_replaces_configured_type (c : Config.Config)
    (detectedTypes : list string) :
  Config.auto_detect_project (readConfig configText) <> Some false ->
  snd (detectProjectType E table fs projectPath) = Returned detectedTypes ->
  detectedTypes <> [] ->
  snd (loadConfig E table fs configText projectPath false) = Loaded c ->
  exists t,
    Config.project_type c = Some t
    /\ In t detectedTypes /\ In t (List.map rule_name table)
    /\ (hasDenoJson fs projectPath = Some true -> In "Deno" detectedTypes -> t = "Deno")
    /\ (hasDenoJson fs projectPath <> Some true -> head detectedTypes = Some t).
Proof.
  intros Hon Hdet Hne Hload.
  assert (Hd : detects false = true).
  { unfold detects. destruct (Config.auto_detect_project _) as [[]|]; done. }
  destruct (loadConfig_cases false)
    as [[Hd' _]|[(_ & Hr & _)|[(_ & Hr & _)|(_ & types & Hr & _ & Hc)]]];
    try congruence.
  assert (types = detectedTypes) as -> by congruence.
  rewrite Hc in Hload. cbn [snd] in Hload.
  destruct (applyDetected _ _) as [c0|] eqn:Ea; [|done]. injection Hload as <-.
  destruct (applyDetected_spec _ _ _ Ea) as (_ & _ & Hpt & _).
  destruct (ensureVisual_spec c0) as (_ & _ & Ept & _). rewrite Ept, Hpt.
  destruct (preferDeno_head detectedTypes) as [Hdeno Hplain].
  destruct (preferDeno fs projectPath detectedTypes) as [|t rest] eqn:Ep.
  { pose proof (preferDeno_perm detectedTypes) as Hperm. rewrite Ep in Hperm.
    by apply Permutation_nil in Hperm. }
  assert (Ht : In t detectedTypes).
  { apply (Permutation_in _ (preferDeno_perm detectedTypes)). rewrite Ep. by left. }
  exists t. split; [done|]. split; [done|].
  split; [by apply (returned_types_are_rule_names detectedTypes)|]. split.
  - intros Hj Hin. specialize (Hdeno Hj Hin). by injection Hdeno.
  - intros Hj. by rewrite <- (Hplain Hj).
Qed.

(** X24: with a rule table whose names are none of the inherited property
    names, a load fails exactly when it runs detection and an existence
    check of a declared file or folder fails; and it leaves the table
    sorted exactly when it runs detection. *)
Theorem loading_fails_iff_existence_check_fails (disableAutoDetect : bool) :
  Forall (fun r => inherited (rule_name r) = false) table ->
  (snd (loadConfig E table fs configText projectPath disableAutoDetect) = Failed
   <-> detects disableAutoDetect = true /\ Exists (failingCheck fs projectPath) table)
  /\ fst (loadConfig E table fs configText projectPath disableAutoDetect)
     = if detects disableAutoDetect then stableSort compareRules table else table.
Proof.
  intros Hnames.
  destruct (loadConfig_cases disableAutoDetect)
    as [[Hd Hc]|[(Hd & Hr & Hc)|[(Hd & Hr & Hc)|(Hd & types & Hr & _ & Hc)]]];
    rewrite Hc, Hd; cbn [fst snd]; (split; [|done]).
  - split; [done|]. by intros [? _].
  - split; [|done]. intros _. split; [done|]. by apply detection_raised_iff.
  - split; [done|]. intros [_ Hex%detection_raised_iff]. congruence.
  - destruct (applyDetected _ _) as [c0|] eqn:Ea.
    + split; [done|]. intros [_ Hex%detection_raised_iff]. congruence.
    + exfalso. unfold applyDetected, getDefaultIgnorePatterns in Ea.
      rewrite foldOpt_mergeType in Ea.
      destruct (existsb inherited _) eqn:Ei; [|done].
      apply existsb_exists in Ei as (t & Ht & Hi).
      apply (Permutation_in _ (preferDeno_perm types)) in Ht.
      apply (returned_types_are_rule_names types t Hr) in Ht.
      apply in_map_iff in Ht as (r & <- & Hin).
      rewrite Forall_forall in Hnames. 
      rewrite (Hnames r) in Hi; [done|by apply list_elem_of_In].
Qed.

End LoadingFacts.

Section LoadingExamples.
Import Js ProjectDetection Fixtures Loader.

(** A configuration file that names a project type and two lists *)
Definition sampleText : string :=
  "project_type: Rust" ++ nl ++ "files: notes.txt, .git" ++ nl ++ "folders: " ++ nl
  ++ "# no more" ++ nl.

(** A project with a Deno manifest beside the files of a Next.js project *)
Definition denoAndNext : FileSystem :=
  flatDir "/p" [file "deno.json"; file "next.config.js"; file "package.json"] None.

Definition loadedOr (fallback : Config.Config) (o : LoadOutcome) : Config.Config :=
  match o with
  | Loaded c => c
  | Failed => fallback
  end.

Definition sampleLoaded : Config.Config :=
  loadedOr Config.emptyConfig
    (snd (loadConfig stableEngine PROJECT_DETECTION_RULES denoAndNext (Some sampleText)
            "/p" false)).

Lemma loading_fills_missing_settings_witness :
  let file := readConfig (Some sampleText) in
  Config.useGitignore sampleLoaded = Some (default true (Config.useGitignore file))
  /\ Config.auto_detect_project sampleLoaded
     = Some (negb false && default true (Config.auto_detect_project file))
  /\ Config.read_large_files sampleLoaded
     = Some (default false (Config.read_large_files file))
  /\ Config.max_large_files sampleLoaded
     = Some (default "10MB" (Config.max_large_files file))
  /\ Config.output_encoding sampleLoaded
     = Some (default "utf-8" (Config.output_encoding file))
  /\ Config.visual sampleLoaded = Some (default defaultVisual (Config.visual file)).
Proof.
  apply (loading_fills_missing_settings stableEngine PROJECT_DETECTION_RULES denoAndNext
           (Some sampleText) "/p" false sampleLoaded).
  vm_compute. reflexivity.
Defined.

Lemma loading_without_detection_witness :
  exists c,
    loadConfig stableEngine PROJECT_DETECTION_RULES denoAndNext (Some sampleText) "/p" true
    = (PROJECT_DETECTION_RULES, Loaded c)
    /\ Config.project_type c = Config.project_type (readConfig (Some sampleText))
    /\ Config.ignoreFiles c = Config.ignoreFiles (readConfig (Some sampleText))
    /\ Config.ignoreFolders c = Config.ignoreFolders (readConfig (Some sampleText))
    /\ Config.ignoreExtensions c = Config.ignoreExtensions (readConfig (Some sampleText)).
Proof.
  apply (loading_without_detection stableEngine PROJECT_DETECTION_RULES denoAndNext
           (Some sampleText) "/p" true).
  by left.
Defined.

Lemma loading_keeps_user_entries_witness :
  exists rest, Config.ignoreFiles sampleLoaded = Some (["notes.txt"; ".git"] ++ rest)%list.
Proof.
  apply (loading_keeps_user_entries stableEngine PROJECT_DETECTION_RULES denoAndNext
           (Some sampleText) "/p" false sampleLoaded Config.ignoreFiles).
  - vm_compute. reflexivity.
  - by left.
  - vm_compute. reflexivity.
  - apply (bool_decide_unpack _). vm_compute. exact I.
Defined.

Lemma detected_type_replaces_configured_type_witness :
  exists t,
    Config.project_type sampleLoaded = Some t
    /\ In t ["Next.js"; "Deno"; "React"]
    /\ In t (List.map rule_name PROJECT_DETECTION_RULES)
    /\ (hasDenoJson denoAndNext "/p" = Some true -> In "Deno" ["Next.js"; "Deno"; "React"] ->
        t = "Deno")
    /\ (hasDenoJson denoAndNext "/p" <> Some true ->
        head ["Next.js"; "Deno"; "React"] = Some t).
Proof.
  apply (detected_type_replaces_configured_type stableEngine PROJECT_DETECTION_RULES
           denoAndNext (Some sampleText) "/p" sampleLoaded ["Next.js"; "Deno"; "React"]).
  - vm_compute. discriminate.
  - vm_compute. reflexivity.
  - discriminate.
  - vm_compute. reflexivity.
Defined.

Lemma loading_fails_iff_existence_check_fails_witness :
  (snd (loadConfig stableEngine PROJECT_DETECTION_RULES noAccess (Some sampleText) "/p" false)
   = Failed
   <-> detects (Some sampleText) false = true
       /\ Exists (failingCheck noAccess "/p") PROJECT_DETECTION_RULES)
  /\ fst (loadConfig stableEngine PROJECT_DETECTION_RULES noAccess (Some sampleText) "/p" false)
     = if detects (Some sampleText) false
       then stableSort compareRules PROJECT_DETECTION_RULES
       else PROJECT_DETECTION_RULES.
Proof.
  apply (loading_fails_iff_existence_check_fails stableEngine PROJECT_DETECTION_RULES
           noAccess (Some sampleText) "/p" false).
  assert (H : forallb (fun r => negb (inherited (rule_name r))) PROJECT_DETECTION_RULES
              = true) by (vm_compute; reflexivity).
  rewrite forallb_forall in H. apply Forall_forall. intros r Hr%list_elem_of_In.
  apply H in Hr. by destruct (inherited _).
Defined.

End LoadingExamples.

(** ** The entries of a .gitignore file *)

Module Gitignore.
Import Js.

(** The filter of [readGitignore]: neither blank nor a comment *)
Definition isEntry (line : string) : bool :=
  negb (String.eqb line "") && negb (startsWith line "#").

(** [readGitignore(dirPath)], by whether the file is found and by its text
    ([None]: reading it throws, which is caught) *)
Definition readGitignore (found : bool) (gitignoreContent : option string) : list string :=
  if negb found then []
  else match gitignoreContent with
       | Some text => List.filter isEntry (List.map trim (split LF text))
       | None => []
       end.

End Gitignore.

Section GitignoreFacts.
Import Js Gitignore.

Lemma trimEnd_idem (s : string) : trimEnd (trimEnd s) = trimEnd s.
Proof.
  induction s as [|c s IH]; [done|]. rewrite trimEnd_cons.
  destruct (String.eqb (trimEnd s) "") eqn:E.
  - destruct (isWhiteSpace c) eqn:Ec; [done|]. cbn [trimEnd]. by rewrite Ec.
  - rewrite trimEnd_cons, IH. by rewrite E.
Qed.

Lemma trimStart_head (s : string) :
  trimStart s = "" \/ exists c r, trimStart s = String c r /\ isWhiteSpace c = false.
Proof.
  induction s as [|c s IH]; [by left|]. cbn [trimStart].
  destruct (isWhiteSpace c) eqn:E; [done|]. right. by exists c, s.
Qed.

Lemma trim_idem (s : string) : trimmed (trim s).
Proof.
  unfold trimmed, trim. destruct (trimStart_head s) as [->|(c & r & -> & Hc)]; [done|].
  assert (H : exists r', trimEnd (String c r) = String c r').
  { rewrite trimEnd_cons. destruct (String.eqb (trimEnd r) ""); [|by eexists].
    rewrite Hc. by eexists. }
  destruct H as [r' Hr]. rewrite Hr at 1. cbn [trimStart]. rewrite Hc, <- Hr.
  apply trimEnd_idem.
Qed.

Lemma oneLine_cons_iff (c : ascii) (s : string) :
  oneLine (String c s) <-> Ascii.eqb c LF = false /\ oneLine s.
Proof.
  split; [apply oneLine_cons|]. intros [Hc Hs]. unfold oneLine, nl in *.
  cbn [includes startsWith]. rewrite Hs, startsWith_empty, Ascii.eqb_sym, Hc. done.
Qed.

Lemma oneLine_trim (s : string) : oneLine s -> oneLine (trim s).
Proof.
  unfold trim. intros H.
  assert (Hs : oneLine (trimStart s)).
  { induction s as [|c s IH]; [done|]. cbn [trimStart].
    destruct (isWhiteSpace c); [|done]. apply IH. by apply oneLine_cons in H as [_ ?]. }
  clear H. induction (trimStart s) as [|c t IH]; [done|].
  apply oneLine_cons in Hs as [Hc Ht]. rewrite trimEnd_cons.
  destruct (String.eqb (trimEnd t) "").
  - destruct (isWhiteSpace c); [done|]. by apply oneLine_cons_iff.
  - apply oneLine_cons_iff. auto.
Qed.

Lemma split_lines_oneLine (s : string) : Forall oneLine (split LF s).
Proof.
  induction s as [|c s IH]; [by repeat constructor|]. cbn [split].
  destruct (Ascii.eqb c LF) eqn:E; [by constructor|].
  destruct (split LF s) as [|h t]; [by repeat constructor; apply oneLine_cons_iff|].
  apply Forall_cons in IH as [Hh Ht]. constructor; [|done]. by apply oneLine_cons_iff.
Qed.

(** An entry as [readGitignore] gives it *)
Definition cleanEntry (x : string) : Prop :=
  trimmed x /\ oneLine x /\ x <> "" /\ startsWith x "#" = false.

Lemma readGitignore_entries (entries : list string) :
  Forall cleanEntry entries -> readGitignore true (Some (join nl entries)) = entries.
Proof.
  intros H. unfold readGitignore. cbn [negb].
  destruct entries as [|x entries]; [done|].
  rewrite split_join_lines; [|by eapply Forall_impl; [exact H|]; intros ? (_ & ? & _)|done].
  induction H as [|y l (Ht & _ & Hne & Hc) _ IH]; [done|].
  cbn [List.map List.filter]. rewrite Ht. unfold isEntry at 1.
  apply String.eqb_neq in Hne. rewrite Hne, Hc. cbn [negb andb]. by rewrite IH.
Qed.

(** X25: what is read from a .gitignore are its lines, trimmed, without the
    blank ones and the comments; a file made of these entries, one on a
    line, is read as the same entries.  When the file is missing or
    cannot be read there are none. *)
Theorem gitignore_entries_are_stable (found : bool) (gitignoreContent : option string) :
  let entries := readGitignore found gitignoreContent in
  Forall cleanEntry entries
  /\ readGitignore true (Some (join nl entries)) = entries
  /\ (found = false \/ gitignoreContent = None -> entries = []).
Proof.
  cbv zeta.
  assert (H : Forall cleanEntry (readGitignore found gitignoreContent)).
  { unfold readGitignore. destruct found; [|done]. destruct gitignoreContent as [text|]; [|done].
    cbn [negb]. apply Forall_forall. intros x Hx%list_elem_of_In.
    apply filter_In in Hx as [Hx Hentry]. apply in_map_iff in Hx as (line & <- & Hline).
    unfold isEntry in Hentry. apply andb_true_iff in Hentry as [Hne Hc].
    apply negb_true_iff in Hne, Hc. apply String.eqb_neq in Hne.
    split; [apply trim_idem|]. split; [|done].
    apply oneLine_trim. pose proof (split_lines_oneLine text) as Hall.
    rewrite Forall_forall in Hall. by apply Hall, list_elem_of_In. }
  split; [done|]. split; [by apply readGitignore_entries|].
  unfold readGitignore. intros [-> | ->]; [done|]. by destruct found.
Qed.

Lemma gitignore_entries_are_stable_witness :
  readGitignore false (Some "node_modules") = [].
Proof.
  apply (proj2 (proj2 (gitignore_entries_are_stable false (Some "node_modules")))).
  by left.
Defined.

End GitignoreFacts.
